(** * Type declarations and type-checker fixtures of the repository

    The repository holds an ambient declaration file for React 15
    ([types/react/v15/index.d.ts]), the fixture of the jquery.cookie
    declarations, the fixture of the yazl declarations and a checker
    configuration.  Declarations are embedded as the data they are: types
    of the declaration language, signatures, interfaces, classes; fixtures
    as annotated statements.  The meaning of a declared type is a decidable
    set of values ([has_type]) and a decidable assignability relation
    ([assignable]), both executable. *)

From Stdlib Require Import String List Bool ZArith.
Import ListNotations.
Open Scope string_scope.

Set Warnings "-register-all".

(** ** The declaration language *)

Module TS.

(** How a parameter or a property is marked: [x: T], [x?: T] or [...x: T]. *)
Inductive pkind : Type := Required | Optional | Rest.

Inductive ty : Type :=
| TAny
| TString
| TNumber
| TBoolean
| TVoid
| TNull
| TUndefined
| TStrLit (s : string)                               (* "anonymous" *)
| TBoolLit (b : bool)                                (* false *)
| TRef (name : string) (args : list ty)              (* ReactElement<P>, P *)
| TUnion (ts : list ty)                              (* A | B *)
| TInter (ts : list ty)                              (* A & B *)
| TArray (t : ty)                                    (* T[] *)
| TObj (members : list (string * pkind * ty))        (* { a: A; b?: B } *)
| TDict (key val : ty)                               (* { [key: string]: V } *)
| TFun (params : list (string * pkind * ty)) (ret : ty)  (* (x: A) => B *)
| TNew (params : list (string * pkind * ty)) (ret : ty)  (* new (x: A) => B *)
| TKeyof (t : ty)                                    (* keyof T *)
| TIs (param : string) (t : ty).                     (* object is T *)

Definition prop : Type := (string * pkind * ty)%type.
Definition prop_name (p : prop) : string := fst (fst p).
Definition prop_kind (p : prop) : pkind := snd (fst p).
Definition prop_type (p : prop) : ty := snd p.

Definition is_optional (k : pkind) : bool :=
  match k with Optional => true | _ => false end.

(** A type parameter [P extends C = D]. *)
Record tparam : Type := TParam {
  tp_name : string;
  tp_constraint : option ty;
  tp_default : option ty
}.

(** A call signature [<Ps>(params): ret]. *)
Record signature : Type := Sig {
  s_tparams : list tparam;
  s_params : list prop;
  s_ret : ty
}.

(** Expressions and statements, as far as the fixtures use them.  The body
    of an arrow function is the list of the expression statements of its
    block ([block = true]) or its single expression ([block = false]). *)
Inductive expr : Type :=
| EStr (s : string)
| ENum (n : Z)
| EBool (b : bool)
| ENull
| EId (x : string)
| EThis
| EMember (e : expr) (p : string)                    (* e.p *)
| ECall (f : expr) (args : list expr)                (* f(args) *)
| ENew (cls : string) (args : list expr)             (* new C(args) *)
| EObj (fields : list (string * expr))               (* { a: e } *)
| EArrow (params : list string) (block : bool) (body : list expr)
| ECast (t : ty) (e : expr).                         (* <T> e *)

Inductive varkind : Type := KVar | KConst.

Inductive stmt : Type :=
| SExpr (e : expr)                                   (* e; *)
| SAssign (target e : expr)                          (* target = e; *)
| SVar (k : varkind) (x : string) (init : expr).     (* var x = init; *)

(** What kind of routine a function is: a plain one, a generator
    ([function*]) or an [async] one. *)
Inductive fkind : Type := Plain | Generator | Async.

(** A function or method declaration.  [f_line] is the line of the source
    file it starts on.  An ambient declaration has no body. *)
Record fundecl : Type := Fun {
  f_name : string;
  f_line : nat;
  f_kind : fkind;
  f_sig : signature;
  f_body : option (list stmt)
}.

(** [interface I<Ps> extends Bs { members; call signatures }]. *)
Record iface : Type := Iface {
  i_name : string;
  i_tparams : list tparam;
  i_extends : list ty;
  i_members : list prop;
  i_calls : list signature
}.

(** [type A<Ps> = body]. *)
Record alias : Type := Alias {
  a_name : string;
  a_tparams : list tparam;
  a_body : ty
}.

(** [class C<Ps> extends B implements Is { properties; methods }]. *)
Record classdecl : Type := Class {
  c_name : string;
  c_tparams : list tparam;
  c_extends : option ty;
  c_implements : list ty;
  c_props : list prop;
  c_methods : list fundecl
}.

(** Values of the host runtime, as far as the declared types tell them
    apart.  An object carries the name of the interface or class it is an
    instance of. *)
Inductive value : Type :=
| VUndefined
| VNull
| VBool (b : bool)
| VNum (n : Z)
| VStr (s : string)
| VObj (cls : string) (fields : list (string * value)).

Definition find_alias (env : list alias) (n : string) : option alias :=
  find (fun a => String.eqb (a_name a) n) env.

Definition find_iface (env : list iface) (n : string) : option iface :=
  find (fun i => String.eqb (i_name i) n) env.

Definition find_prop (ms : list prop) (n : string) : option prop :=
  find (fun p => String.eqb (prop_name p) n) ms.

(** Membership of a value in a type.  [fuel] bounds the depth to which the
    type is explored.  A reference to an alias without type parameters is
    unfolded; a reference to anything else is met by the objects that carry
    its name.  Function, object-literal and array types classify no value
    of this first-order universe. *)
Fixpoint has_type (env : list alias) (fuel : nat) (v : value) (t : ty) : bool :=
  match fuel with
  | O => false
  | S fuel' =>
      match t with
      | TAny => true
      | TString => match v with VStr _ => true | _ => false end
      | TNumber => match v with VNum _ => true | _ => false end
      | TBoolean => match v with VBool _ => true | _ => false end
      | TVoid | TUndefined => match v with VUndefined => true | _ => false end
      | TNull => match v with VNull => true | _ => false end
      | TStrLit s => match v with VStr s' => String.eqb s s' | _ => false end
      | TBoolLit b => match v with VBool b' => Bool.eqb b b' | _ => false end
      | TUnion ts => existsb (has_type env fuel' v) ts
      | TInter ts => forallb (has_type env fuel' v) ts
      | TRef n _ =>
          match find_alias env n with
          | Some a =>
              match a_tparams a with
              | [] => has_type env fuel' v (a_body a)
              | _ :: _ => false
              end
          | None => match v with VObj c _ => String.eqb c n | _ => false end
          end
      | TArray _ | TObj _ | TDict _ _ | TFun _ _ | TNew _ _ | TKeyof _ | TIs _ _ =>
          false
      end
  end.

(** *** Classes as types *)

(** The members of an instance of a class: its properties, then its
    methods, each a required member of function type.  The constructor is
    no member of the instance.  The type parameters of a generic method
    stay free in the type of the member. *)
Definition class_members (c : classdecl) : list prop :=
  c_props c
  ++ flat_map
       (fun f =>
          if String.eqb (f_name f) "constructor" then []
          else [(f_name f, Required,
                 TFun (s_params (f_sig f)) (s_ret (f_sig f)))])
       (c_methods c).

Definition class_bases (c : classdecl) : list ty :=
  match c_extends c with Some b => [b] | None => [] end.

(** The type of the instances of a class that no interface merges with. *)
Definition class_type (c : classdecl) : iface :=
  Iface (c_name c) (c_tparams c) (class_bases c) (class_members c) [].

(** Declaration merging: an interface and a class of the same name declare
    one type.  It has the type parameters of the interface, with their
    defaults, the bases of both and the members of both. *)
Definition merge_class (c : classdecl) (i : iface) : iface :=
  Iface (i_name i) (i_tparams i) (i_extends i ++ class_bases c)
    (i_members i ++ class_members c) (i_calls i).

(** The object types that interfaces and classes declare together: every
    interface, merged with the class of its name if there is one, and
    every class that has no interface of its name. *)
Definition object_types (ifaces : list iface) (classes : list classdecl)
  : list iface :=
  map (fun i =>
         match find (fun c => String.eqb (c_name c) (i_name i)) classes with
         | Some c => merge_class c i
         | None => i
         end)
      ifaces
  ++ map class_type
       (filter
          (fun c =>
             negb (existsb (fun i => String.eqb (i_name i) (c_name c)) ifaces))
          classes).

(** *** Members and assignability *)

(** The declarations a type is read against. *)
Record env : Type := Env {
  e_aliases : list alias;
  e_ifaces : list iface
}.

Definition has_prop (ms : list prop) (n : string) : bool :=
  existsb (fun p => String.eqb (prop_name p) n) ms.

(** Members of [base] that [own] does not declare again. *)
Definition inherit (own base : list prop) : list prop :=
  own ++ filter (fun p => negb (has_prop own (prop_name p))) base.

(** The members of an object type: those of an object literal type, those
    an interface declares or inherits (a member declared again replaces the
    inherited one), those of the parts of an intersection.  An alias is
    unfolded.  Members are given as declared: type arguments are not
    substituted for the parameters of the declaring interface. *)
Fixpoint members_of (E : env) (fuel : nat) (t : ty) : option (list prop) :=
  match fuel with
  | O => None
  | S fuel' =>
      match t with
      | TObj ms => Some ms
      | TRef n _ =>
          match find_iface (e_ifaces E) n with
          | Some i =>
              Some (fold_left
                      (fun acc b =>
                         match members_of E fuel' b with
                         | Some ms => inherit acc ms
                         | None => acc
                         end)
                      (i_extends i) (i_members i))
          | None =>
              match find_alias (e_aliases E) n with
              | Some a => members_of E fuel' (a_body a)
              | None => None
              end
          end
      | TInter ts =>
          fold_left
            (fun acc u =>
               match acc, members_of E fuel' u with
               | Some ms, Some ms' => Some (inherit ms ms')
               | _, _ => None
               end)
            ts (Some [])
      | _ => None
      end
  end.

(** The member [m] of the object type [t], own or inherited. *)
Definition member_of (E : env) (fuel : nat) (t : ty) (m : string) : option prop :=
  match members_of E fuel t with
  | Some ms => find_prop ms m
  | None => None
  end.

(** Is a name declared in [E]? *)
Definition declared (E : env) (n : string) : bool :=
  match find_iface (e_ifaces E) n, find_alias (e_aliases E) n with
  | None, None => false
  | _, _ => true
  end.

(** The type read from, or written to, a property: an optional property
    may be [undefined]. *)
Definition prop_value_type (p : prop) : ty :=
  if is_optional (prop_kind p) then TUnion [prop_type p; TUndefined]
  else prop_type p.

(** Property-wise comparison of object types: every member of the target
    is met by a member of the source that is required if the target's is,
    or is optional in the target and missing in the source. *)
Definition props_assignable (cmp : ty -> ty -> bool) (src tgt : list prop) : bool :=
  forallb
    (fun q =>
       match find_prop src (prop_name q) with
       | Some p =>
           (is_optional (prop_kind q) || negb (is_optional (prop_kind p)))
           && cmp (prop_value_type p) (prop_value_type q)
       | None => is_optional (prop_kind q)
       end)
    tgt.

(** The body of the alias without parameters that a type refers to. *)
Definition unalias (E : env) (t : ty) : option ty :=
  match t with
  | TRef n [] =>
      match find_alias (e_aliases E) n with
      | Some a =>
          match a_tparams a with
          | [] => Some (a_body a)
          | _ :: _ => None
          end
      | None => None
      end
  | _ => None
  end.

(** Assignability of a source type to a target type, under null-checking.
    Aliases are unfolded; unions, intersections, primitive and literal
    types are compared as such, object types member by member; two
    references to a type that is not declared in [E] are compared by
    name and, argument by argument, by their type arguments. *)
Fixpoint assignable (E : env) (fuel : nat) (s t : ty) : bool :=
  match fuel with
  | O => false
  | S fuel' =>
      match unalias E s, unalias E t with
      | Some s', _ => assignable E fuel' s' t
      | None, Some t' => assignable E fuel' s t'
      | None, None =>
          match s, t with
          | _, TAny => true
          | TAny, _ => true
          | TUnion ss, _ => forallb (fun s' => assignable E fuel' s' t) ss
          | _, TUnion ts => existsb (assignable E fuel' s) ts
          | _, TInter ts => forallb (assignable E fuel' s) ts
          | TString, TString | TNumber, TNumber | TBoolean, TBoolean
          | TNull, TNull | TUndefined, TUndefined | TVoid, TVoid
          | TUndefined, TVoid => true
          | TStrLit _, TString | TBoolLit _, TBoolean => true
          | TStrLit a, TStrLit b => String.eqb a b
          | TBoolLit a, TBoolLit b => Bool.eqb a b
          | TArray a, TArray b => assignable E fuel' a b
          | _, _ =>
              match members_of E fuel' s, members_of E fuel' t with
              | Some ms, Some mt => props_assignable (assignable E fuel') ms mt
              | _, _ =>
                  match s, t with
                  | TRef a sa, TRef b sb =>
                      String.eqb a b && negb (declared E a)
                      && (fix all2 (l1 l2 : list ty) : bool :=
                            match l1, l2 with
                            | [], [] => true
                            | x :: l1', y :: l2' =>
                                assignable E fuel' x y && all2 l1' l2'
                            | _, _ => false
                            end) sa sb
                  | _, _ => false
                  end
              end
          end
      end
  end.

(** *** Instantiating a signature *)

Definition lookup_ty (sigma : list (string * ty)) (n : string) : option ty :=
  match find (fun b => String.eqb (fst b) n) sigma with
  | Some b => Some (snd b)
  | None => None
  end.

(** The type [t] with the parameters that [sigma] instantiates replaced. *)
Fixpoint subst (sigma : list (string * ty)) (t : ty) : ty :=
  match t with
  | TRef n [] =>
      match lookup_ty sigma n with Some u => u | None => t end
  | TRef n args => TRef n (map (subst sigma) args)
  | TUnion ts => TUnion (map (subst sigma) ts)
  | TInter ts => TInter (map (subst sigma) ts)
  | TArray u => TArray (subst sigma u)
  | TObj ms => TObj (map (fun p => (fst p, subst sigma (snd p))) ms)
  | TDict k v => TDict (subst sigma k) (subst sigma v)
  | TFun ps r => TFun (map (fun p => (fst p, subst sigma (snd p))) ps) (subst sigma r)
  | TNew ps r => TNew (map (fun p => (fst p, subst sigma (snd p))) ps) (subst sigma r)
  | TKeyof u => TKeyof (subst sigma u)
  | TIs x u => TIs x (subst sigma u)
  | TAny | TString | TNumber | TBoolean | TVoid | TNull | TUndefined
  | TStrLit _ | TBoolLit _ => t
  end.

(** Does the instantiation [sigma] of the type parameters of [s] respect
    every constraint [X extends C]?  A call whose instantiation does not
    is rejected. *)
Definition constraints_ok (E : env) (fuel : nat) (s : signature)
    (sigma : list (string * ty)) : bool :=
  forallb
    (fun p =>
       match tp_constraint p with
       | Some c => assignable E fuel (subst sigma (TRef (tp_name p) [])) (subst sigma c)
       | None => true
       end)
    (s_tparams s).

Definition find_tparam (s : signature) (n : string) : option tparam :=
  find (fun p => String.eqb (tp_name p) n) (s_tparams s).

Definition method (c : classdecl) (n : string) : option fundecl :=
  find (fun f => String.eqb (f_name f) n) (c_methods c).

(** *** Expressions *)

(** The type of an expression: a literal has its primitive type, an object
    literal the type of its fields, [new C(..)] the type [C], a cast the
    type it names, a variable the type [vars] records for it. *)
Fixpoint type_of (vars : list (string * ty)) (e : expr) : option ty :=
  match e with
  | EStr _ => Some TString
  | ENum _ => Some TNumber
  | EBool _ => Some TBoolean
  | ENull => Some TNull
  | EId x =>
      match find (fun b => String.eqb (fst b) x) vars with
      | Some b => Some (snd b)
      | None => None
      end
  | ENew c _ => Some (TRef c [])
  | ECast t _ => Some t
  | EObj fields =>
      (fix go (fs : list (string * expr)) : option ty :=
         match fs with
         | [] => Some (TObj [])
         | (n, e') :: fs' =>
             match type_of vars e', go fs' with
             | Some t, Some (TObj ms) => Some (TObj ((n, Required, t) :: ms))
             | _, _ => None
             end
         end) fields
  | EThis | EMember _ _ | ECall _ _ | EArrow _ _ _ => None
  end.


(** *** Source files of fixtures *)

(** The items a fixture file is made of. *)
Inductive item : Type :=
| IImport (names : list string) (from : string)     (* import { a } from "m" *)
| IImportEq (name : string) (from : string)         (* import a = require("m") *)
| IClass (c : classdecl)
| IStmt (s : stmt).

(** The comment that precedes an item and tells the checker what to
    expect of it. *)
Inductive annotation : Type :=
| NoAnnotation
| TsExpectError                                      (* // @ts-expect-error *)
| ExpectType (t : string).                           (* // $ExpectType T *)

Record fixture_line : Type := Line {
  l_line : nat;
  l_annot : annotation;
  l_item : item
}.

(** What a fixture line asserts: that it type-checks, that it is
    rejected, or that its expression has a given type. *)
Inductive assertion : Type :=
| MustTypeCheck
| MustBeRejected
| MustHaveType (t : string).

Definition assertion_of (l : fixture_line) : assertion :=
  match l_annot l with
  | NoAnnotation => MustTypeCheck
  | TsExpectError => MustBeRejected
  | ExpectType t => MustHaveType t
  end.

(** Does the line carry an annotation? *)
Definition annotated (l : fixture_line) : bool :=
  match l_annot l with NoAnnotation => false | _ => true end.


(** The arrow functions of an expression, outermost first. *)
Fixpoint arrows_of (e : expr) : list expr :=
  match e with
  | EMember e' _ | ECast _ e' => arrows_of e'
  | ECall f args => arrows_of f ++ flat_map arrows_of args
  | ENew _ args => flat_map arrows_of args
  | EObj fields => flat_map (fun f => arrows_of (snd f)) fields
  | EArrow _ _ body => e :: flat_map arrows_of body
  | EStr _ | ENum _ | EBool _ | ENull | EId _ | EThis => []
  end.

Definition exprs_of_stmt (s : stmt) : list expr :=
  match s with
  | SExpr e => [e]
  | SAssign t e => [t; e]
  | SVar _ _ e => [e]
  end.

(** Every function of an item with its body, if it has one: the methods of
    a class and the arrow functions of a statement. *)
Definition bodies_of_item (i : item) : list (string * option (list stmt)) :=
  match i with
  | IClass c =>
      map (fun f => (c_name c ++ "." ++ f_name f, f_body f)) (c_methods c)
  | IStmt s =>
      flat_map
        (fun e =>
           map (fun a =>
                  match a with
                  | EArrow _ _ body => ("=>", Some (map SExpr body))
                  | _ => ("=>", None)
                  end)
               (arrows_of e))
        (exprs_of_stmt s)
  | IImport _ _ | IImportEq _ _ => []
  end.

Definition bodies_of (f : list fixture_line) : list (string * option (list stmt)) :=
  flat_map (fun l => bodies_of_item (l_item l)) f.

Definition has_body (b : string * option (list stmt)) : bool :=
  match snd b with Some _ => true | None => false end.

(** *** Running a constructor *)

Definition set_field (f : string) (v : value) (o : list (string * value))
  : list (string * value) :=
  if existsb (fun b => String.eqb (fst b) f) o
  then map (fun b => if String.eqb (fst b) f then (f, v) else b) o
  else o ++ [(f, v)].

Definition eval_simple (locals : list (string * value)) (e : expr) : option value :=
  match e with
  | EStr s => Some (VStr s)
  | ENum n => Some (VNum n)
  | EBool b => Some (VBool b)
  | ENull => Some VNull
  | EId x =>
      match find (fun b => String.eqb (fst b) x) locals with
      | Some b => Some (snd b)
      | None => None
      end
  | _ => None
  end.

(** A body of assignments [this.f = e;] run on the fields of [this]. *)
Fixpoint exec_body (locals this : list (string * value)) (body : list stmt)
  : option (list (string * value)) :=
  match body with
  | [] => Some this
  | SAssign (EMember EThis f) e :: rest =>
      match eval_simple locals e with
      | Some v => exec_body locals (set_field f v this) rest
      | None => None
      end
  | _ :: _ => None
  end.

(** [new C(argv)]: the constructor's body is run with its parameters bound
    to the arguments.  A class without a constructor gives an object
    without initialised fields; a constructor without a body cannot be run. *)
Definition construct (c : classdecl) (argv : list value) : option value :=
  match find (fun f => String.eqb (f_name f) "constructor") (c_methods c) with
  | None => Some (VObj (c_name c) [])
  | Some k =>
      match f_body k with
      | None => None
      | Some body =>
          match exec_body (combine (map prop_name (s_params (f_sig k))) argv) [] body with
          | Some fields => Some (VObj (c_name c) fields)
          | None => None
          end
      end
  end.

(** *** Names a declaration refers to *)

Definition mem (n : string) (l : list string) : bool :=
  existsb (String.eqb n) l.

(** The names of the types a type mentions. *)
Fixpoint type_refs (t : ty) : list string :=
  match t with
  | TRef n args => n :: flat_map type_refs args
  | TUnion ts | TInter ts => flat_map type_refs ts
  | TArray u | TKeyof u | TIs _ u => type_refs u
  | TObj ms => flat_map (fun p => type_refs (snd p)) ms
  | TDict k v => type_refs k ++ type_refs v
  | TFun ps r | TNew ps r => flat_map (fun p => type_refs (snd p)) ps ++ type_refs r
  | TAny | TString | TNumber | TBoolean | TVoid | TNull | TUndefined
  | TStrLit _ | TBoolLit _ => []
  end.

Definition opt_refs (o : option ty) : list string :=
  match o with Some t => type_refs t | None => [] end.

Definition tparam_refs (p : tparam) : list string :=
  opt_refs (tp_constraint p) ++ opt_refs (tp_default p).

(** Names used under the type parameters [ps], the parameters themselves
    left out. *)
Definition under (ps : list tparam) (refs : list string) : list string :=
  filter (fun n => negb (mem n (map tp_name ps))) (flat_map tparam_refs ps ++ refs).

Definition props_refs (ms : list prop) : list string :=
  flat_map (fun p => type_refs (prop_type p)) ms.

Definition sig_refs (s : signature) : list string :=
  under (s_tparams s) (props_refs (s_params s) ++ type_refs (s_ret s)).

Definition alias_refs (a : alias) : list string :=
  under (a_tparams a) (type_refs (a_body a)).

Definition iface_refs (i : iface) : list string :=
  under (i_tparams i)
    (flat_map type_refs (i_extends i) ++ props_refs (i_members i)
     ++ flat_map sig_refs (i_calls i)).

Definition class_refs (c : classdecl) : list string :=
  under (c_tparams c)
    (opt_refs (c_extends c) ++ flat_map type_refs (c_implements c)
     ++ props_refs (c_props c)
     ++ flat_map (fun f => sig_refs (f_sig f)) (c_methods c)).

(** *** The graph of type references *)

Definition graph : Type := list (string * list string).

Definition succs (g : graph) (n : string) : list string :=
  flat_map (fun e => if String.eqb (fst e) n then snd e else []) g.

(** Is [to] reached from [from] by a path of one to [fuel] references? *)
Fixpoint reaches (g : graph) (fuel : nat) (from to : string) : bool :=
  match fuel with
  | O => false
  | S fuel' =>
      existsb (fun n => String.eqb n to || reaches g fuel' n to) (succs g from)
  end.

Definition cyclic (g : graph) (fuel : nat) (n : string) : bool :=
  reaches g fuel n n.

(** *** Names a fixture uses and binds *)

(** The identifiers and class names an expression uses that [bound] does
    not bind, and the type names of its casts. *)
Fixpoint ids_of (bound : list string) (e : expr) : list string :=
  match e with
  | EId x => if mem x bound then [] else [x]
  | EMember e' _ => ids_of bound e'
  | ECall f args => ids_of bound f ++ flat_map (ids_of bound) args
  | ENew c args => (if mem c bound then [] else [c]) ++ flat_map (ids_of bound) args
  | EObj fields => flat_map (fun f => ids_of bound (snd f)) fields
  | EArrow ps _ body => flat_map (ids_of (ps ++ bound)) body
  | ECast t e' =>
      filter (fun n => negb (mem n bound)) (type_refs t) ++ ids_of bound e'
  | EStr _ | ENum _ | EBool _ | ENull | EThis => []
  end.

Definition stmt_ids (bound : list string) (s : stmt) : list string :=
  flat_map (ids_of bound) (exprs_of_stmt s).

Definition method_ids (bound : list string) (f : fundecl) : list string :=
  filter (fun n => negb (mem n bound)) (sig_refs (f_sig f))
  ++ match f_body f with
     | Some body =>
         flat_map (stmt_ids (map prop_name (s_params (f_sig f)) ++ bound)) body
     | None => []
     end.

(** The names an item introduces at the top level of its file. *)
Definition binds (i : item) : list string :=
  match i with
  | IImport names _ => names
  | IImportEq n _ => [n]
  | IClass c => [c_name c]
  | IStmt (SVar _ x _) => [x]
  | IStmt _ => []
  end.

Definition bound_names (f : list fixture_line) : list string :=
  flat_map (fun l => binds (l_item l)) f.

(** The names an item uses that the file does not bind. *)
Definition item_uses (bound : list string) (i : item) : list string :=
  match i with
  | IImport _ _ | IImportEq _ _ => []
  | IClass c =>
      filter (fun n => negb (mem n bound))
        (opt_refs (c_extends c) ++ flat_map type_refs (c_implements c)
         ++ props_refs (c_props c))
      ++ flat_map (method_ids bound) (c_methods c)
  | IStmt s => stmt_ids bound s
  end.

Definition external_names (f : list fixture_line) : list string :=
  nodup string_dec (flat_map (fun l => item_uses (bound_names f) (l_item l)) f).

(** The modules a fixture imports. *)
Definition imports (f : list fixture_line) : list string :=
  flat_map
    (fun l =>
       match l_item l with
       | IImport _ m | IImportEq _ m => [m]
       | _ => []
       end)
    f.

(** The variable an access path starts from. *)
Fixpoint root_of (e : expr) : option string :=
  match e with
  | EId x => Some x
  | EMember e' _ | ECast _ e' => root_of e'
  | ECall f _ => root_of f
  | _ => None
  end.

(** The objects a fixture assigns to: the root of the target of each
    assignment statement. *)
Definition assigned_roots (f : list fixture_line) : list string :=
  flat_map
    (fun l =>
       match l_item l with
       | IStmt (SAssign t _) =>
           match root_of t with Some x => [x] | None => [] end
       | _ => []
       end)
    f.

(** The calls of an expression, outermost first, as the root of the
    callee and the called member. *)
Fixpoint calls_of (e : expr) : list (option string * option string) :=
  match e with
  | ECall f args =>
      (root_of f, match f with EMember _ m => Some m | _ => None end)
      :: calls_of f ++ flat_map calls_of args
  | EMember e' _ | ECast _ e' => calls_of e'
  | ENew _ args => flat_map calls_of args
  | EObj fields => flat_map (fun f => calls_of (snd f)) fields
  | EArrow _ _ body => flat_map calls_of body
  | EStr _ | ENum _ | EBool _ | ENull | EId _ | EThis => []
  end.

Definition fixture_calls (f : list fixture_line) : list (option string * option string) :=
  flat_map
    (fun l =>
       match l_item l with
       | IStmt s => flat_map calls_of (exprs_of_stmt s)
       | _ => []
       end)
    f.

(** The calls of an item: those of a statement, and those of the bodies of
    the methods of a class. *)
Definition item_calls (i : item) : list (option string * option string) :=
  match i with
  | IStmt s => flat_map calls_of (exprs_of_stmt s)
  | IClass c =>
      flat_map
        (fun f =>
           match f_body f with
           | Some body => flat_map (fun s => flat_map calls_of (exprs_of_stmt s)) body
           | None => []
           end)
        (c_methods c)
  | IImport _ _ | IImportEq _ _ => []
  end.

(** *** Checks made at run time *)

(** The routines by which a test compares a computed value with an
    expected one when it runs: the assertion functions [assert(..)],
    [assert.equal(..)] and the like, [expect(..)] and its matchers, and
    the [describe], [it] and [test] of a test runner, which hold them. *)
Definition test_routines : list string :=
  ["assert"; "expect"; "describe"; "it"; "test"].

(** Is a call, given by the root of its callee and the member called, a
    check at run time?  [console.assert(..)] is one as well. *)
Definition checks_at_run_time (c : option string * option string) : bool :=
  match fst c with Some r => mem r test_routines | None => false end
  || match snd c with Some m => String.eqb m "assert" | None => false end.

(** What a fixture line is as a test: an assertion for the type checker,
    which its annotation states, or a check made when the line is run. *)
Inductive test : Type :=
| TypeAssertion (a : assertion)
| RunTimeCheck.

Definition test_of (l : fixture_line) : test :=
  if existsb checks_at_run_time (item_calls (l_item l)) then RunTimeCheck
  else TypeAssertion (assertion_of l).

End TS.

(** ** types/react/v15/index.d.ts *)

Module React.
Import TS.

(** Abbreviations used by the transcription below: a type parameter
    without and with a constraint or a default, a reference without type
    arguments, the type parameters in scope, and recurring instances. *)
Definition tp (n : string) : tparam := TParam n None None.
Definition tpx (n : string) (c : ty) : tparam := TParam n (Some c) None.
Definition tpd (n : string) (d : ty) : tparam := TParam n None (Some d).
Definition ref0 (n : string) : ty := TRef n [].
Definition tP : ty := ref0 "P".
Definition tQ : ty := ref0 "Q".
Definition tT : ty := ref0 "T".
Definition tC : ty := ref0 "C".
Definition tS : ty := ref0 "S".
Definition tK : ty := ref0 "K".
Definition Component_P_State : ty := TRef "Component" [tP; ref0 "ComponentState"].
Definition ClassicComponent_P_State : ty :=
  TRef "ClassicComponent" [tP; ref0 "ComponentState"].
Definition children : prop := ("children", Rest, TArray (ref0 "ReactNode")).

(** Line 50. *)
Definition CrossOrigin : alias :=
  Alias "CrossOrigin" []
    (TUnion [TStrLit "anonymous"; TStrLit "use-credentials"; TStrLit ""; TUndefined]).

(** *** React Elements (lines 61-115) *)

Definition ElementType : alias :=
  Alias "ElementType" [tpd "P" TAny] (TUnion [TString; TRef "ComponentType" [tP]]).
Definition ReactType : alias :=
  Alias "ReactType" [tpd "P" TAny] (TRef "ElementType" [tP]).
Definition ComponentType : alias :=
  Alias "ComponentType" [tpd "P" (TObj [])]
    (TUnion [TRef "ComponentClass" [tP]; TRef "StatelessComponent" [tP]]).

Definition Key : alias := Alias "Key" [] (TUnion [TString; TNumber]).

Definition ComponentState : alias := Alias "ComponentState" [] (TObj []).

Definition Attributes : iface :=
  Iface "Attributes" [] []
    [("key", Optional, TUnion [ref0 "Key"; TUndefined])] [].

Definition ClassAttributes : iface :=
  Iface "ClassAttributes" [tp "T"] [ref0 "Attributes"]
    [("ref", Optional, TUnion [TRef "Ref" [tT]; TUndefined])] [].

Definition ReactElement : iface :=
  Iface "ReactElement" [tpd "P" TAny] []
    [("type", Required, TUnion [TString; TRef "ComponentClass" [tP]; TRef "SFC" [tP]]);
     ("props", Required, tP);
     ("key", Required, TUnion [ref0 "Key"; TNull])] [].

Definition SFCElement : iface :=
  Iface "SFCElement" [tp "P"] [TRef "ReactElement" [tP]]
    [("type", Required, TRef "SFC" [tP])] [].

Definition CElement : alias :=
  Alias "CElement" [tp "P"; tpx "T" Component_P_State]
    (TRef "ComponentElement" [tP; tT]).

Definition ComponentElement : iface :=
  Iface "ComponentElement" [tp "P"; tpx "T" Component_P_State]
    [TRef "ReactElement" [tP]]
    [("type", Required, TRef "ComponentClass" [tP]);
     ("ref", Optional, TUnion [TRef "Ref" [tT]; TUndefined])] [].

Definition ClassicElement : alias :=
  Alias "ClassicElement" [tp "P"] (TRef "CElement" [tP; ClassicComponent_P_State]).

Definition DOMElement : iface :=
  Iface "DOMElement"
    [tpx "P" (TUnion [TRef "HTMLAttributes" [tT]; TRef "SVGAttributes" [tT]]);
     tpx "T" (ref0 "Element")]
    [TRef "ReactElement" [tP]]
    [("type", Required, TString);
     ("ref", Required, TRef "Ref" [tT])] [].

Definition ReactHTMLElement : iface :=
  Iface "ReactHTMLElement" [tpx "T" (ref0 "HTMLElement")]
    [TRef "DetailedReactHTMLElement" [TRef "AllHTMLAttributes" [tT]; tT]] [] [].

Definition DetailedReactHTMLElement : iface :=
  Iface "DetailedReactHTMLElement"
    [tpx "P" (TRef "HTMLAttributes" [tT]); tpx "T" (ref0 "HTMLElement")]
    [TRef "DOMElement" [tP; tT]]
    [("type", Required, TKeyof (ref0 "ReactHTML"))] [].

Definition ReactSVGElement : iface :=
  Iface "ReactSVGElement" []
    [TRef "DOMElement" [TRef "SVGAttributes" [ref0 "SVGElement"]; ref0 "SVGElement"]]
    [("type", Required, TKeyof (ref0 "ReactSVG"))] [].

(** *** Factories (lines 140-168) *)

Definition Factory : alias :=
  Alias "Factory" [tp "P"]
    (TFun [("props", Optional, TInter [ref0 "Attributes"; tP]); children]
          (TRef "ReactElement" [tP])).

Definition SFCFactory : alias :=
  Alias "SFCFactory" [tp "P"]
    (TFun [("props", Optional, TInter [ref0 "Attributes"; tP]); children]
          (TRef "SFCElement" [tP])).

Definition ComponentFactory : alias :=
  Alias "ComponentFactory" [tp "P"; tpx "T" Component_P_State]
    (TFun [("props", Optional, TInter [TRef "ClassAttributes" [tT]; tP]); children]
          (TRef "CElement" [tP; tT])).

Definition CFactory : alias :=
  Alias "CFactory" [tp "P"; tpx "T" Component_P_State]
    (TRef "ComponentFactory" [tP; tT]).

Definition ClassicFactory : alias :=
  Alias "ClassicFactory" [tp "P"] (TRef "CFactory" [tP; ClassicComponent_P_State]).

Definition DOMFactory : alias :=
  Alias "DOMFactory" [tpx "P" (TRef "DOMAttributes" [tT]); tpx "T" (ref0 "Element")]
    (TFun [("props", Optional,
            TUnion [TInter [TRef "ClassAttributes" [tT]; tP]; TNull]); children]
          (TRef "DOMElement" [tP; tT])).

Definition HTMLFactory : iface :=
  Iface "HTMLFactory" [tpx "T" (ref0 "HTMLElement")]
    [TRef "DetailedHTMLFactory" [TRef "AllHTMLAttributes" [tT]; tT]] [] [].

Definition DetailedHTMLFactory : iface :=
  Iface "DetailedHTMLFactory"
    [tpx "P" (TRef "HTMLAttributes" [tT]); tpx "T" (ref0 "HTMLElement")]
    [TRef "DOMFactory" [tP; tT]] []
    [Sig [] [("props", Optional,
              TUnion [TInter [TRef "ClassAttributes" [tT]; tP]; TNull]); children]
         (TRef "DetailedReactHTMLElement" [tP; tT])].

Definition SVGFactory : iface :=
  Iface "SVGFactory" []
    [TRef "DOMFactory" [TRef "SVGAttributes" [ref0 "SVGElement"]; ref0 "SVGElement"]] []
    [Sig [] [("props", Optional,
              TUnion [TInter [TRef "ClassAttributes" [ref0 "SVGElement"];
                              TRef "SVGAttributes" [ref0 "SVGElement"]]; TNull]);
             children]
         (ref0 "ReactSVGElement")].

(** *** React Nodes (lines 175-180) *)

Definition ReactText : alias := Alias "ReactText" [] (TUnion [TString; TNumber]).
Definition ReactChild : alias :=
  Alias "ReactChild" [] (TUnion [ref0 "ReactElement"; ref0 "ReactText"]).
Definition ReactNodeArray : iface :=
  Iface "ReactNodeArray" [] [TRef "Array" [ref0 "ReactNode"]] [] [].
Definition ReactFragment : alias :=
  Alias "ReactFragment" [] (TUnion [TObj []; ref0 "ReactNodeArray"]).
Definition ReactNode : alias :=
  Alias "ReactNode" []
    (TUnion [ref0 "ReactChild"; ref0 "ReactFragment"; TBoolean; TNull; TUndefined]).

(** *** Top Level API (lines 186-303) *)

Definition createClass : list fundecl :=
  [Fun "createClass" 186 Plain
     (Sig [tp "P"; tp "S"]
          [("spec", Required, TRef "ComponentSpec" [tP; tS])]
          (TRef "ClassicComponentClass" [tP]))
     None].

Definition ClassType_classic : ty :=
  TRef "ClassType" [tP; ClassicComponent_P_State; TRef "ClassicComponentClass" [tP]].

Definition createFactory : list fundecl :=
  [Fun "createFactory" 189 Plain
     (Sig [tpx "T" (ref0 "HTMLElement")]
          [("type", Required, TKeyof (ref0 "ReactHTML"))]
          (TRef "HTMLFactory" [tT]))
     None;
   Fun "createFactory" 192 Plain
     (Sig [] [("type", Required, TKeyof (ref0 "ReactSVG"))] (ref0 "SVGFactory"))
     None;
   Fun "createFactory" 195 Plain
     (Sig [tpx "P" (TRef "DOMAttributes" [tT]); tpx "T" (ref0 "Element")]
          [("type", Required, TString)]
          (TRef "DOMFactory" [tP; tT]))
     None;
   Fun "createFactory" 200 Plain
     (Sig [tp "P"] [("type", Required, TRef "SFC" [tP])] (TRef "SFCFactory" [tP]))
     None;
   Fun "createFactory" 201 Plain
     (Sig [tp "P"] [("type", Required, ClassType_classic)]
          (TRef "CFactory" [tP; ClassicComponent_P_State]))
     None;
   Fun "createFactory" 204 Plain
     (Sig [tp "P"; tpx "T" Component_P_State; tpx "C" (TRef "ComponentClass" [tP])]
          [("type", Required, TRef "ClassType" [tP; tT; tC])]
          (TRef "CFactory" [tP; tT]))
     None;
   Fun "createFactory" 207 Plain
     (Sig [tp "P"] [("type", Required, TRef "ComponentClass" [tP])]
          (TRef "Factory" [tP]))
     None].

Definition InputHTMLAttributes_input : ty :=
  TRef "InputHTMLAttributes" [ref0 "HTMLInputElement"].

Definition createElement : list fundecl :=
  [Fun "createElement" 211 Plain
     (Sig []
          [("type", Required, TStrLit "input");
           ("props", Optional,
            TInter [InputHTMLAttributes_input;
                    TRef "ClassAttributes" [ref0 "HTMLInputElement"]]);
           children]
          (TRef "DetailedReactHTMLElement"
                [InputHTMLAttributes_input; ref0 "HTMLInputElement"]))
     None;
   Fun "createElement" 217 Plain
     (Sig [tpx "P" (TRef "HTMLAttributes" [tT]); tpx "T" (ref0 "HTMLElement")]
          [("type", Required, TKeyof (ref0 "ReactHTML"));
           ("props", Optional, TInter [TRef "ClassAttributes" [tT]; tP]);
           children]
          (TRef "DetailedReactHTMLElement" [tP; tT]))
     None;
   Fun "createElement" 222 Plain
     (Sig [tpx "P" (TRef "SVGAttributes" [tT]); tpx "T" (ref0 "SVGElement")]
          [("type", Required, TKeyof (ref0 "ReactSVG"));
           ("props", Optional, TInter [TRef "ClassAttributes" [tT]; tP]);
           children]
          (ref0 "ReactSVGElement"))
     None;
   Fun "createElement" 227 Plain
     (Sig [tpx "P" (TRef "DOMAttributes" [tT]); tpx "T" (ref0 "Element")]
          [("type", Required, TString);
           ("props", Optional, TInter [TRef "ClassAttributes" [tT]; tP]);
           children]
          (TRef "DOMElement" [tP; tT]))
     None;
   Fun "createElement" 234 Plain
     (Sig [tp "P"]
          [("type", Required, TRef "SFC" [tP]);
           ("props", Optional, TInter [ref0 "Attributes"; tP]);
           children]
          (TRef "SFCElement" [tP]))
     None;
   Fun "createElement" 239 Plain
     (Sig [tp "P"]
          [("type", Required, ClassType_classic);
           ("props", Optional,
            TInter [TRef "ClassAttributes" [ClassicComponent_P_State]; tP]);
           children]
          (TRef "CElement" [tP; ClassicComponent_P_State]))
     None;
   Fun "createElement" 244 Plain
     (Sig [tp "P"; tpx "T" Component_P_State; tpx "C" (TRef "ComponentClass" [tP])]
          [("type", Required, TRef "ClassType" [tP; tT; tC]);
           ("props", Optional, TInter [TRef "ClassAttributes" [tT]; tP]);
           children]
          (TRef "CElement" [tP; tT]))
     None;
   Fun "createElement" 249 Plain
     (Sig [tp "P"]
          [("type", Required,
            TUnion [TRef "SFC" [tP]; TRef "ComponentClass" [tP]; TString]);
           ("props", Optional, TInter [ref0 "Attributes"; tP]);
           children]
          (TRef "ReactElement" [tP]))
     None].

Definition cloneElement : list fundecl :=
  [(* DOM elements *)
   Fun "cloneElement" 257 Plain
     (Sig [tpx "P" (TRef "HTMLAttributes" [tT]); tpx "T" (ref0 "HTMLElement")]
          [("element", Required, TRef "DetailedReactHTMLElement" [tP; tT]);
           ("props", Optional, tP);
           children]
          (TRef "DetailedReactHTMLElement" [tP; tT]))
     None;
   Fun "cloneElement" 263 Plain
     (Sig [tpx "P" (TRef "HTMLAttributes" [tT]); tpx "T" (ref0 "HTMLElement")]
          [("element", Required, TRef "ReactHTMLElement" [tT]);
           ("props", Optional, tP);
           children]
          (TRef "ReactHTMLElement" [tT]))
     None;
   Fun "cloneElement" 269 Plain
     (Sig [tpx "P" (TRef "SVGAttributes" [tT]); tpx "T" (ref0 "SVGElement")]
          [("element", Required, ref0 "ReactSVGElement");
           ("props", Optional, tP);
           children]
          (ref0 "ReactSVGElement"))
     None;
   Fun "cloneElement" 275 Plain
     (Sig [tpx "P" (TRef "DOMAttributes" [tT]); tpx "T" (ref0 "Element")]
          [("element", Required, TRef "DOMElement" [tP; tT]);
           ("props", Optional, TInter [TRef "DOMAttributes" [tT]; tP]);
           children]
          (TRef "DOMElement" [tP; tT]))
     None;
   (* Custom components *)
   Fun "cloneElement" 282 Plain
     (Sig [tpx "P" tQ; tp "Q"]
          [("element", Required, TRef "SFCElement" [tP]);
           ("props", Optional, tQ);
           children]
          (TRef "SFCElement" [tP]))
     None;
   Fun "cloneElement" 287 Plain
     (Sig [tpx "P" tQ; tp "Q"; tpx "T" Component_P_State]
          [("element", Required, TRef "CElement" [tP; tT]);
           ("props", Optional, tQ);
           children]
          (TRef "CElement" [tP; tT]))
     None;
   Fun "cloneElement" 292 Plain
     (Sig [tpx "P" tQ; tp "Q"]
          [("element", Required, TRef "ReactElement" [tP]);
           ("props", Optional, tQ);
           children]
          (TRef "ReactElement" [tP]))
     None].

Definition isValidElement : list fundecl :=
  [Fun "isValidElement" 298 Plain
     (Sig [tp "P"] [("object", Required, TObj [])]
          (TIs "object" (TRef "ReactElement" [tP])))
     None].

(** [const DOM], [PropTypes], [Children], [version]. *)
Definition consts : list (string * ty) :=
  [("DOM", ref0 "ReactDOM"); ("PropTypes", ref0 "ReactPropTypes");
   ("Children", ref0 "ReactChildren"); ("version", TString)].

(** *** Component API (lines 309-340) *)

Definition ReactInstance : alias :=
  Alias "ReactInstance" [] (TUnion [TRef "Component" [TAny]; ref0 "Element"]).

(** The interface that merges with the class of the same name (line 312). *)
Definition Component_interface : iface :=
  Iface "Component" [tpd "P" (TObj []); tpd "S" (TObj [])]
    [TRef "ComponentLifecycle" [tP; tS]] [] [].

Definition callback (n : string) : prop := (n, Optional, TFun [] TAny).

(** The class (lines 313-338).  The constructor is listed with the
    methods; it yields an instance of the class. *)
Definition Component : classdecl :=
  Class "Component" [tp "P"; tp "S"] None []
    [("props", Required,
      TInter [TRef "Readonly"
                [TObj [("children", Optional, TUnion [ref0 "ReactNode"; TUndefined])]];
              TRef "Readonly" [tP]]);
     ("state", Required, TRef "Readonly" [tS]);
     ("context", Required, TAny);
     ("refs", Required, TDict TString (ref0 "ReactInstance"))]
    [Fun "constructor" 314 Plain
       (Sig [] [("props", Optional, tP); ("context", Optional, TAny)]
            (TRef "Component" [tP; tS]))
       None;
     Fun "setState" 319 Plain
       (Sig [tpx "K" (TKeyof tS)]
            [("state", Required,
              TUnion [TFun [("prevState", Required, TRef "Readonly" [tS]);
                            ("props", Required, tP)]
                           (TUnion [TRef "Pick" [tS; tK]; tS]);
                      TUnion [TRef "Pick" [tS; tK]; tS]]);
             callback "callback"]
            TVoid)
       None;
     Fun "forceUpdate" 324 Plain
       (Sig [] [callback "callBack"] TVoid)
       None;
     Fun "render" 325 Plain
       (Sig [] [] (TUnion [ref0 "JSX.Element"; TNull; TBoolLit false]))
       None].

Definition PureComponent : classdecl :=
  Class "PureComponent" [tpd "P" (TObj []); tpd "S" (TObj [])]
    (Some (TRef "Component" [tP; tS])) [] [] [].

(** *** Event System and CSS (lines 478-492 and 801) *)

Definition ModifierKey : alias :=
  Alias "ModifierKey" []
    (TUnion [TStrLit "Alt"; TStrLit "AltGraph"; TStrLit "CapsLock";
             TStrLit "Control"; TStrLit "Fn"; TStrLit "FnLock"; TStrLit "Hyper";
             TStrLit "Meta"; TStrLit "NumLock"; TStrLit "ScrollLock";
             TStrLit "Shift"; TStrLit "Super"; TStrLit "Symbol";
             TStrLit "SymbolLock"]).

Definition CSSWideKeyword : alias :=
  Alias "CSSWideKeyword" []
    (TUnion [TStrLit "initial"; TStrLit "inherit"; TStrLit "unset"]).

(** *** The declarations by kind *)

Definition aliases : list alias :=
  [CrossOrigin; ElementType; ReactType; ComponentType; Key; ComponentState;
   CElement; ClassicElement; Factory; SFCFactory; ComponentFactory; CFactory;
   ClassicFactory; DOMFactory; ReactText; ReactChild; ReactFragment; ReactNode;
   ReactInstance; ModifierKey; CSSWideKeyword].

Definition interfaces : list iface :=
  [Attributes; ClassAttributes; ReactElement; SFCElement; ComponentElement;
   DOMElement; ReactHTMLElement; DetailedReactHTMLElement; ReactSVGElement;
   HTMLFactory; DetailedHTMLFactory; SVGFactory; ReactNodeArray;
   Component_interface].

Definition classes : list classdecl := [Component; PureComponent].

(** The [function] declarations of the namespace, in source order. *)
Definition functions : list fundecl :=
  createClass ++ createFactory ++ createElement ++ cloneElement ++ isValidElement.

(** *** Groups of declarations *)

(** The named unions of string literals. *)
Definition string_literal_unions : list alias :=
  [CrossOrigin; ModifierKey; CSSWideKeyword].

(** The element types of custom components. *)
Definition custom_elements : list ty :=
  [TRef "SFCElement" [tP]; TRef "CElement" [tP; tT]; TRef "ReactElement" [tP]].

Definition element_param (f : fundecl) : option ty :=
  match find_prop (s_params (f_sig f)) "element" with
  | Some p => Some (prop_type p)
  | None => None
  end.

Definition is_ref_to (names : list string) (t : ty) : bool :=
  match t with TRef n _ => mem n names | _ => false end.

(** The overloads of [cloneElement] for custom components
    (lines 281-296): those whose element is an [SFCElement], a [CElement]
    or a [ReactElement]. *)
Definition custom_clones : list fundecl :=
  filter
    (fun f =>
       match element_param f with
       | Some t => is_ref_to ["SFCElement"; "CElement"; "ReactElement"] t
       | None => false
       end)
    cloneElement.

(** The interfaces that refine [ReactElement] directly. *)
Definition refining_elements : list iface :=
  [SFCElement; ComponentElement; DOMElement].

(** What a factory returns: the result of a factory type that is written
    as a function type and of the call signature of a factory interface. *)
Definition factory_results : list ty :=
  flat_map (fun a => match a_body a with TFun _ r => [r] | _ => [] end)
    [Factory; SFCFactory; ComponentFactory; CFactory; ClassicFactory; DOMFactory]
  ++ flat_map (fun i => map s_ret (i_calls i))
       [HTMLFactory; DetailedHTMLFactory; SVGFactory].

(** The types of the elements that [createElement] and the factories
    produce. *)
Definition element_results : list ty :=
  map (fun f => s_ret (f_sig f)) createElement ++ factory_results.

(** *** The example of the note at the head of the file (lines 20-36) *)

Definition ButtonProps : list prop :=
  [("label", Required, TString); ("isDisabled", Optional, TBoolean)].

(** The component class [Button], which the note uses without declaring
    it: a component with the properties [ButtonProps]. *)
Definition Button : iface :=
  Iface "Button" [] [TRef "Component" [TObj ButtonProps]] [] [].

(** The declarations the note is read against.  [Component] stands with
    the members of its interface; those of its class [Button] inherits
    unchanged, so that they do not decide whether a [Button] is a
    [Component]. *)
Definition note_env : env := Env aliases (Button :: interfaces).

(** The instantiation of a call [cloneElement(element, props)] for
    [element: CElement<ButtonProps, Button>] and [props] of type [Q]. *)
Definition note_call (Q : ty) : list (string * ty) :=
  [("P", TObj ButtonProps); ("Q", Q); ("T", ref0 "Button")].

(** The type of the object literal [{ key: "disabledButton", isDisabled: true }]
    and the type the note casts it to. *)
Definition keyed_props : ty :=
  TObj [("key", Required, TString); ("isDisabled", Required, TBoolean)].
Definition keyed_props_cast : ty :=
  TInter [TObj [("isDisabled", Optional, TBoolean)]; ref0 "Attributes"].

(** *** Names *)

(** The names of all the types the file declares: its type aliases,
    interfaces and classes in source order, and [JSX.Element] of its
    namespace [JSX] (line 3737). *)
Definition declared_types : list string :=
  ["NativeAnimationEvent"; "NativeClipboardEvent"; "NativeCompositionEvent";
   "NativeDragEvent"; "NativeFocusEvent"; "NativeKeyboardEvent";
   "NativeMouseEvent"; "NativeTouchEvent"; "NativeTransitionEvent";
   "NativeUIEvent"; "NativeWheelEvent"; "CrossOrigin"; "ElementType";
   "ReactType"; "ComponentType"; "Key"; "Ref"; "ComponentState";
   "Attributes"; "ClassAttributes"; "ReactElement"; "SFCElement"; "CElement";
   "ComponentElement"; "ClassicElement"; "DOMElement"; "ReactHTMLElement";
   "DetailedReactHTMLElement"; "ReactSVGElement"; "WebViewHTMLAttributes";
   "Factory"; "SFCFactory"; "ComponentFactory"; "CFactory"; "ClassicFactory";
   "DOMFactory"; "HTMLFactory"; "DetailedHTMLFactory"; "SVGFactory";
   "ReactText"; "ReactChild"; "ReactNodeArray"; "ReactFragment"; "ReactNode";
   "ReactInstance"; "Component"; "PureComponent"; "ClassicComponent";
   "ChildContextProvider"; "SFC"; "StatelessComponent"; "ComponentClass";
   "ClassicComponentClass"; "ClassType"; "ComponentLifecycle"; "Mixin";
   "ComponentSpec"; "SyntheticEvent"; "ClipboardEvent"; "CompositionEvent";
   "DragEvent"; "FocusEvent"; "FormEvent"; "InvalidEvent"; "ChangeEvent";
   "ModifierKey"; "KeyboardEvent"; "MouseEvent"; "TouchEvent"; "UIEvent";
   "WheelEvent"; "AnimationEvent"; "TransitionEvent"; "EventHandler";
   "ReactEventHandler"; "ClipboardEventHandler"; "CompositionEventHandler";
   "DragEventHandler"; "FocusEventHandler"; "FormEventHandler";
   "ChangeEventHandler"; "KeyboardEventHandler"; "MouseEventHandler";
   "TouchEventHandler"; "UIEventHandler"; "WheelEventHandler";
   "AnimationEventHandler"; "TransitionEventHandler"; "Props"; "HTMLProps";
   "DetailedHTMLProps"; "SVGProps"; "SVGLineElementAttributes";
   "SVGTextElementAttributes"; "DOMAttributes"; "CSSWideKeyword";
   "CSSPercentage"; "CSSLength"; "CSSProperties"; "AriaAttributes";
   "HTMLAttributes"; "AllHTMLAttributes"; "AnchorHTMLAttributes";
   "AudioHTMLAttributes"; "AreaHTMLAttributes"; "BaseHTMLAttributes";
   "BlockquoteHTMLAttributes"; "ButtonHTMLAttributes";
   "CanvasHTMLAttributes"; "ColHTMLAttributes"; "ColgroupHTMLAttributes";
   "DataHTMLAttributes"; "DetailsHTMLAttributes"; "DelHTMLAttributes";
   "EmbedHTMLAttributes"; "FieldsetHTMLAttributes"; "FormHTMLAttributes";
   "HtmlHTMLAttributes"; "IframeHTMLAttributes"; "ImgHTMLAttributes";
   "InsHTMLAttributes"; "InputHTMLAttributes"; "KeygenHTMLAttributes";
   "LabelHTMLAttributes"; "LiHTMLAttributes"; "LinkHTMLAttributes";
   "MapHTMLAttributes"; "MenuHTMLAttributes"; "MediaHTMLAttributes";
   "MetaHTMLAttributes"; "MeterHTMLAttributes"; "QuoteHTMLAttributes";
   "ObjectHTMLAttributes"; "OlHTMLAttributes"; "OptgroupHTMLAttributes";
   "OptionHTMLAttributes"; "OutputHTMLAttributes"; "ParamHTMLAttributes";
   "ProgressHTMLAttributes"; "ScriptHTMLAttributes"; "SelectHTMLAttributes";
   "SourceHTMLAttributes"; "StyleHTMLAttributes"; "TableHTMLAttributes";
   "TextareaHTMLAttributes"; "TdHTMLAttributes"; "ThHTMLAttributes";
   "TimeHTMLAttributes"; "TrackHTMLAttributes"; "VideoHTMLAttributes";
   "SVGAttributes"; "ReactHTML"; "ReactSVG"; "ReactDOM"; "Validator";
   "Requireable"; "ValidationMap"; "ReactPropTypes"; "ReactChildren";
   "AbstractView"; "Touch"; "TouchList"; "GlobalJSXElement";
   "GlobalJSXElementClass"; "GlobalJSXElementAttributesProperty";
   "GlobalJSXElementChildrenAttribute"; "GlobalJSXIntrinsicAttributes";
   "GlobalJSXIntrinsicClassAttributes"; "GlobalJSXIntrinsicElements"; "JSX.Element"].

(** The names the file takes from the library bundled with the checker. *)
Definition library_types : list string :=
  ["Element"; "HTMLElement"; "HTMLInputElement"; "SVGElement"; "Array";
   "Readonly"; "Pick"].

(** The file has no [import] declaration. *)
Definition imports : list string := [].

(** The names the transcribed declarations refer to. *)
Definition references : list string :=
  nodup string_dec
    (flat_map alias_refs aliases ++ flat_map iface_refs interfaces
     ++ flat_map class_refs classes
     ++ flat_map (fun f => sig_refs (f_sig f)) functions
     ++ flat_map (fun c => type_refs (snd c)) consts).

(** The graph of references between the transcribed types. *)
Definition type_graph : graph :=
  (map (fun a => (a_name a, alias_refs a)) aliases
   ++ map (fun i => (i_name i, iface_refs i)) interfaces
   ++ map (fun c => (c_name c, class_refs c)) classes)%list.

(** All functions and methods of the file's transcribed part. *)
Definition all_functions : list fundecl :=
  functions ++ flat_map c_methods classes.

(** The object types of the declarations above: the interface [Component]
    merged with the class [Component], and the class [PureComponent]. *)
Definition types : list iface := object_types interfaces classes.

Definition E : env := Env aliases types.

End React.

(** ** The jquery.cookie fixture (src/unnamed/part_000) *)

Module CookieTests.
Import TS.

(** Lines 1-9. *)
Definition TestObject : classdecl :=
  Class "TestObject" [] None []
    [("text", Required, TString); ("value", Required, TNumber)]
    [Fun "constructor" 5 Plain
       (Sig [] [("text", Required, TString); ("value", Required, TNumber)]
            (TRef "TestObject" []))
       (Some [SAssign (EMember EThis "text") (EId "text");
              SAssign (EMember EThis "value") (EId "value")])].

(** Lines 11-16. *)
Definition CookieOptions : classdecl :=
  Class "CookieOptions" [] None [TRef "JQueryCookieOptions" []]
    [("expires", Required, TNumber); ("path", Required, TString);
     ("domain", Required, TString); ("secure", Required, TBoolean)]
    [].

Definition cookie : expr := EMember (EId "$") "cookie".
Definition console_log (e : expr) : expr := ECall (EMember (EId "console") "log") [e].

Definition fixture : list fixture_line :=
  [Line 1 NoAnnotation (IClass TestObject);
   Line 11 NoAnnotation (IClass CookieOptions);
   Line 18 NoAnnotation
     (IStmt (SExpr (ECall cookie [EStr "the_cookie"; EStr "the_value"])));
   Line 20 NoAnnotation
     (IStmt (SExpr (ECall cookie [EStr "the_cookie"; EStr "the_value";
                                  EObj [("expires", ENum 7)]])));
   Line 22 NoAnnotation
     (IStmt (SExpr (ECall cookie [EStr "the_cookie"; EStr "the_value";
                                  EObj [("expires", ENew "Date" [])]])));
   Line 25 TsExpectError
     (IStmt (SExpr (ECall cookie [EStr "the_cookie"; EStr "the_value";
                                  EObj [("expires", EStr "tomorrow")]])));
   Line 27 NoAnnotation
     (IStmt (SExpr (console_log (ECall cookie [EStr "the_cookie"]))));
   Line 29 NoAnnotation
     (IStmt (SVar KVar "testObject" (ENew "TestObject" [EStr "Hello World"; ENum 5])));
   Line 31 NoAnnotation
     (IStmt (SVar KVar "cookieOptions" (ENew "CookieOptions" [])));
   Line 32 NoAnnotation
     (IStmt (SAssign (EMember (EId "cookieOptions") "path") (EStr "/")));
   Line 33 NoAnnotation
     (IStmt (SAssign (EMember (EId "cookieOptions") "domain") (EStr "jquery.com")));
   Line 35 NoAnnotation
     (IStmt (SAssign (EMember cookie "json") (EBool true)));
   Line 37 NoAnnotation
     (IStmt (SExpr (ECall cookie [EStr "test"; EId "testObject"; EId "cookieOptions"])));
   Line 39 NoAnnotation
     (IStmt (SVar KVar "result"
               (ECast (TRef "TestObject" []) (ECall cookie [EStr "test"]))));
   Line 41 NoAnnotation
     (IStmt (SExpr (console_log (EMember (EId "result") "text"))));
   Line 43 NoAnnotation
     (IStmt (SAssign (EMember cookie "defaults") (EId "cookieOptions")))].

(** *** Checking the fixture against the declarations it is written for *)

(** The variables of the fixture with the type of their initialiser. *)
Definition vars : list (string * ty) :=
  flat_map
    (fun l =>
       match l_item l with
       | IStmt (SVar _ x e) =>
           match type_of [] e with Some t => [(x, t)] | None => [] end
       | _ => []
       end)
    fixture.


(** Modelled from the spec: the member [expires] of the interface
    [JQueryCookieOptions], whose declaration,
    types/jquery.cookie/index.d.ts, is not among the sources.  The spec
    has the call with [expires: "tomorrow"] rejected and the same call
    with a number or a [Date] accepted: [expires] takes a number or a
    [Date]. *)
Definition expires : prop :=
  ("expires", Optional, TUnion [TNumber; TRef "Date" []]).

(** Modelled from the spec: the interface [JQueryCookieOptions], which the
    class [CookieOptions] implements and the calls of [$.cookie] are
    given.  Besides [expires] it has the members that the class of lines
    11-16 declares, with their types there; every member is optional, as
    the calls of lines 20 to 25 give [expires] alone. *)
Definition JQueryCookieOptions : iface :=
  Iface "JQueryCookieOptions" [] []
    [expires;
     ("path", Optional, TString);
     ("domain", Optional, TString);
     ("secure", Optional, TBoolean)]
    [].

Definition E : env :=
  Env [] [JQueryCookieOptions; class_type TestObject; class_type CookieOptions].






End CookieTests.

(** ** The yazl fixture (src/types/yazl/yazl-tests.ts, lines 1-36) *)

Module YazlTests.
Import TS.

Definition zipfile : expr := EId "zipfile".
Definition call (o : expr) (m : string) (args : list expr) : expr :=
  ECall (EMember o m) args.
Definition stdin : expr := EMember (EId "process") "stdin".
Definition options : expr :=
  EObj [("mtime", ENew "Date" []);
        ("mode", ECall (EId "parseInt") [EStr "0100664"; ENum 8])].

Definition fixture : list fixture_line :=
  [Line 1 NoAnnotation (IImport ["ZipFile"] "yazl");
   Line 2 NoAnnotation (IImportEq "fs" "fs");
   Line 4 NoAnnotation (IStmt (SVar KConst "zipfile" (ENew "ZipFile" [])));
   Line 5 NoAnnotation
     (IStmt (SExpr (call zipfile "addFile" [EStr "file1.txt"; EStr "file1.txt"])));
   Line 7 NoAnnotation
     (IStmt (SExpr (call zipfile "addFile"
                      [EStr "path/to/file.txt"; EStr "path/in/zipfile.txt"])));
   Line 10 (ExpectType "ReadableStream")
     (IStmt (SExpr (EMember zipfile "outputStream")));
   Line 13 (ExpectType "ZipFile")
     (IStmt (SExpr (call zipfile "on"
                      [EStr "error";
                       EArrow ["err"] true
                         [call (EId "console") "error" [EStr "error"; EId "err"]]])));
   Line 17 NoAnnotation
     (IStmt (SExpr (call
                      (call (EMember zipfile "outputStream") "pipe"
                         [call (EId "fs") "createWriteStream" [EStr "output.zip"]])
                      "on"
                      [EStr "close";
                       EArrow [] true [call (EId "console") "log" [EStr "done"]]])));
   Line 21 NoAnnotation
     (IStmt (SExpr (call zipfile "addReadStream" [stdin; EStr "stdin.txt"; options])));
   Line 25 NoAnnotation
     (IStmt (SExpr (call zipfile "addReadStreamLazy"
                      [EStr "stdin.txt";
                       EArrow ["cb"] false [ECall (EId "cb") [ENull; stdin]]])));
   Line 26 NoAnnotation
     (IStmt (SExpr (call zipfile "addReadStreamLazy"
                      [EStr "stdin.txt"; options;
                       EArrow ["cb"] false [ECall (EId "cb") [EObj []; stdin]]])));
   Line 31 NoAnnotation
     (IStmt (SExpr (call zipfile "addBuffer"
                      [ENew "Buffer" [EStr "hello"]; EStr "hello.txt"; options])));
   Line 36 NoAnnotation (IStmt (SExpr (call zipfile "end" [])))].

End YazlTests.

(** ** The checker configuration (src/types/yazl/yazl-tests.ts, lines 37-55) *)

Module Tsconfig.

Inductive json : Type :=
| JStr (s : string)
| JBool (b : bool)
| JArr (items : list json)
| JObj (fields : list (string * json)).

Definition tsconfig : json :=
  JObj
    [("compilerOptions",
      JObj [("target", JStr "es2016");
            ("lib", JArr [JStr "es6"; JStr "dom"]);
            ("types", JArr [JStr "./index.d.ts"]);
            ("noEmit", JBool true);
            ("esModuleInterop", JBool true);
            ("forceConsistentCasingInFileNames", JBool true);
            ("module", JStr "commonjs");
            ("noImplicitAny", JBool true);
            ("strictNullChecks", JBool true);
            ("strictFunctionTypes", JBool true);
            ("noImplicitThis", JBool true)]);
     ("files", JArr [JStr "index.d.ts"; JStr "test/xdialog-tests.ts"])].

Definition field (k : string) (j : json) : option json :=
  match j with
  | JObj fields =>
      match find (fun f => String.eqb (fst f) k) fields with
      | Some f => Some (snd f)
      | None => None
      end
  | _ => None
  end.

(** The value at a path of keys. *)
Fixpoint get (path : list string) (j : json) : option json :=
  match path with
  | [] => Some j
  | k :: path' =>
      match field k j with
      | Some j' => get path' j'
      | None => None
      end
  end.

Definition option_of (k : string) : option json :=
  get ["compilerOptions"; k] tsconfig.

(** The flags the checker documents as strictness checks that the
    configuration turns on. *)
Definition strict_flags : list string :=
  ["noImplicitAny"; "strictNullChecks"; "strictFunctionTypes"; "noImplicitThis"].

Definition enabled (k : string) : bool :=
  match option_of k with Some (JBool true) => true | _ => false end.

End Tsconfig.

(** ** The source files together *)

Module Repository.
Import TS.

(** A source file, by what the dependency between files is read from:
    the modules it imports and the names it uses without declaring them
    or finding them in the checker's bundled library. *)
Record source_file : Type := File {
  path : string;
  file_imports : list string;
  file_external : list string
}.

Definition react_index : source_file :=
  File "types/react/v15/index.d.ts" React.imports
    (filter
       (fun n => negb (mem n (React.declared_types ++ React.library_types)))
       React.references).

Definition cookie_tests : source_file :=
  File "unnamed/part_000" (imports CookieTests.fixture)
    (external_names CookieTests.fixture).

Definition yazl_tests : source_file :=
  File "types/yazl/yazl-tests.ts" (imports YazlTests.fixture)
    (external_names YazlTests.fixture).

Definition files : list source_file := [react_index; cookie_tests; yazl_tests].

Definition fixtures : list (list fixture_line) :=
  [CookieTests.fixture; YazlTests.fixture].

(** Every function of the source files, with its body if it has one. *)
Definition function_bodies : list (string * option (list stmt)) :=
  map (fun f => (f_name f, f_body f)) React.all_functions
  ++ flat_map bodies_of fixtures.

(** Every declared function or method of the source files. *)
Definition declared_functions : list fundecl :=
  React.all_functions
  ++ flat_map
       (fun l => match l_item l with IClass c => c_methods c | _ => [] end)
       (concat fixtures).

(** The roots of the callees of all calls of the fixtures. *)
Definition called_roots : list string :=
  nodup string_dec
    (flat_map
       (fun c => match fst c with Some r => [r] | None => [] end)
       (flat_map fixture_calls fixtures)).

End Repository.

(** ** Class interfaces, component specs and lifecycle (index.d.ts, lines 342-422) *)

Module Lifecycle.
Import TS.

(** Lines 342-346. *)
Definition ClassicComponent : iface :=
  Iface "ClassicComponent" [TParam "P" None (Some (TObj [])); TParam "S" None (Some (TObj []))]
    [TRef "Component" [TRef "P" []; TRef "S" []]]
    [("replaceState", Required, TFun [("nextState", Required, TRef "S" []);
         ("callback", Optional, TFun [] TAny)] TVoid);
     ("isMounted", Required, TFun [] TBoolean);
     ("getInitialState", Optional, TFun [] (TRef "S" []))]
    [].

(** Lines 348-350. *)
Definition ChildContextProvider : iface :=
  Iface "ChildContextProvider" [TParam "CC" None None]
    []
    [("getChildContext", Required, TFun [] (TRef "CC" []))]
    [].

(** Line 356. *)
Definition SFC : alias :=
  Alias "SFC" [TParam "P" None (Some (TObj []))]
    (TRef "StatelessComponent" [TRef "P" []]).

(** Lines 357-363. *)
Definition StatelessComponent : iface :=
  Iface "StatelessComponent" [TParam "P" None (Some (TObj []))]
    []
    [("propTypes", Optional, TUnion [TRef "ValidationMap" [TRef "P" []]; TUndefined]);
     ("contextTypes", Optional, TUnion [TRef "ValidationMap" [TAny]; TUndefined]);
     ("defaultProps", Optional, TUnion [TRef "Partial" [TRef "P" []]; TUndefined]);
     ("displayName", Optional, TUnion [TString; TUndefined])]
    [Sig [] [("props", Required, TInter [TRef "P" []; TObj [("children", Optional, TUnion
         [TRef "ReactNode" []; TUndefined])]]); ("context", Optional, TAny)] (TUnion
         [TRef "ReactElement" []; TNull])].

(** Lines 384-387. *)
Definition ClassType : alias :=
  Alias "ClassType" [TParam "P" None None; TParam "T" (Some (TRef "Component" [TRef "P" [];
       TRef "ComponentState" []])) None; TParam "C" (Some (TRef "ComponentClass" [TRef "P"
       []])) None]
    (TInter [TRef "C" []; TNew [("props", Optional, TRef "P" []); ("context", Optional, TAny)]
         (TRef "T" []); TNew [("props", Optional, TRef "P" []); ("context", Optional, TAny)]
         (TObj [("props", Required, TRef "P" [])])]).

(** Lines 393-401. *)
Definition ComponentLifecycle : iface :=
  Iface "ComponentLifecycle" [TParam "P" None None; TParam "S" None None]
    []
    [("componentWillMount", Optional, TFun [] TVoid);
     ("componentDidMount", Optional, TFun [] TVoid);
     ("componentWillReceiveProps", Optional, TFun [("nextProps", Required, TRef "Readonly"
         [TRef "P" []]); ("nextContext", Required, TAny)] TVoid);
     ("shouldComponentUpdate", Optional, TFun [("nextProps", Required, TRef "Readonly" [TRef "P"
         []]); ("nextState", Required, TRef "Readonly" [TRef "S" []]);
         ("nextContext", Required, TAny)] TBoolean);
     ("componentWillUpdate", Optional, TFun [("nextProps", Required, TRef "Readonly" [TRef "P"
         []]); ("nextState", Required, TRef "Readonly" [TRef "S" []]);
         ("nextContext", Required, TAny)] TVoid);
     ("componentDidUpdate", Optional, TFun [("prevProps", Required, TRef "Readonly" [TRef "P"
         []]); ("prevState", Required, TRef "Readonly" [TRef "S" []]);
         ("prevContext", Required, TAny)] TVoid);
     ("componentWillUnmount", Optional, TFun [] TVoid)]
    [].

(** Lines 403-416. *)
Definition Mixin : iface :=
  Iface "Mixin" [TParam "P" None None; TParam "S" None None]
    [TRef "ComponentLifecycle" [TRef "P" []; TRef "S" []]]
    [("mixins", Optional, TUnion [TRef "Array" [TRef "Mixin" [TRef "P" []; TRef "S" []]];
         TUndefined]);
     ("statics", Optional, TUnion [TDict TString TAny; TUndefined]);
     ("displayName", Optional, TUnion [TString; TUndefined]);
     ("propTypes", Optional, TUnion [TRef "ValidationMap" [TAny]; TUndefined]);
     ("contextTypes", Optional, TUnion [TRef "ValidationMap" [TAny]; TUndefined]);
     ("childContextTypes", Optional, TUnion [TRef "ValidationMap" [TAny]; TUndefined]);
     ("getDefaultProps", Optional, TFun [] (TRef "P" []));
     ("getInitialState", Optional, TFun [] (TRef "S" []))]
    [].

(** Lines 418-422, the members; the index signature of the interface is
    [ComponentSpec_index]. *)
Definition ComponentSpec : iface :=
  Iface "ComponentSpec" [TParam "P" None None; TParam "S" None None]
    [TRef "Mixin" [TRef "P" []; TRef "S" []]]
    [("render", Required, TFun [] (TUnion [TRef "ReactElement" []; TNull]))]
    [].

(** Line 421: [[propertyName: string]: any], as the type of the keys and of
    the values. *)
Definition ComponentSpec_index : ty * ty :=
  (TString, TAny).

(** The interfaces above. *)
Definition interfaces : list iface :=
  [ClassicComponent; ChildContextProvider; StatelessComponent; ComponentLifecycle; Mixin;
     ComponentSpec].

(** The aliases above. *)
Definition aliases : list alias :=
  [SFC; ClassType].

End Lifecycle.

(** ** Event system and event handler types (index.d.ts, lines 39-49 and 428-588) *)

Module Events.
Import TS.

(** The aliases of lines 39-49 are declared outside the namespace [React]:
    the names in their bodies are those of the events of the host runtime,
    not those of the event interfaces below. *)

(** Line 39. *)
Definition NativeAnimationEvent : alias :=
  Alias "NativeAnimationEvent" []
    (TRef "AnimationEvent" []).

(** Line 40. *)
Definition NativeClipboardEvent : alias :=
  Alias "NativeClipboardEvent" []
    (TRef "ClipboardEvent" []).

(** Line 41. *)
Definition NativeCompositionEvent : alias :=
  Alias "NativeCompositionEvent" []
    (TRef "CompositionEvent" []).

(** Line 42. *)
Definition NativeDragEvent : alias :=
  Alias "NativeDragEvent" []
    (TRef "DragEvent" []).

(** Line 43. *)
Definition NativeFocusEvent : alias :=
  Alias "NativeFocusEvent" []
    (TRef "FocusEvent" []).

(** Line 44. *)
Definition NativeKeyboardEvent : alias :=
  Alias "NativeKeyboardEvent" []
    (TRef "KeyboardEvent" []).

(** Line 45. *)
Definition NativeMouseEvent : alias :=
  Alias "NativeMouseEvent" []
    (TRef "MouseEvent" []).

(** Line 46. *)
Definition NativeTouchEvent : alias :=
  Alias "NativeTouchEvent" []
    (TRef "TouchEvent" []).

(** Line 47. *)
Definition NativeTransitionEvent : alias :=
  Alias "NativeTransitionEvent" []
    (TRef "TransitionEvent" []).

(** Line 48. *)
Definition NativeUIEvent : alias :=
  Alias "NativeUIEvent" []
    (TRef "UIEvent" []).

(** Line 49. *)
Definition NativeWheelEvent : alias :=
  Alias "NativeWheelEvent" []
    (TRef "WheelEvent" []).

(** Lines 428-445. *)
Definition SyntheticEvent : iface :=
  Iface "SyntheticEvent" [TParam "T" None None]
    []
    [("bubbles", Required, TBoolean);
     ("currentTarget", Required, TInter [TRef "EventTarget" []; TRef "T" []]);
     ("cancelable", Required, TBoolean);
     ("defaultPrevented", Required, TBoolean);
     ("eventPhase", Required, TNumber);
     ("isTrusted", Required, TBoolean);
     ("nativeEvent", Required, TRef "Event" []);
     ("preventDefault", Required, TFun [] TVoid);
     ("isDefaultPrevented", Required, TFun [] TBoolean);
     ("stopPropagation", Required, TFun [] TVoid);
     ("isPropagationStopped", Required, TFun [] TBoolean);
     ("persist", Required, TFun [] TVoid);
     ("target", Required, TRef "EventTarget" []);
     ("timeStamp", Required, TNumber);
     ("type", Required, TString)]
    [].

(** Lines 447-450. *)
Definition ClipboardEvent : iface :=
  Iface "ClipboardEvent" [TParam "T" None None]
    [TRef "SyntheticEvent" [TRef "T" []]]
    [("clipboardData", Required, TRef "DataTransfer" []);
     ("nativeEvent", Required, TRef "NativeClipboardEvent" [])]
    [].

(** Lines 452-455. *)
Definition CompositionEvent : iface :=
  Iface "CompositionEvent" [TParam "T" None None]
    [TRef "SyntheticEvent" [TRef "T" []]]
    [("data", Required, TString);
     ("nativeEvent", Required, TRef "NativeCompositionEvent" [])]
    [].

(** Lines 457-460. *)
Definition DragEvent : iface :=
  Iface "DragEvent" [TParam "T" None None]
    [TRef "MouseEvent" [TRef "T" []]]
    [("dataTransfer", Required, TRef "DataTransfer" []);
     ("nativeEvent", Required, TRef "NativeDragEvent" [])]
    [].

(** Lines 462-465. *)
Definition FocusEvent : iface :=
  Iface "FocusEvent" [TParam "T" None None]
    [TRef "SyntheticEvent" [TRef "T" []]]
    [("nativeEvent", Required, TRef "NativeFocusEvent" []);
     ("relatedTarget", Required, TRef "EventTarget" [])]
    [].

(** Lines 467-468. *)
Definition FormEvent : iface :=
  Iface "FormEvent" [TParam "T" None None]
    [TRef "SyntheticEvent" [TRef "T" []]]
    []
    [].

(** Lines 470-472. *)
Definition InvalidEvent : iface :=
  Iface "InvalidEvent" [TParam "T" None None]
    [TRef "SyntheticEvent" [TRef "T" []]]
    [("target", Required, TInter [TRef "EventTarget" []; TRef "T" []])]
    [].

(** Lines 474-476. *)
Definition ChangeEvent : iface :=
  Iface "ChangeEvent" [TParam "T" None None]
    [TRef "SyntheticEvent" [TRef "T" []]]
    [("target", Required, TInter [TRef "EventTarget" []; TRef "T" []])]
    [].

(** Lines 494-508. *)
Definition KeyboardEvent : iface :=
  Iface "KeyboardEvent" [TParam "T" None None]
    [TRef "SyntheticEvent" [TRef "T" []]]
    [("altKey", Required, TBoolean);
     ("charCode", Required, TNumber);
     ("ctrlKey", Required, TBoolean);
     ("getModifierState", Required, TFun [("key", Required, TRef "ModifierKey" [])] TBoolean);
     ("key", Required, TString);
     ("keyCode", Required, TNumber);
     ("locale", Required, TString);
     ("location", Required, TNumber);
     ("metaKey", Required, TBoolean);
     ("nativeEvent", Required, TRef "NativeKeyboardEvent" []);
     ("repeat", Required, TBoolean);
     ("shiftKey", Required, TBoolean);
     ("which", Required, TNumber)]
    [].

(** Lines 510-526. *)
Definition MouseEvent : iface :=
  Iface "MouseEvent" [TParam "T" None None]
    [TRef "SyntheticEvent" [TRef "T" []]]
    [("altKey", Required, TBoolean);
     ("button", Required, TNumber);
     ("buttons", Required, TNumber);
     ("clientX", Required, TNumber);
     ("clientY", Required, TNumber);
     ("ctrlKey", Required, TBoolean);
     ("getModifierState", Required, TFun [("key", Required, TRef "ModifierKey" [])] TBoolean);
     ("metaKey", Required, TBoolean);
     ("nativeEvent", Required, TRef "NativeMouseEvent" []);
     ("pageX", Required, TNumber);
     ("pageY", Required, TNumber);
     ("relatedTarget", Required, TRef "EventTarget" []);
     ("screenX", Required, TNumber);
     ("screenY", Required, TNumber);
     ("shiftKey", Required, TBoolean)]
    [].

(** Lines 528-538. *)
Definition TouchEvent : iface :=
  Iface "TouchEvent" [TParam "T" None None]
    [TRef "SyntheticEvent" [TRef "T" []]]
    [("altKey", Required, TBoolean);
     ("changedTouches", Required, TRef "TouchList" []);
     ("ctrlKey", Required, TBoolean);
     ("getModifierState", Required, TFun [("key", Required, TRef "ModifierKey" [])] TBoolean);
     ("metaKey", Required, TBoolean);
     ("nativeEvent", Required, TRef "NativeTouchEvent" []);
     ("shiftKey", Required, TBoolean);
     ("targetTouches", Required, TRef "TouchList" []);
     ("touches", Required, TRef "TouchList" [])]
    [].

(** Lines 540-544. *)
Definition UIEvent : iface :=
  Iface "UIEvent" [TParam "T" None None]
    [TRef "SyntheticEvent" [TRef "T" []]]
    [("detail", Required, TNumber);
     ("nativeEvent", Required, TRef "NativeUIEvent" []);
     ("view", Required, TRef "AbstractView" [])]
    [].

(** Lines 546-552. *)
Definition WheelEvent : iface :=
  Iface "WheelEvent" [TParam "T" None None]
    [TRef "MouseEvent" [TRef "T" []]]
    [("deltaMode", Required, TNumber);
     ("deltaX", Required, TNumber);
     ("deltaY", Required, TNumber);
     ("deltaZ", Required, TNumber);
     ("nativeEvent", Required, TRef "NativeWheelEvent" [])]
    [].

(** Lines 554-559. *)
Definition AnimationEvent : iface :=
  Iface "AnimationEvent" [TParam "T" None None]
    [TRef "SyntheticEvent" [TRef "T" []]]
    [("animationName", Required, TString);
     ("elapsedTime", Required, TNumber);
     ("nativeEvent", Required, TRef "NativeAnimationEvent" []);
     ("pseudoElement", Required, TString)]
    [].

(** Lines 561-566. *)
Definition TransitionEvent : iface :=
  Iface "TransitionEvent" [TParam "T" None None]
    [TRef "SyntheticEvent" [TRef "T" []]]
    [("elapsedTime", Required, TNumber);
     ("nativeEvent", Required, TRef "NativeTransitionEvent" []);
     ("propertyName", Required, TString);
     ("pseudoElement", Required, TString)]
    [].

(** Line 574. *)
Definition ReactEventHandler : alias :=
  Alias "ReactEventHandler" [TParam "T" None None]
    (TRef "EventHandler" [TRef "SyntheticEvent" [TRef "T" []]]).

(** Line 576. *)
Definition ClipboardEventHandler : alias :=
  Alias "ClipboardEventHandler" [TParam "T" None None]
    (TRef "EventHandler" [TRef "ClipboardEvent" [TRef "T" []]]).

(** Line 577. *)
Definition CompositionEventHandler : alias :=
  Alias "CompositionEventHandler" [TParam "T" None None]
    (TRef "EventHandler" [TRef "CompositionEvent" [TRef "T" []]]).

(** Line 578. *)
Definition DragEventHandler : alias :=
  Alias "DragEventHandler" [TParam "T" None None]
    (TRef "EventHandler" [TRef "DragEvent" [TRef "T" []]]).

(** Line 579. *)
Definition FocusEventHandler : alias :=
  Alias "FocusEventHandler" [TParam "T" None None]
    (TRef "EventHandler" [TRef "FocusEvent" [TRef "T" []]]).

(** Line 580. *)
Definition FormEventHandler : alias :=
  Alias "FormEventHandler" [TParam "T" None None]
    (TRef "EventHandler" [TRef "FormEvent" [TRef "T" []]]).

(** Line 581. *)
Definition ChangeEventHandler : alias :=
  Alias "ChangeEventHandler" [TParam "T" None None]
    (TRef "EventHandler" [TRef "ChangeEvent" [TRef "T" []]]).

(** Line 582. *)
Definition KeyboardEventHandler : alias :=
  Alias "KeyboardEventHandler" [TParam "T" None None]
    (TRef "EventHandler" [TRef "KeyboardEvent" [TRef "T" []]]).

(** Line 583. *)
Definition MouseEventHandler : alias :=
  Alias "MouseEventHandler" [TParam "T" None None]
    (TRef "EventHandler" [TRef "MouseEvent" [TRef "T" []]]).

(** Line 584. *)
Definition TouchEventHandler : alias :=
  Alias "TouchEventHandler" [TParam "T" None None]
    (TRef "EventHandler" [TRef "TouchEvent" [TRef "T" []]]).

(** Line 585. *)
Definition UIEventHandler : alias :=
  Alias "UIEventHandler" [TParam "T" None None]
    (TRef "EventHandler" [TRef "UIEvent" [TRef "T" []]]).

(** Line 586. *)
Definition WheelEventHandler : alias :=
  Alias "WheelEventHandler" [TParam "T" None None]
    (TRef "EventHandler" [TRef "WheelEvent" [TRef "T" []]]).

(** Line 587. *)
Definition AnimationEventHandler : alias :=
  Alias "AnimationEventHandler" [TParam "T" None None]
    (TRef "EventHandler" [TRef "AnimationEvent" [TRef "T" []]]).

(** Line 588. *)
Definition TransitionEventHandler : alias :=
  Alias "TransitionEventHandler" [TParam "T" None None]
    (TRef "EventHandler" [TRef "TransitionEvent" [TRef "T" []]]).

(** The aliases of the events of the host runtime. *)
Definition natives : list alias :=
  [NativeAnimationEvent; NativeClipboardEvent; NativeCompositionEvent; NativeDragEvent;
     NativeFocusEvent; NativeKeyboardEvent; NativeMouseEvent; NativeTouchEvent;
     NativeTransitionEvent; NativeUIEvent; NativeWheelEvent].

(** The event interfaces, [SyntheticEvent] first. *)
Definition events : list iface :=
  [SyntheticEvent; ClipboardEvent; CompositionEvent; DragEvent; FocusEvent; FormEvent;
     InvalidEvent; ChangeEvent; KeyboardEvent; MouseEvent; TouchEvent; UIEvent; WheelEvent;
     AnimationEvent; TransitionEvent].

(** The handler types. *)
Definition handlers : list alias :=
  [ReactEventHandler; ClipboardEventHandler; CompositionEventHandler; DragEventHandler;
     FocusEventHandler; FormEventHandler; ChangeEventHandler; KeyboardEventHandler;
     MouseEventHandler; TouchEventHandler; UIEventHandler; WheelEventHandler;
     AnimationEventHandler; TransitionEventHandler].

End Events.

(** ** Props and attributes (index.d.ts, lines 117-134, 608-797 and 2478-3517) *)

Module Attributes.
Import TS.

(** Lines 117-134. *)
Definition WebViewHTMLAttributes : iface :=
  Iface "WebViewHTMLAttributes" [TParam "T" None None]
    [TRef "HTMLAttributes" [TRef "T" []]]
    [("allowFullScreen", Optional, TUnion [TBoolean; TUndefined]);
     ("allowpopups", Optional, TUnion [TBoolean; TUndefined]);
     ("autosize", Optional, TUnion [TBoolean; TUndefined]);
     ("blinkfeatures", Optional, TUnion [TString; TUndefined]);
     ("disableblinkfeatures", Optional, TUnion [TString; TUndefined]);
     ("disableguestresize", Optional, TUnion [TBoolean; TUndefined]);
     ("disablewebsecurity", Optional, TUnion [TBoolean; TUndefined]);
     ("guestinstance", Optional, TUnion [TString; TUndefined]);
     ("httpreferrer", Optional, TUnion [TString; TUndefined]);
     ("nodeintegration", Optional, TUnion [TBoolean; TUndefined]);
     ("partition", Optional, TUnion [TString; TUndefined]);
     ("plugins", Optional, TUnion [TBoolean; TUndefined]);
     ("preload", Optional, TUnion [TString; TUndefined]);
     ("src", Optional, TUnion [TString; TUndefined]);
     ("useragent", Optional, TUnion [TString; TUndefined]);
     ("webpreferences", Optional, TUnion [TString; TUndefined])]
    [].

(** Lines 608-612. *)
Definition Props : iface :=
  Iface "Props" [TParam "T" None None]
    []
    [("children", Optional, TUnion [TRef "ReactNode" []; TUndefined]);
     ("key", Optional, TUnion [TRef "Key" []; TUndefined]);
     ("ref", Optional, TUnion [TRef "Ref" [TRef "T" []]; TUndefined])]
    [].

(** Lines 614-615. *)
Definition HTMLProps : iface :=
  Iface "HTMLProps" [TParam "T" None None]
    [TRef "AllHTMLAttributes" [TRef "T" []]; TRef "ClassAttributes" [TRef "T" []]]
    []
    [].

(** Line 617. *)
Definition DetailedHTMLProps : alias :=
  Alias "DetailedHTMLProps" [TParam "E" (Some (TRef "HTMLAttributes" [TRef "T" []])) None;
       TParam "T" None None]
    (TInter [TRef "ClassAttributes" [TRef "T" []]; TRef "E" []]).

(** Lines 619-620. *)
Definition SVGProps : iface :=
  Iface "SVGProps" [TParam "T" None None]
    [TRef "SVGAttributes" [TRef "T" []]; TRef "ClassAttributes" [TRef "T" []]]
    []
    [].

(** Line 622. *)
Definition SVGLineElementAttributes : iface :=
  Iface "SVGLineElementAttributes" [TParam "T" None None]
    [TRef "SVGProps" [TRef "T" []]]
    []
    [].

(** Line 623. *)
Definition SVGTextElementAttributes : iface :=
  Iface "SVGTextElementAttributes" [TParam "T" None None]
    [TRef "SVGProps" [TRef "T" []]]
    []
    [].

(** Lines 625-796. *)
Definition DOMAttributes : iface :=
  Iface "DOMAttributes" [TParam "T" None None]
    []
    [("children", Optional, TUnion [TRef "ReactNode" []; TUndefined]);
     ("dangerouslySetInnerHTML", Optional, TUnion [TObj [("__html", Required, TString)];
         TUndefined]);
     ("onCopy", Optional, TUnion [TRef "ClipboardEventHandler" [TRef "T" []]; TUndefined]);
     ("onCopyCapture", Optional, TUnion [TRef "ClipboardEventHandler" [TRef "T" []];
         TUndefined]);
     ("onCut", Optional, TUnion [TRef "ClipboardEventHandler" [TRef "T" []]; TUndefined]);
     ("onCutCapture", Optional, TUnion [TRef "ClipboardEventHandler" [TRef "T" []];
         TUndefined]);
     ("onPaste", Optional, TUnion [TRef "ClipboardEventHandler" [TRef "T" []]; TUndefined]);
     ("onPasteCapture", Optional, TUnion [TRef "ClipboardEventHandler" [TRef "T" []];
         TUndefined]);
     ("onCompositionEnd", Optional, TUnion [TRef "CompositionEventHandler" [TRef "T" []];
         TUndefined]);
     ("onCompositionEndCapture", Optional, TUnion [TRef "CompositionEventHandler" [TRef "T" []];
         TUndefined]);
     ("onCompositionStart", Optional, TUnion [TRef "CompositionEventHandler" [TRef "T" []];
         TUndefined]);
     ("onCompositionStartCapture", Optional, TUnion [TRef "CompositionEventHandler" [TRef "T"
         []]; TUndefined]);
     ("onCompositionUpdate", Optional, TUnion [TRef "CompositionEventHandler" [TRef "T" []];
         TUndefined]);
     ("onCompositionUpdateCapture", Optional, TUnion [TRef "CompositionEventHandler" [TRef "T"
         []]; TUndefined]);
     ("onFocus", Optional, TUnion [TRef "FocusEventHandler" [TRef "T" []]; TUndefined]);
     ("onFocusCapture", Optional, TUnion [TRef "FocusEventHandler" [TRef "T" []]; TUndefined]);
     ("onBlur", Optional, TUnion [TRef "FocusEventHandler" [TRef "T" []]; TUndefined]);
     ("onBlurCapture", Optional, TUnion [TRef "FocusEventHandler" [TRef "T" []]; TUndefined]);
     ("onChange", Optional, TUnion [TRef "FormEventHandler" [TRef "T" []]; TUndefined]);
     ("onChangeCapture", Optional, TUnion [TRef "FormEventHandler" [TRef "T" []]; TUndefined]);
     ("onInput", Optional, TUnion [TRef "FormEventHandler" [TRef "T" []]; TUndefined]);
     ("onInputCapture", Optional, TUnion [TRef "FormEventHandler" [TRef "T" []]; TUndefined]);
     ("onReset", Optional, TUnion [TRef "FormEventHandler" [TRef "T" []]; TUndefined]);
     ("onResetCapture", Optional, TUnion [TRef "FormEventHandler" [TRef "T" []]; TUndefined]);
     ("onSubmit", Optional, TUnion [TRef "FormEventHandler" [TRef "T" []]; TUndefined]);
     ("onSubmitCapture", Optional, TUnion [TRef "FormEventHandler" [TRef "T" []]; TUndefined]);
     ("onInvalid", Optional, TUnion [TRef "FormEventHandler" [TRef "T" []]; TUndefined]);
     ("onInvalidCapture", Optional, TUnion [TRef "FormEventHandler" [TRef "T" []]; TUndefined]);
     ("onLoad", Optional, TUnion [TRef "ReactEventHandler" [TRef "T" []]; TUndefined]);
     ("onLoadCapture", Optional, TUnion [TRef "ReactEventHandler" [TRef "T" []]; TUndefined]);
     ("onError", Optional, TUnion [TRef "ReactEventHandler" [TRef "T" []]; TUndefined]);
     ("onErrorCapture", Optional, TUnion [TRef "ReactEventHandler" [TRef "T" []]; TUndefined]);
     ("onKeyDown", Optional, TUnion [TRef "KeyboardEventHandler" [TRef "T" []]; TUndefined]);
     ("onKeyDownCapture", Optional, TUnion [TRef "KeyboardEventHandler" [TRef "T" []];
         TUndefined]);
     ("onKeyPress", Optional, TUnion [TRef "KeyboardEventHandler" [TRef "T" []]; TUndefined]);
     ("onKeyPressCapture", Optional, TUnion [TRef "KeyboardEventHandler" [TRef "T" []];
         TUndefined]);
     ("onKeyUp", Optional, TUnion [TRef "KeyboardEventHandler" [TRef "T" []]; TUndefined]);
     ("onKeyUpCapture", Optional, TUnion [TRef "KeyboardEventHandler" [TRef "T" []];
         TUndefined]);
     ("onAbort", Optional, TUnion [TRef "ReactEventHandler" [TRef "T" []]; TUndefined]);
     ("onAbortCapture", Optional, TUnion [TRef "ReactEventHandler" [TRef "T" []]; TUndefined]);
     ("onCanPlay", Optional, TUnion [TRef "ReactEventHandler" [TRef "T" []]; TUndefined]);
     ("onCanPlayCapture", Optional, TUnion [TRef "ReactEventHandler" [TRef "T" []];
         TUndefined]);
     ("onCanPlayThrough", Optional, TUnion [TRef "ReactEventHandler" [TRef "T" []];
         TUndefined]);
     ("onCanPlayThroughCapture", Optional, TUnion [TRef "ReactEventHandler" [TRef "T" []];
         TUndefined]);
     ("onDurationChange", Optional, TUnion [TRef "ReactEventHandler" [TRef "T" []];
         TUndefined]);
     ("onDurationChangeCapture", Optional, TUnion [TRef "ReactEventHandler" [TRef "T" []];
         TUndefined]);
     ("onEmptied", Optional, TUnion [TRef "ReactEventHandler" [TRef "T" []]; TUndefined]);
     ("onEmptiedCapture", Optional, TUnion [TRef "ReactEventHandler" [TRef "T" []];
         TUndefined]);
     ("onEncrypted", Optional, TUnion [TRef "ReactEventHandler" [TRef "T" []]; TUndefined]);
     ("onEncryptedCapture", Optional, TUnion [TRef "ReactEventHandler" [TRef "T" []];
         TUndefined]);
     ("onEnded", Optional, TUnion [TRef "ReactEventHandler" [TRef "T" []]; TUndefined]);
     ("onEndedCapture", Optional, TUnion [TRef "ReactEventHandler" [TRef "T" []]; TUndefined]);
     ("onLoadedData", Optional, TUnion [TRef "ReactEventHandler" [TRef "T" []]; TUndefined]);
     ("onLoadedDataCapture", Optional, TUnion [TRef "ReactEventHandler" [TRef "T" []];
         TUndefined]);
     ("onLoadedMetadata", Optional, TUnion [TRef "ReactEventHandler" [TRef "T" []];
         TUndefined]);
     ("onLoadedMetadataCapture", Optional, TUnion [TRef "ReactEventHandler" [TRef "T" []];
         TUndefined]);
     ("onLoadStart", Optional, TUnion [TRef "ReactEventHandler" [TRef "T" []]; TUndefined]);
     ("onLoadStartCapture", Optional, TUnion [TRef "ReactEventHandler" [TRef "T" []];
         TUndefined]);
     ("onPause", Optional, TUnion [TRef "ReactEventHandler" [TRef "T" []]; TUndefined]);
     ("onPauseCapture", Optional, TUnion [TRef "ReactEventHandler" [TRef "T" []]; TUndefined]);
     ("onPlay", Optional, TUnion [TRef "ReactEventHandler" [TRef "T" []]; TUndefined]);
     ("onPlayCapture", Optional, TUnion [TRef "ReactEventHandler" [TRef "T" []]; TUndefined]);
     ("onPlaying", Optional, TUnion [TRef "ReactEventHandler" [TRef "T" []]; TUndefined]);
     ("onPlayingCapture", Optional, TUnion [TRef "ReactEventHandler" [TRef "T" []];
         TUndefined]);
     ("onProgress", Optional, TUnion [TRef "ReactEventHandler" [TRef "T" []]; TUndefined]);
     ("onProgressCapture", Optional, TUnion [TRef "ReactEventHandler" [TRef "T" []];
         TUndefined]);
     ("onRateChange", Optional, TUnion [TRef "ReactEventHandler" [TRef "T" []]; TUndefined]);
     ("onRateChangeCapture", Optional, TUnion [TRef "ReactEventHandler" [TRef "T" []];
         TUndefined]);
     ("onSeeked", Optional, TUnion [TRef "ReactEventHandler" [TRef "T" []]; TUndefined]);
     ("onSeekedCapture", Optional, TUnion [TRef "ReactEventHandler" [TRef "T" []]; TUndefined]);
     ("onSeeking", Optional, TUnion [TRef "ReactEventHandler" [TRef "T" []]; TUndefined]);
     ("onSeekingCapture", Optional, TUnion [TRef "ReactEventHandler" [TRef "T" []];
         TUndefined]);
     ("onStalled", Optional, TUnion [TRef "ReactEventHandler" [TRef "T" []]; TUndefined]);
     ("onStalledCapture", Optional, TUnion [TRef "ReactEventHandler" [TRef "T" []];
         TUndefined]);
     ("onSuspend", Optional, TUnion [TRef "ReactEventHandler" [TRef "T" []]; TUndefined]);
     ("onSuspendCapture", Optional, TUnion [TRef "ReactEventHandler" [TRef "T" []];
         TUndefined]);
     ("onTimeUpdate", Optional, TUnion [TRef "ReactEventHandler" [TRef "T" []]; TUndefined]);
     ("onTimeUpdateCapture", Optional, TUnion [TRef "ReactEventHandler" [TRef "T" []];
         TUndefined]);
     ("onVolumeChange", Optional, TUnion [TRef "ReactEventHandler" [TRef "T" []]; TUndefined]);
     ("onVolumeChangeCapture", Optional, TUnion [TRef "ReactEventHandler" [TRef "T" []];
         TUndefined]);
     ("onWaiting", Optional, TUnion [TRef "ReactEventHandler" [TRef "T" []]; TUndefined]);
     ("onWaitingCapture", Optional, TUnion [TRef "ReactEventHandler" [TRef "T" []];
         TUndefined]);
     ("onClick", Optional, TUnion [TRef "MouseEventHandler" [TRef "T" []]; TUndefined]);
     ("onClickCapture", Optional, TUnion [TRef "MouseEventHandler" [TRef "T" []]; TUndefined]);
     ("onContextMenu", Optional, TUnion [TRef "MouseEventHandler" [TRef "T" []]; TUndefined]);
     ("onContextMenuCapture", Optional, TUnion [TRef "MouseEventHandler" [TRef "T" []];
         TUndefined]);
     ("onDoubleClick", Optional, TUnion [TRef "MouseEventHandler" [TRef "T" []]; TUndefined]);
     ("onDoubleClickCapture", Optional, TUnion [TRef "MouseEventHandler" [TRef "T" []];
         TUndefined]);
     ("onDrag", Optional, TUnion [TRef "DragEventHandler" [TRef "T" []]; TUndefined]);
     ("onDragCapture", Optional, TUnion [TRef "DragEventHandler" [TRef "T" []]; TUndefined]);
     ("onDragEnd", Optional, TUnion [TRef "DragEventHandler" [TRef "T" []]; TUndefined]);
     ("onDragEndCapture", Optional, TUnion [TRef "DragEventHandler" [TRef "T" []]; TUndefined]);
     ("onDragEnter", Optional, TUnion [TRef "DragEventHandler" [TRef "T" []]; TUndefined]);
     ("onDragEnterCapture", Optional, TUnion [TRef "DragEventHandler" [TRef "T" []];
         TUndefined]);
     ("onDragExit", Optional, TUnion [TRef "DragEventHandler" [TRef "T" []]; TUndefined]);
     ("onDragExitCapture", Optional, TUnion [TRef "DragEventHandler" [TRef "T" []];
         TUndefined]);
     ("onDragLeave", Optional, TUnion [TRef "DragEventHandler" [TRef "T" []]; TUndefined]);
     ("onDragLeaveCapture", Optional, TUnion [TRef "DragEventHandler" [TRef "T" []];
         TUndefined]);
     ("onDragOver", Optional, TUnion [TRef "DragEventHandler" [TRef "T" []]; TUndefined]);
     ("onDragOverCapture", Optional, TUnion [TRef "DragEventHandler" [TRef "T" []];
         TUndefined]);
     ("onDragStart", Optional, TUnion [TRef "DragEventHandler" [TRef "T" []]; TUndefined]);
     ("onDragStartCapture", Optional, TUnion [TRef "DragEventHandler" [TRef "T" []];
         TUndefined]);
     ("onDrop", Optional, TUnion [TRef "DragEventHandler" [TRef "T" []]; TUndefined]);
     ("onDropCapture", Optional, TUnion [TRef "DragEventHandler" [TRef "T" []]; TUndefined]);
     ("onMouseDown", Optional, TUnion [TRef "MouseEventHandler" [TRef "T" []]; TUndefined]);
     ("onMouseDownCapture", Optional, TUnion [TRef "MouseEventHandler" [TRef "T" []];
         TUndefined]);
     ("onMouseEnter", Optional, TUnion [TRef "MouseEventHandler" [TRef "T" []]; TUndefined]);
     ("onMouseLeave", Optional, TUnion [TRef "MouseEventHandler" [TRef "T" []]; TUndefined]);
     ("onMouseMove", Optional, TUnion [TRef "MouseEventHandler" [TRef "T" []]; TUndefined]);
     ("onMouseMoveCapture", Optional, TUnion [TRef "MouseEventHandler" [TRef "T" []];
         TUndefined]);
     ("onMouseOut", Optional, TUnion [TRef "MouseEventHandler" [TRef "T" []]; TUndefined]);
     ("onMouseOutCapture", Optional, TUnion [TRef "MouseEventHandler" [TRef "T" []];
         TUndefined]);
     ("onMouseOver", Optional, TUnion [TRef "MouseEventHandler" [TRef "T" []]; TUndefined]);
     ("onMouseOverCapture", Optional, TUnion [TRef "MouseEventHandler" [TRef "T" []];
         TUndefined]);
     ("onMouseUp", Optional, TUnion [TRef "MouseEventHandler" [TRef "T" []]; TUndefined]);
     ("onMouseUpCapture", Optional, TUnion [TRef "MouseEventHandler" [TRef "T" []];
         TUndefined]);
     ("onSelect", Optional, TUnion [TRef "ReactEventHandler" [TRef "T" []]; TUndefined]);
     ("onSelectCapture", Optional, TUnion [TRef "ReactEventHandler" [TRef "T" []]; TUndefined]);
     ("onTouchCancel", Optional, TUnion [TRef "TouchEventHandler" [TRef "T" []]; TUndefined]);
     ("onTouchCancelCapture", Optional, TUnion [TRef "TouchEventHandler" [TRef "T" []];
         TUndefined]);
     ("onTouchEnd", Optional, TUnion [TRef "TouchEventHandler" [TRef "T" []]; TUndefined]);
     ("onTouchEndCapture", Optional, TUnion [TRef "TouchEventHandler" [TRef "T" []];
         TUndefined]);
     ("onTouchMove", Optional, TUnion [TRef "TouchEventHandler" [TRef "T" []]; TUndefined]);
     ("onTouchMoveCapture", Optional, TUnion [TRef "TouchEventHandler" [TRef "T" []];
         TUndefined]);
     ("onTouchStart", Optional, TUnion [TRef "TouchEventHandler" [TRef "T" []]; TUndefined]);
     ("onTouchStartCapture", Optional, TUnion [TRef "TouchEventHandler" [TRef "T" []];
         TUndefined]);
     ("onScroll", Optional, TUnion [TRef "UIEventHandler" [TRef "T" []]; TUndefined]);
     ("onScrollCapture", Optional, TUnion [TRef "UIEventHandler" [TRef "T" []]; TUndefined]);
     ("onWheel", Optional, TUnion [TRef "WheelEventHandler" [TRef "T" []]; TUndefined]);
     ("onWheelCapture", Optional, TUnion [TRef "WheelEventHandler" [TRef "T" []]; TUndefined]);
     ("onAnimationStart", Optional, TUnion [TRef "AnimationEventHandler" [TRef "T" []];
         TUndefined]);
     ("onAnimationStartCapture", Optional, TUnion [TRef "AnimationEventHandler" [TRef "T" []];
         TUndefined]);
     ("onAnimationEnd", Optional, TUnion [TRef "AnimationEventHandler" [TRef "T" []];
         TUndefined]);
     ("onAnimationEndCapture", Optional, TUnion [TRef "AnimationEventHandler" [TRef "T" []];
         TUndefined]);
     ("onAnimationIteration", Optional, TUnion [TRef "AnimationEventHandler" [TRef "T" []];
         TUndefined]);
     ("onAnimationIterationCapture", Optional, TUnion [TRef "AnimationEventHandler" [TRef "T"
         []]; TUndefined]);
     ("onTransitionEnd", Optional, TUnion [TRef "TransitionEventHandler" [TRef "T" []];
         TUndefined]);
     ("onTransitionEndCapture", Optional, TUnion [TRef "TransitionEventHandler" [TRef "T" []];
         TUndefined])]
    [].

(** Lines 2478-2663. *)
Definition AriaAttributes : iface :=
  Iface "AriaAttributes" []
    []
    [("aria-activedescendant", Optional, TUnion [TString; TUndefined]);
     ("aria-atomic", Optional, TUnion [TBoolean; TStrLit "false"; TStrLit "true"; TUndefined]);
     ("aria-autocomplete", Optional, TUnion [TStrLit "none"; TStrLit "inline"; TStrLit "list";
         TStrLit "both"; TUndefined]);
     ("aria-busy", Optional, TUnion [TBoolean; TStrLit "false"; TStrLit "true"; TUndefined]);
     ("aria-checked", Optional, TUnion [TBoolean; TStrLit "false"; TStrLit "mixed";
         TStrLit "true"; TUndefined]);
     ("aria-colcount", Optional, TUnion [TNumber; TUndefined]);
     ("aria-colindex", Optional, TUnion [TNumber; TUndefined]);
     ("aria-colspan", Optional, TUnion [TNumber; TUndefined]);
     ("aria-controls", Optional, TUnion [TString; TUndefined]);
     ("aria-current", Optional, TUnion [TBoolean; TStrLit "false"; TStrLit "true";
         TStrLit "page"; TStrLit "step"; TStrLit "location"; TStrLit "date"; TStrLit "time";
         TUndefined]);
     ("aria-describedby", Optional, TUnion [TString; TUndefined]);
     ("aria-details", Optional, TUnion [TString; TUndefined]);
     ("aria-disabled", Optional, TUnion [TBoolean; TStrLit "false"; TStrLit "true";
         TUndefined]);
     ("aria-dropeffect", Optional, TUnion [TStrLit "none"; TStrLit "copy"; TStrLit "execute";
         TStrLit "link"; TStrLit "move"; TStrLit "popup"; TUndefined]);
     ("aria-errormessage", Optional, TUnion [TString; TUndefined]);
     ("aria-expanded", Optional, TUnion [TBoolean; TStrLit "false"; TStrLit "true";
         TUndefined]);
     ("aria-flowto", Optional, TUnion [TString; TUndefined]);
     ("aria-grabbed", Optional, TUnion [TBoolean; TStrLit "false"; TStrLit "true"; TUndefined]);
     ("aria-haspopup", Optional, TUnion [TBoolean; TStrLit "false"; TStrLit "true";
         TStrLit "menu"; TStrLit "listbox"; TStrLit "tree"; TStrLit "grid"; TStrLit "dialog";
         TUndefined]);
     ("aria-hidden", Optional, TUnion [TBoolean; TStrLit "false"; TStrLit "true"; TUndefined]);
     ("aria-invalid", Optional, TUnion [TBoolean; TStrLit "false"; TStrLit "true";
         TStrLit "grammar"; TStrLit "spelling"; TUndefined]);
     ("aria-keyshortcuts", Optional, TUnion [TString; TUndefined]);
     ("aria-label", Optional, TUnion [TString; TUndefined]);
     ("aria-labelledby", Optional, TUnion [TString; TUndefined]);
     ("aria-level", Optional, TUnion [TNumber; TUndefined]);
     ("aria-live", Optional, TUnion [TStrLit "off"; TStrLit "assertive"; TStrLit "polite";
         TUndefined]);
     ("aria-modal", Optional, TUnion [TBoolean; TStrLit "false"; TStrLit "true"; TUndefined]);
     ("aria-multiline", Optional, TUnion [TBoolean; TStrLit "false"; TStrLit "true";
         TUndefined]);
     ("aria-multiselectable", Optional, TUnion [TBoolean; TStrLit "false"; TStrLit "true";
         TUndefined]);
     ("aria-orientation", Optional, TUnion [TStrLit "horizontal"; TStrLit "vertical";
         TUndefined]);
     ("aria-owns", Optional, TUnion [TString; TUndefined]);
     ("aria-placeholder", Optional, TUnion [TString; TUndefined]);
     ("aria-posinset", Optional, TUnion [TNumber; TUndefined]);
     ("aria-pressed", Optional, TUnion [TBoolean; TStrLit "false"; TStrLit "mixed";
         TStrLit "true"; TUndefined]);
     ("aria-readonly", Optional, TUnion [TBoolean; TStrLit "false"; TStrLit "true";
         TUndefined]);
     ("aria-relevant", Optional, TUnion [TStrLit "additions"; TStrLit "additions text";
         TStrLit "all"; TStrLit "removals"; TStrLit "text"; TUndefined]);
     ("aria-required", Optional, TUnion [TBoolean; TStrLit "false"; TStrLit "true";
         TUndefined]);
     ("aria-roledescription", Optional, TUnion [TString; TUndefined]);
     ("aria-rowcount", Optional, TUnion [TNumber; TUndefined]);
     ("aria-rowindex", Optional, TUnion [TNumber; TUndefined]);
     ("aria-rowspan", Optional, TUnion [TNumber; TUndefined]);
     ("aria-selected", Optional, TUnion [TBoolean; TStrLit "false"; TStrLit "true";
         TUndefined]);
     ("aria-setsize", Optional, TUnion [TNumber; TUndefined]);
     ("aria-sort", Optional, TUnion [TStrLit "none"; TStrLit "ascending"; TStrLit "descending";
         TStrLit "other"; TUndefined]);
     ("aria-valuemax", Optional, TUnion [TNumber; TUndefined]);
     ("aria-valuemin", Optional, TUnion [TNumber; TUndefined]);
     ("aria-valuenow", Optional, TUnion [TNumber; TUndefined]);
     ("aria-valuetext", Optional, TUnion [TString; TUndefined])]
    [].

(** Lines 2665-2740. *)
Definition HTMLAttributes : iface :=
  Iface "HTMLAttributes" [TParam "T" None None]
    [TRef "AriaAttributes" []; TRef "DOMAttributes" [TRef "T" []]]
    [("defaultChecked", Optional, TUnion [TBoolean; TUndefined]);
     ("defaultValue", Optional, TUnion [TString; TArray TString; TUndefined]);
     ("suppressContentEditableWarning", Optional, TUnion [TBoolean; TUndefined]);
     ("accessKey", Optional, TUnion [TString; TUndefined]);
     ("autoFocus", Optional, TUnion [TBoolean; TUndefined]);
     ("className", Optional, TUnion [TString; TUndefined]);
     ("contentEditable", Optional, TUnion [TBoolean; TUndefined]);
     ("contextMenu", Optional, TUnion [TString; TUndefined]);
     ("dir", Optional, TUnion [TString; TUndefined]);
     ("draggable", Optional, TUnion [TBoolean; TUndefined]);
     ("hidden", Optional, TUnion [TBoolean; TUndefined]);
     ("id", Optional, TUnion [TString; TUndefined]);
     ("lang", Optional, TUnion [TString; TUndefined]);
     ("slot", Optional, TUnion [TString; TUndefined]);
     ("spellCheck", Optional, TUnion [TBoolean; TUndefined]);
     ("style", Optional, TUnion [TRef "CSSProperties" []; TUndefined]);
     ("tabIndex", Optional, TUnion [TNumber; TUndefined]);
     ("title", Optional, TUnion [TString; TUndefined]);
     ("radioGroup", Optional, TUnion [TString; TUndefined]);
     ("role", Optional, TUnion [TString; TUndefined]);
     ("about", Optional, TUnion [TString; TUndefined]);
     ("content", Optional, TUnion [TString; TUndefined]);
     ("datatype", Optional, TUnion [TString; TUndefined]);
     ("inlist", Optional, TAny);
     ("prefix", Optional, TUnion [TString; TUndefined]);
     ("property", Optional, TUnion [TString; TUndefined]);
     ("rel", Optional, TUnion [TString; TUndefined]);
     ("resource", Optional, TUnion [TString; TUndefined]);
     ("rev", Optional, TUnion [TString; TUndefined]);
     ("typeof", Optional, TUnion [TString; TUndefined]);
     ("vocab", Optional, TUnion [TString; TUndefined]);
     ("autoCapitalize", Optional, TUnion [TString; TUndefined]);
     ("autoCorrect", Optional, TUnion [TString; TUndefined]);
     ("autoSave", Optional, TUnion [TString; TUndefined]);
     ("color", Optional, TUnion [TString; TUndefined]);
     ("itemProp", Optional, TUnion [TString; TUndefined]);
     ("itemScope", Optional, TUnion [TBoolean; TUndefined]);
     ("itemType", Optional, TUnion [TString; TUndefined]);
     ("itemID", Optional, TUnion [TString; TUndefined]);
     ("itemRef", Optional, TUnion [TString; TUndefined]);
     ("results", Optional, TUnion [TNumber; TUndefined]);
     ("security", Optional, TUnion [TString; TUndefined]);
     ("unselectable", Optional, TUnion [TBoolean; TUndefined]);
     ("inputMode", Optional, TUnion [TStrLit "none"; TStrLit "text"; TStrLit "tel";
         TStrLit "url"; TStrLit "email"; TStrLit "numeric"; TStrLit "decimal"; TStrLit "search";
         TUndefined]);
     ("is", Optional, TUnion [TString; TUndefined]);
     ("exportparts", Optional, TUnion [TString; TUndefined]);
     ("part", Optional, TUnion [TString; TUndefined])]
    [].

(** Lines 2742-2847. *)
Definition AllHTMLAttributes : iface :=
  Iface "AllHTMLAttributes" [TParam "T" None None]
    [TRef "HTMLAttributes" [TRef "T" []]]
    [("accept", Optional, TUnion [TString; TUndefined]);
     ("acceptCharset", Optional, TUnion [TString; TUndefined]);
     ("action", Optional, TUnion [TString; TUndefined]);
     ("allowFullScreen", Optional, TUnion [TBoolean; TUndefined]);
     ("allowTransparency", Optional, TUnion [TBoolean; TUndefined]);
     ("alt", Optional, TUnion [TString; TUndefined]);
     ("as", Optional, TUnion [TString; TUndefined]);
     ("async", Optional, TUnion [TBoolean; TUndefined]);
     ("autoComplete", Optional, TUnion [TString; TUndefined]);
     ("autoPlay", Optional, TUnion [TBoolean; TUndefined]);
     ("capture", Optional, TUnion [TBoolean; TString; TUndefined]);
     ("cellPadding", Optional, TUnion [TNumber; TString; TUndefined]);
     ("cellSpacing", Optional, TUnion [TNumber; TString; TUndefined]);
     ("charSet", Optional, TUnion [TString; TUndefined]);
     ("challenge", Optional, TUnion [TString; TUndefined]);
     ("checked", Optional, TUnion [TBoolean; TUndefined]);
     ("cite", Optional, TUnion [TString; TUndefined]);
     ("classID", Optional, TUnion [TString; TUndefined]);
     ("cols", Optional, TUnion [TNumber; TUndefined]);
     ("colSpan", Optional, TUnion [TNumber; TUndefined]);
     ("controls", Optional, TUnion [TBoolean; TUndefined]);
     ("coords", Optional, TUnion [TString; TUndefined]);
     ("crossOrigin", Optional, TRef "CrossOrigin" []);
     ("data", Optional, TUnion [TString; TUndefined]);
     ("dateTime", Optional, TUnion [TString; TUndefined]);
     ("default", Optional, TUnion [TBoolean; TUndefined]);
     ("defer", Optional, TUnion [TBoolean; TUndefined]);
     ("disabled", Optional, TUnion [TBoolean; TUndefined]);
     ("download", Optional, TAny);
     ("encType", Optional, TUnion [TString; TUndefined]);
     ("form", Optional, TUnion [TString; TUndefined]);
     ("formAction", Optional, TUnion [TString; TUndefined]);
     ("formEncType", Optional, TUnion [TString; TUndefined]);
     ("formMethod", Optional, TUnion [TString; TUndefined]);
     ("formNoValidate", Optional, TUnion [TBoolean; TUndefined]);
     ("formTarget", Optional, TUnion [TString; TUndefined]);
     ("frameBorder", Optional, TUnion [TNumber; TString; TUndefined]);
     ("headers", Optional, TUnion [TString; TUndefined]);
     ("height", Optional, TUnion [TNumber; TString; TUndefined]);
     ("high", Optional, TUnion [TNumber; TUndefined]);
     ("href", Optional, TUnion [TString; TUndefined]);
     ("hrefLang", Optional, TUnion [TString; TUndefined]);
     ("htmlFor", Optional, TUnion [TString; TUndefined]);
     ("httpEquiv", Optional, TUnion [TString; TUndefined]);
     ("integrity", Optional, TUnion [TString; TUndefined]);
     ("keyParams", Optional, TUnion [TString; TUndefined]);
     ("keyType", Optional, TUnion [TString; TUndefined]);
     ("kind", Optional, TUnion [TString; TUndefined]);
     ("label", Optional, TUnion [TString; TUndefined]);
     ("list", Optional, TUnion [TString; TUndefined]);
     ("loop", Optional, TUnion [TBoolean; TUndefined]);
     ("low", Optional, TUnion [TNumber; TUndefined]);
     ("manifest", Optional, TUnion [TString; TUndefined]);
     ("marginHeight", Optional, TUnion [TNumber; TUndefined]);
     ("marginWidth", Optional, TUnion [TNumber; TUndefined]);
     ("max", Optional, TUnion [TNumber; TString; TUndefined]);
     ("maxLength", Optional, TUnion [TNumber; TUndefined]);
     ("media", Optional, TUnion [TString; TUndefined]);
     ("mediaGroup", Optional, TUnion [TString; TUndefined]);
     ("method", Optional, TUnion [TString; TUndefined]);
     ("min", Optional, TUnion [TNumber; TString; TUndefined]);
     ("minLength", Optional, TUnion [TNumber; TUndefined]);
     ("multiple", Optional, TUnion [TBoolean; TUndefined]);
     ("muted", Optional, TUnion [TBoolean; TUndefined]);
     ("name", Optional, TUnion [TString; TUndefined]);
     ("nonce", Optional, TUnion [TString; TUndefined]);
     ("noValidate", Optional, TUnion [TBoolean; TUndefined]);
     ("open", Optional, TUnion [TBoolean; TUndefined]);
     ("optimum", Optional, TUnion [TNumber; TUndefined]);
     ("pattern", Optional, TUnion [TString; TUndefined]);
     ("placeholder", Optional, TUnion [TString; TUndefined]);
     ("playsInline", Optional, TUnion [TBoolean; TUndefined]);
     ("poster", Optional, TUnion [TString; TUndefined]);
     ("preload", Optional, TUnion [TString; TUndefined]);
     ("readOnly", Optional, TUnion [TBoolean; TUndefined]);
     ("required", Optional, TUnion [TBoolean; TUndefined]);
     ("reversed", Optional, TUnion [TBoolean; TUndefined]);
     ("rows", Optional, TUnion [TNumber; TUndefined]);
     ("rowSpan", Optional, TUnion [TNumber; TUndefined]);
     ("sandbox", Optional, TUnion [TString; TUndefined]);
     ("scope", Optional, TUnion [TString; TUndefined]);
     ("scoped", Optional, TUnion [TBoolean; TUndefined]);
     ("scrolling", Optional, TUnion [TString; TUndefined]);
     ("seamless", Optional, TUnion [TBoolean; TUndefined]);
     ("selected", Optional, TUnion [TBoolean; TUndefined]);
     ("shape", Optional, TUnion [TString; TUndefined]);
     ("size", Optional, TUnion [TNumber; TUndefined]);
     ("sizes", Optional, TUnion [TString; TUndefined]);
     ("span", Optional, TUnion [TNumber; TUndefined]);
     ("src", Optional, TUnion [TString; TUndefined]);
     ("srcDoc", Optional, TUnion [TString; TUndefined]);
     ("srcLang", Optional, TUnion [TString; TUndefined]);
     ("srcSet", Optional, TUnion [TString; TUndefined]);
     ("start", Optional, TUnion [TNumber; TUndefined]);
     ("step", Optional, TUnion [TNumber; TString; TUndefined]);
     ("summary", Optional, TUnion [TString; TUndefined]);
     ("target", Optional, TUnion [TString; TUndefined]);
     ("type", Optional, TUnion [TString; TUndefined]);
     ("useMap", Optional, TUnion [TString; TUndefined]);
     ("value", Optional, TUnion [TString; TArray TString; TNumber; TUndefined]);
     ("width", Optional, TUnion [TNumber; TString; TUndefined]);
     ("wmode", Optional, TUnion [TString; TUndefined]);
     ("wrap", Optional, TUnion [TString; TUndefined])]
    [].

(** Lines 2849-2855. *)
Definition AnchorHTMLAttributes : iface :=
  Iface "AnchorHTMLAttributes" [TParam "T" None None]
    [TRef "HTMLAttributes" [TRef "T" []]]
    [("download", Optional, TAny);
     ("href", Optional, TUnion [TString; TUndefined]);
     ("hrefLang", Optional, TUnion [TString; TUndefined]);
     ("media", Optional, TUnion [TString; TUndefined]);
     ("target", Optional, TUnion [TString; TUndefined])]
    [].

(** Line 2857. *)
Definition AudioHTMLAttributes : iface :=
  Iface "AudioHTMLAttributes" [TParam "T" None None]
    [TRef "MediaHTMLAttributes" [TRef "T" []]]
    []
    [].

(** Lines 2859-2868. *)
Definition AreaHTMLAttributes : iface :=
  Iface "AreaHTMLAttributes" [TParam "T" None None]
    [TRef "HTMLAttributes" [TRef "T" []]]
    [("alt", Optional, TUnion [TString; TUndefined]);
     ("coords", Optional, TUnion [TString; TUndefined]);
     ("download", Optional, TAny);
     ("href", Optional, TUnion [TString; TUndefined]);
     ("hrefLang", Optional, TUnion [TString; TUndefined]);
     ("media", Optional, TUnion [TString; TUndefined]);
     ("shape", Optional, TUnion [TString; TUndefined]);
     ("target", Optional, TUnion [TString; TUndefined])]
    [].

(** Lines 2870-2873. *)
Definition BaseHTMLAttributes : iface :=
  Iface "BaseHTMLAttributes" [TParam "T" None None]
    [TRef "HTMLAttributes" [TRef "T" []]]
    [("href", Optional, TUnion [TString; TUndefined]);
     ("target", Optional, TUnion [TString; TUndefined])]
    [].

(** Lines 2875-2877. *)
Definition BlockquoteHTMLAttributes : iface :=
  Iface "BlockquoteHTMLAttributes" [TParam "T" None None]
    [TRef "HTMLAttributes" [TRef "T" []]]
    [("cite", Optional, TUnion [TString; TUndefined])]
    [].

(** Lines 2879-2890. *)
Definition ButtonHTMLAttributes : iface :=
  Iface "ButtonHTMLAttributes" [TParam "T" None None]
    [TRef "HTMLAttributes" [TRef "T" []]]
    [("disabled", Optional, TUnion [TBoolean; TUndefined]);
     ("form", Optional, TUnion [TString; TUndefined]);
     ("formAction", Optional, TUnion [TString; TUndefined]);
     ("formEncType", Optional, TUnion [TString; TUndefined]);
     ("formMethod", Optional, TUnion [TString; TUndefined]);
     ("formNoValidate", Optional, TUnion [TBoolean; TUndefined]);
     ("formTarget", Optional, TUnion [TString; TUndefined]);
     ("name", Optional, TUnion [TString; TUndefined]);
     ("type", Optional, TUnion [TString; TUndefined]);
     ("value", Optional, TUnion [TString; TArray TString; TNumber; TUndefined])]
    [].

(** Lines 2892-2895. *)
Definition CanvasHTMLAttributes : iface :=
  Iface "CanvasHTMLAttributes" [TParam "T" None None]
    [TRef "HTMLAttributes" [TRef "T" []]]
    [("height", Optional, TUnion [TNumber; TString; TUndefined]);
     ("width", Optional, TUnion [TNumber; TString; TUndefined])]
    [].

(** Lines 2897-2899. *)
Definition ColHTMLAttributes : iface :=
  Iface "ColHTMLAttributes" [TParam "T" None None]
    [TRef "HTMLAttributes" [TRef "T" []]]
    [("span", Optional, TUnion [TNumber; TUndefined])]
    [].

(** Lines 2901-2903. *)
Definition ColgroupHTMLAttributes : iface :=
  Iface "ColgroupHTMLAttributes" [TParam "T" None None]
    [TRef "HTMLAttributes" [TRef "T" []]]
    [("span", Optional, TUnion [TNumber; TUndefined])]
    [].

(** Lines 2905-2907. *)
Definition DataHTMLAttributes : iface :=
  Iface "DataHTMLAttributes" [TParam "T" None None]
    [TRef "HTMLAttributes" [TRef "T" []]]
    [("value", Optional, TUnion [TString; TArray TString; TNumber; TUndefined])]
    [].

(** Lines 2909-2912. *)
Definition DetailsHTMLAttributes : iface :=
  Iface "DetailsHTMLAttributes" [TParam "T" None None]
    [TRef "HTMLAttributes" [TRef "T" []]]
    [("open", Optional, TUnion [TBoolean; TUndefined]);
     ("name", Optional, TUnion [TString; TUndefined])]
    [].

(** Lines 2914-2917. *)
Definition DelHTMLAttributes : iface :=
  Iface "DelHTMLAttributes" [TParam "T" None None]
    [TRef "HTMLAttributes" [TRef "T" []]]
    [("cite", Optional, TUnion [TString; TUndefined]);
     ("dateTime", Optional, TUnion [TString; TUndefined])]
    [].

(** Lines 2919-2924. *)
Definition EmbedHTMLAttributes : iface :=
  Iface "EmbedHTMLAttributes" [TParam "T" None None]
    [TRef "HTMLAttributes" [TRef "T" []]]
    [("height", Optional, TUnion [TNumber; TString; TUndefined]);
     ("src", Optional, TUnion [TString; TUndefined]);
     ("type", Optional, TUnion [TString; TUndefined]);
     ("width", Optional, TUnion [TNumber; TString; TUndefined])]
    [].

(** Lines 2926-2930. *)
Definition FieldsetHTMLAttributes : iface :=
  Iface "FieldsetHTMLAttributes" [TParam "T" None None]
    [TRef "HTMLAttributes" [TRef "T" []]]
    [("disabled", Optional, TUnion [TBoolean; TUndefined]);
     ("form", Optional, TUnion [TString; TUndefined]);
     ("name", Optional, TUnion [TString; TUndefined])]
    [].

(** Lines 2932-2941. *)
Definition FormHTMLAttributes : iface :=
  Iface "FormHTMLAttributes" [TParam "T" None None]
    [TRef "HTMLAttributes" [TRef "T" []]]
    [("acceptCharset", Optional, TUnion [TString; TUndefined]);
     ("action", Optional, TUnion [TString; TUndefined]);
     ("autoComplete", Optional, TUnion [TString; TUndefined]);
     ("encType", Optional, TUnion [TString; TUndefined]);
     ("method", Optional, TUnion [TString; TUndefined]);
     ("name", Optional, TUnion [TString; TUndefined]);
     ("noValidate", Optional, TUnion [TBoolean; TUndefined]);
     ("target", Optional, TUnion [TString; TUndefined])]
    [].

(** Lines 2943-2945. *)
Definition HtmlHTMLAttributes : iface :=
  Iface "HtmlHTMLAttributes" [TParam "T" None None]
    [TRef "HTMLAttributes" [TRef "T" []]]
    [("manifest", Optional, TUnion [TString; TUndefined])]
    [].

(** Lines 2947-2961. *)
Definition IframeHTMLAttributes : iface :=
  Iface "IframeHTMLAttributes" [TParam "T" None None]
    [TRef "HTMLAttributes" [TRef "T" []]]
    [("allowFullScreen", Optional, TUnion [TBoolean; TUndefined]);
     ("allowTransparency", Optional, TUnion [TBoolean; TUndefined]);
     ("frameBorder", Optional, TUnion [TNumber; TString; TUndefined]);
     ("height", Optional, TUnion [TNumber; TString; TUndefined]);
     ("marginHeight", Optional, TUnion [TNumber; TUndefined]);
     ("marginWidth", Optional, TUnion [TNumber; TUndefined]);
     ("name", Optional, TUnion [TString; TUndefined]);
     ("sandbox", Optional, TUnion [TString; TUndefined]);
     ("scrolling", Optional, TUnion [TString; TUndefined]);
     ("seamless", Optional, TUnion [TBoolean; TUndefined]);
     ("src", Optional, TUnion [TString; TUndefined]);
     ("srcDoc", Optional, TUnion [TString; TUndefined]);
     ("width", Optional, TUnion [TNumber; TString; TUndefined])]
    [].

(** Lines 2963-2972. *)
Definition ImgHTMLAttributes : iface :=
  Iface "ImgHTMLAttributes" [TParam "T" None None]
    [TRef "HTMLAttributes" [TRef "T" []]]
    [("alt", Optional, TUnion [TString; TUndefined]);
     ("crossOrigin", Optional, TRef "CrossOrigin" []);
     ("height", Optional, TUnion [TNumber; TString; TUndefined]);
     ("sizes", Optional, TUnion [TString; TUndefined]);
     ("src", Optional, TUnion [TString; TUndefined]);
     ("srcSet", Optional, TUnion [TString; TUndefined]);
     ("useMap", Optional, TUnion [TString; TUndefined]);
     ("width", Optional, TUnion [TNumber; TString; TUndefined])]
    [].

(** Lines 2974-2977. *)
Definition InsHTMLAttributes : iface :=
  Iface "InsHTMLAttributes" [TParam "T" None None]
    [TRef "HTMLAttributes" [TRef "T" []]]
    [("cite", Optional, TUnion [TString; TUndefined]);
     ("dateTime", Optional, TUnion [TString; TUndefined])]
    [].

(** Lines 2979-3012. *)
Definition InputHTMLAttributes : iface :=
  Iface "InputHTMLAttributes" [TParam "T" None None]
    [TRef "HTMLAttributes" [TRef "T" []]]
    [("accept", Optional, TUnion [TString; TUndefined]);
     ("alt", Optional, TUnion [TString; TUndefined]);
     ("autoComplete", Optional, TUnion [TString; TUndefined]);
     ("capture", Optional, TUnion [TBoolean; TString; TUndefined]);
     ("checked", Optional, TUnion [TBoolean; TUndefined]);
     ("disabled", Optional, TUnion [TBoolean; TUndefined]);
     ("form", Optional, TUnion [TString; TUndefined]);
     ("formAction", Optional, TUnion [TString; TUndefined]);
     ("formEncType", Optional, TUnion [TString; TUndefined]);
     ("formMethod", Optional, TUnion [TString; TUndefined]);
     ("formNoValidate", Optional, TUnion [TBoolean; TUndefined]);
     ("formTarget", Optional, TUnion [TString; TUndefined]);
     ("height", Optional, TUnion [TNumber; TString; TUndefined]);
     ("list", Optional, TUnion [TString; TUndefined]);
     ("max", Optional, TUnion [TNumber; TString; TUndefined]);
     ("maxLength", Optional, TUnion [TNumber; TUndefined]);
     ("min", Optional, TUnion [TNumber; TString; TUndefined]);
     ("minLength", Optional, TUnion [TNumber; TUndefined]);
     ("multiple", Optional, TUnion [TBoolean; TUndefined]);
     ("name", Optional, TUnion [TString; TUndefined]);
     ("pattern", Optional, TUnion [TString; TUndefined]);
     ("placeholder", Optional, TUnion [TString; TUndefined]);
     ("readOnly", Optional, TUnion [TBoolean; TUndefined]);
     ("required", Optional, TUnion [TBoolean; TUndefined]);
     ("size", Optional, TUnion [TNumber; TUndefined]);
     ("src", Optional, TUnion [TString; TUndefined]);
     ("step", Optional, TUnion [TNumber; TString; TUndefined]);
     ("type", Optional, TUnion [TString; TUndefined]);
     ("value", Optional, TUnion [TString; TArray TString; TNumber; TUndefined]);
     ("width", Optional, TUnion [TNumber; TString; TUndefined]);
     ("onChange", Optional, TUnion [TRef "ChangeEventHandler" [TRef "T" []]; TUndefined])]
    [].

(** Lines 3014-3021. *)
Definition KeygenHTMLAttributes : iface :=
  Iface "KeygenHTMLAttributes" [TParam "T" None None]
    [TRef "HTMLAttributes" [TRef "T" []]]
    [("challenge", Optional, TUnion [TString; TUndefined]);
     ("disabled", Optional, TUnion [TBoolean; TUndefined]);
     ("form", Optional, TUnion [TString; TUndefined]);
     ("keyType", Optional, TUnion [TString; TUndefined]);
     ("keyParams", Optional, TUnion [TString; TUndefined]);
     ("name", Optional, TUnion [TString; TUndefined])]
    [].

(** Lines 3023-3026. *)
Definition LabelHTMLAttributes : iface :=
  Iface "LabelHTMLAttributes" [TParam "T" None None]
    [TRef "HTMLAttributes" [TRef "T" []]]
    [("form", Optional, TUnion [TString; TUndefined]);
     ("htmlFor", Optional, TUnion [TString; TUndefined])]
    [].

(** Lines 3028-3030. *)
Definition LiHTMLAttributes : iface :=
  Iface "LiHTMLAttributes" [TParam "T" None None]
    [TRef "HTMLAttributes" [TRef "T" []]]
    [("value", Optional, TUnion [TString; TArray TString; TNumber; TUndefined])]
    [].

(** Lines 3032-3043. *)
Definition LinkHTMLAttributes : iface :=
  Iface "LinkHTMLAttributes" [TParam "T" None None]
    [TRef "HTMLAttributes" [TRef "T" []]]
    [("as", Optional, TUnion [TString; TUndefined]);
     ("crossOrigin", Optional, TRef "CrossOrigin" []);
     ("fetchPriority", Optional, TUnion [TStrLit "high"; TStrLit "low"; TStrLit "auto"]);
     ("href", Optional, TUnion [TString; TUndefined]);
     ("hrefLang", Optional, TUnion [TString; TUndefined]);
     ("integrity", Optional, TUnion [TString; TUndefined]);
     ("imageSrcSet", Optional, TUnion [TString; TUndefined]);
     ("media", Optional, TUnion [TString; TUndefined]);
     ("sizes", Optional, TUnion [TString; TUndefined]);
     ("type", Optional, TUnion [TString; TUndefined])]
    [].

(** Lines 3045-3047. *)
Definition MapHTMLAttributes : iface :=
  Iface "MapHTMLAttributes" [TParam "T" None None]
    [TRef "HTMLAttributes" [TRef "T" []]]
    [("name", Optional, TUnion [TString; TUndefined])]
    [].

(** Lines 3049-3051. *)
Definition MenuHTMLAttributes : iface :=
  Iface "MenuHTMLAttributes" [TParam "T" None None]
    [TRef "HTMLAttributes" [TRef "T" []]]
    [("type", Optional, TUnion [TString; TUndefined])]
    [].

(** Lines 3053-3063. *)
Definition MediaHTMLAttributes : iface :=
  Iface "MediaHTMLAttributes" [TParam "T" None None]
    [TRef "HTMLAttributes" [TRef "T" []]]
    [("autoPlay", Optional, TUnion [TBoolean; TUndefined]);
     ("controls", Optional, TUnion [TBoolean; TUndefined]);
     ("crossOrigin", Optional, TRef "CrossOrigin" []);
     ("loop", Optional, TUnion [TBoolean; TUndefined]);
     ("mediaGroup", Optional, TUnion [TString; TUndefined]);
     ("muted", Optional, TUnion [TBoolean; TUndefined]);
     ("playsinline", Optional, TUnion [TBoolean; TUndefined]);
     ("preload", Optional, TUnion [TString; TUndefined]);
     ("src", Optional, TUnion [TString; TUndefined])]
    [].

(** Lines 3065-3071. *)
Definition MetaHTMLAttributes : iface :=
  Iface "MetaHTMLAttributes" [TParam "T" None None]
    [TRef "HTMLAttributes" [TRef "T" []]]
    [("charSet", Optional, TUnion [TString; TUndefined]);
     ("content", Optional, TUnion [TString; TUndefined]);
     ("httpEquiv", Optional, TUnion [TString; TUndefined]);
     ("media", Optional, TUnion [TString; TUndefined]);
     ("name", Optional, TUnion [TString; TUndefined])]
    [].

(** Lines 3073-3081. *)
Definition MeterHTMLAttributes : iface :=
  Iface "MeterHTMLAttributes" [TParam "T" None None]
    [TRef "HTMLAttributes" [TRef "T" []]]
    [("form", Optional, TUnion [TString; TUndefined]);
     ("high", Optional, TUnion [TNumber; TUndefined]);
     ("low", Optional, TUnion [TNumber; TUndefined]);
     ("max", Optional, TUnion [TNumber; TString; TUndefined]);
     ("min", Optional, TUnion [TNumber; TString; TUndefined]);
     ("optimum", Optional, TUnion [TNumber; TUndefined]);
     ("value", Optional, TUnion [TString; TArray TString; TNumber; TUndefined])]
    [].

(** Lines 3083-3085. *)
Definition QuoteHTMLAttributes : iface :=
  Iface "QuoteHTMLAttributes" [TParam "T" None None]
    [TRef "HTMLAttributes" [TRef "T" []]]
    [("cite", Optional, TUnion [TString; TUndefined])]
    [].

(** Lines 3087-3097. *)
Definition ObjectHTMLAttributes : iface :=
  Iface "ObjectHTMLAttributes" [TParam "T" None None]
    [TRef "HTMLAttributes" [TRef "T" []]]
    [("classID", Optional, TUnion [TString; TUndefined]);
     ("data", Optional, TUnion [TString; TUndefined]);
     ("form", Optional, TUnion [TString; TUndefined]);
     ("height", Optional, TUnion [TNumber; TString; TUndefined]);
     ("name", Optional, TUnion [TString; TUndefined]);
     ("type", Optional, TUnion [TString; TUndefined]);
     ("useMap", Optional, TUnion [TString; TUndefined]);
     ("width", Optional, TUnion [TNumber; TString; TUndefined]);
     ("wmode", Optional, TUnion [TString; TUndefined])]
    [].

(** Lines 3099-3102. *)
Definition OlHTMLAttributes : iface :=
  Iface "OlHTMLAttributes" [TParam "T" None None]
    [TRef "HTMLAttributes" [TRef "T" []]]
    [("reversed", Optional, TUnion [TBoolean; TUndefined]);
     ("start", Optional, TUnion [TNumber; TUndefined])]
    [].

(** Lines 3104-3107. *)
Definition OptgroupHTMLAttributes : iface :=
  Iface "OptgroupHTMLAttributes" [TParam "T" None None]
    [TRef "HTMLAttributes" [TRef "T" []]]
    [("disabled", Optional, TUnion [TBoolean; TUndefined]);
     ("label", Optional, TUnion [TString; TUndefined])]
    [].

(** Lines 3109-3114. *)
Definition OptionHTMLAttributes : iface :=
  Iface "OptionHTMLAttributes" [TParam "T" None None]
    [TRef "HTMLAttributes" [TRef "T" []]]
    [("disabled", Optional, TUnion [TBoolean; TUndefined]);
     ("label", Optional, TUnion [TString; TUndefined]);
     ("selected", Optional, TUnion [TBoolean; TUndefined]);
     ("value", Optional, TUnion [TString; TArray TString; TNumber; TUndefined])]
    [].

(** Lines 3116-3120. *)
Definition OutputHTMLAttributes : iface :=
  Iface "OutputHTMLAttributes" [TParam "T" None None]
    [TRef "HTMLAttributes" [TRef "T" []]]
    [("form", Optional, TUnion [TString; TUndefined]);
     ("htmlFor", Optional, TUnion [TString; TUndefined]);
     ("name", Optional, TUnion [TString; TUndefined])]
    [].

(** Lines 3122-3125. *)
Definition ParamHTMLAttributes : iface :=
  Iface "ParamHTMLAttributes" [TParam "T" None None]
    [TRef "HTMLAttributes" [TRef "T" []]]
    [("name", Optional, TUnion [TString; TUndefined]);
     ("value", Optional, TUnion [TString; TArray TString; TNumber; TUndefined])]
    [].

(** Lines 3127-3130. *)
Definition ProgressHTMLAttributes : iface :=
  Iface "ProgressHTMLAttributes" [TParam "T" None None]
    [TRef "HTMLAttributes" [TRef "T" []]]
    [("max", Optional, TUnion [TNumber; TString; TUndefined]);
     ("value", Optional, TUnion [TString; TArray TString; TNumber; TUndefined])]
    [].

(** Lines 3132-3141. *)
Definition ScriptHTMLAttributes : iface :=
  Iface "ScriptHTMLAttributes" [TParam "T" None None]
    [TRef "HTMLAttributes" [TRef "T" []]]
    [("async", Optional, TUnion [TBoolean; TUndefined]);
     ("charSet", Optional, TUnion [TString; TUndefined]);
     ("crossOrigin", Optional, TRef "CrossOrigin" []);
     ("defer", Optional, TUnion [TBoolean; TUndefined]);
     ("integrity", Optional, TUnion [TString; TUndefined]);
     ("nonce", Optional, TUnion [TString; TUndefined]);
     ("src", Optional, TUnion [TString; TUndefined]);
     ("type", Optional, TUnion [TString; TUndefined])]
    [].

(** Lines 3143-3153. *)
Definition SelectHTMLAttributes : iface :=
  Iface "SelectHTMLAttributes" [TParam "T" None None]
    [TRef "HTMLAttributes" [TRef "T" []]]
    [("autoComplete", Optional, TUnion [TString; TUndefined]);
     ("disabled", Optional, TUnion [TBoolean; TUndefined]);
     ("form", Optional, TUnion [TString; TUndefined]);
     ("multiple", Optional, TUnion [TBoolean; TUndefined]);
     ("name", Optional, TUnion [TString; TUndefined]);
     ("required", Optional, TUnion [TBoolean; TUndefined]);
     ("size", Optional, TUnion [TNumber; TUndefined]);
     ("value", Optional, TUnion [TString; TArray TString; TNumber; TUndefined]);
     ("onChange", Optional, TUnion [TRef "ChangeEventHandler" [TRef "T" []]; TUndefined])]
    [].

(** Lines 3155-3161. *)
Definition SourceHTMLAttributes : iface :=
  Iface "SourceHTMLAttributes" [TParam "T" None None]
    [TRef "HTMLAttributes" [TRef "T" []]]
    [("media", Optional, TUnion [TString; TUndefined]);
     ("sizes", Optional, TUnion [TString; TUndefined]);
     ("src", Optional, TUnion [TString; TUndefined]);
     ("srcSet", Optional, TUnion [TString; TUndefined]);
     ("type", Optional, TUnion [TString; TUndefined])]
    [].

(** Lines 3163-3168. *)
Definition StyleHTMLAttributes : iface :=
  Iface "StyleHTMLAttributes" [TParam "T" None None]
    [TRef "HTMLAttributes" [TRef "T" []]]
    [("media", Optional, TUnion [TString; TUndefined]);
     ("nonce", Optional, TUnion [TString; TUndefined]);
     ("scoped", Optional, TUnion [TBoolean; TUndefined]);
     ("type", Optional, TUnion [TString; TUndefined])]
    [].

(** Lines 3170-3174. *)
Definition TableHTMLAttributes : iface :=
  Iface "TableHTMLAttributes" [TParam "T" None None]
    [TRef "HTMLAttributes" [TRef "T" []]]
    [("cellPadding", Optional, TUnion [TNumber; TString; TUndefined]);
     ("cellSpacing", Optional, TUnion [TNumber; TString; TUndefined]);
     ("summary", Optional, TUnion [TString; TUndefined])]
    [].

(** Lines 3176-3193. *)
Definition TextareaHTMLAttributes : iface :=
  Iface "TextareaHTMLAttributes" [TParam "T" None None]
    [TRef "HTMLAttributes" [TRef "T" []]]
    [("autoComplete", Optional, TUnion [TString; TUndefined]);
     ("cols", Optional, TUnion [TNumber; TUndefined]);
     ("dirName", Optional, TUnion [TString; TUndefined]);
     ("disabled", Optional, TUnion [TBoolean; TUndefined]);
     ("form", Optional, TUnion [TString; TUndefined]);
     ("maxLength", Optional, TUnion [TNumber; TUndefined]);
     ("minLength", Optional, TUnion [TNumber; TUndefined]);
     ("name", Optional, TUnion [TString; TUndefined]);
     ("placeholder", Optional, TUnion [TString; TUndefined]);
     ("readOnly", Optional, TUnion [TBoolean; TUndefined]);
     ("required", Optional, TUnion [TBoolean; TUndefined]);
     ("rows", Optional, TUnion [TNumber; TUndefined]);
     ("value", Optional, TUnion [TString; TArray TString; TNumber; TUndefined]);
     ("wrap", Optional, TUnion [TString; TUndefined]);
     ("onChange", Optional, TUnion [TRef "ChangeEventHandler" [TRef "T" []]; TUndefined])]
    [].

(** Lines 3195-3199. *)
Definition TdHTMLAttributes : iface :=
  Iface "TdHTMLAttributes" [TParam "T" None None]
    [TRef "HTMLAttributes" [TRef "T" []]]
    [("colSpan", Optional, TUnion [TNumber; TUndefined]);
     ("headers", Optional, TUnion [TString; TUndefined]);
     ("rowSpan", Optional, TUnion [TNumber; TUndefined])]
    [].

(** Lines 3201-3206. *)
Definition ThHTMLAttributes : iface :=
  Iface "ThHTMLAttributes" [TParam "T" None None]
    [TRef "HTMLAttributes" [TRef "T" []]]
    [("colSpan", Optional, TUnion [TNumber; TUndefined]);
     ("headers", Optional, TUnion [TString; TUndefined]);
     ("rowSpan", Optional, TUnion [TNumber; TUndefined]);
     ("scope", Optional, TUnion [TString; TUndefined])]
    [].

(** Lines 3208-3210. *)
Definition TimeHTMLAttributes : iface :=
  Iface "TimeHTMLAttributes" [TParam "T" None None]
    [TRef "HTMLAttributes" [TRef "T" []]]
    [("dateTime", Optional, TUnion [TString; TUndefined])]
    [].

(** Lines 3212-3218. *)
Definition TrackHTMLAttributes : iface :=
  Iface "TrackHTMLAttributes" [TParam "T" None None]
    [TRef "HTMLAttributes" [TRef "T" []]]
    [("default", Optional, TUnion [TBoolean; TUndefined]);
     ("kind", Optional, TUnion [TString; TUndefined]);
     ("label", Optional, TUnion [TString; TUndefined]);
     ("src", Optional, TUnion [TString; TUndefined]);
     ("srcLang", Optional, TUnion [TString; TUndefined])]
    [].

(** Lines 3220-3225. *)
Definition VideoHTMLAttributes : iface :=
  Iface "VideoHTMLAttributes" [TParam "T" None None]
    [TRef "MediaHTMLAttributes" [TRef "T" []]]
    [("height", Optional, TUnion [TNumber; TString; TUndefined]);
     ("playsInline", Optional, TUnion [TBoolean; TUndefined]);
     ("poster", Optional, TUnion [TString; TUndefined]);
     ("width", Optional, TUnion [TNumber; TString; TUndefined])]
    [].

(** Lines 3235-3513. *)
Definition SVGAttributes : iface :=
  Iface "SVGAttributes" [TParam "T" None None]
    [TRef "AriaAttributes" []; TRef "DOMAttributes" [TRef "T" []]]
    [("className", Optional, TUnion [TString; TUndefined]);
     ("color", Optional, TUnion [TString; TUndefined]);
     ("height", Optional, TUnion [TNumber; TString; TUndefined]);
     ("id", Optional, TUnion [TString; TUndefined]);
     ("lang", Optional, TUnion [TString; TUndefined]);
     ("max", Optional, TUnion [TNumber; TString; TUndefined]);
     ("media", Optional, TUnion [TString; TUndefined]);
     ("method", Optional, TUnion [TString; TUndefined]);
     ("min", Optional, TUnion [TNumber; TString; TUndefined]);
     ("name", Optional, TUnion [TString; TUndefined]);
     ("style", Optional, TUnion [TRef "CSSProperties" []; TUndefined]);
     ("target", Optional, TUnion [TString; TUndefined]);
     ("type", Optional, TUnion [TString; TUndefined]);
     ("width", Optional, TUnion [TNumber; TString; TUndefined]);
     ("role", Optional, TUnion [TString; TUndefined]);
     ("tabIndex", Optional, TUnion [TNumber; TUndefined]);
     ("accentHeight", Optional, TUnion [TNumber; TString; TUndefined]);
     ("accumulate", Optional, TUnion [TStrLit "none"; TStrLit "sum"; TUndefined]);
     ("additive", Optional, TUnion [TStrLit "replace"; TStrLit "sum"; TUndefined]);
     ("alignmentBaseline", Optional, TUnion [TStrLit "auto"; TStrLit "baseline";
         TStrLit "before-edge"; TStrLit "text-before-edge"; TStrLit "middle"; TStrLit "central";
         TStrLit "after-edge"; TStrLit "text-after-edge"; TStrLit "ideographic";
         TStrLit "alphabetic"; TStrLit "hanging"; TStrLit "mathematical"; TStrLit "inherit";
         TUndefined]);
     ("allowReorder", Optional, TUnion [TStrLit "no"; TStrLit "yes"; TUndefined]);
     ("alphabetic", Optional, TUnion [TNumber; TString; TUndefined]);
     ("amplitude", Optional, TUnion [TNumber; TString; TUndefined]);
     ("arabicForm", Optional, TUnion [TStrLit "initial"; TStrLit "medial"; TStrLit "terminal";
         TStrLit "isolated"; TUndefined]);
     ("ascent", Optional, TUnion [TNumber; TString; TUndefined]);
     ("attributeName", Optional, TUnion [TString; TUndefined]);
     ("attributeType", Optional, TUnion [TString; TUndefined]);
     ("autoReverse", Optional, TUnion [TNumber; TString; TUndefined]);
     ("azimuth", Optional, TUnion [TNumber; TString; TUndefined]);
     ("baseFrequency", Optional, TUnion [TNumber; TString; TUndefined]);
     ("baselineShift", Optional, TUnion [TNumber; TString; TUndefined]);
     ("baseProfile", Optional, TUnion [TNumber; TString; TUndefined]);
     ("bbox", Optional, TUnion [TNumber; TString; TUndefined]);
     ("begin", Optional, TUnion [TNumber; TString; TUndefined]);
     ("bias", Optional, TUnion [TNumber; TString; TUndefined]);
     ("by", Optional, TUnion [TNumber; TString; TUndefined]);
     ("calcMode", Optional, TUnion [TNumber; TString; TUndefined]);
     ("capHeight", Optional, TUnion [TNumber; TString; TUndefined]);
     ("clip", Optional, TUnion [TNumber; TString; TUndefined]);
     ("clipPath", Optional, TUnion [TString; TUndefined]);
     ("clipPathUnits", Optional, TUnion [TNumber; TString; TUndefined]);
     ("clipRule", Optional, TUnion [TNumber; TString; TUndefined]);
     ("colorInterpolation", Optional, TUnion [TNumber; TString; TUndefined]);
     ("colorInterpolationFilters", Optional, TUnion [TStrLit "auto"; TStrLit "sRGB";
         TStrLit "linearRGB"; TStrLit "inherit"; TUndefined]);
     ("colorProfile", Optional, TUnion [TNumber; TString; TUndefined]);
     ("colorRendering", Optional, TUnion [TNumber; TString; TUndefined]);
     ("contentScriptType", Optional, TUnion [TNumber; TString; TUndefined]);
     ("contentStyleType", Optional, TUnion [TNumber; TString; TUndefined]);
     ("cursor", Optional, TUnion [TNumber; TString; TUndefined]);
     ("cx", Optional, TUnion [TNumber; TString; TUndefined]);
     ("cy", Optional, TUnion [TNumber; TString; TUndefined]);
     ("d", Optional, TUnion [TString; TUndefined]);
     ("decelerate", Optional, TUnion [TNumber; TString; TUndefined]);
     ("descent", Optional, TUnion [TNumber; TString; TUndefined]);
     ("diffuseConstant", Optional, TUnion [TNumber; TString; TUndefined]);
     ("direction", Optional, TUnion [TNumber; TString; TUndefined]);
     ("display", Optional, TUnion [TNumber; TString; TUndefined]);
     ("divisor", Optional, TUnion [TNumber; TString; TUndefined]);
     ("dominantBaseline", Optional, TUnion [TNumber; TString; TUndefined]);
     ("dur", Optional, TUnion [TNumber; TString; TUndefined]);
     ("dx", Optional, TUnion [TNumber; TString; TUndefined]);
     ("dy", Optional, TUnion [TNumber; TString; TUndefined]);
     ("edgeMode", Optional, TUnion [TNumber; TString; TUndefined]);
     ("elevation", Optional, TUnion [TNumber; TString; TUndefined]);
     ("enableBackground", Optional, TUnion [TNumber; TString; TUndefined]);
     ("end", Optional, TUnion [TNumber; TString; TUndefined]);
     ("exponent", Optional, TUnion [TNumber; TString; TUndefined]);
     ("externalResourcesRequired", Optional, TUnion [TNumber; TString; TUndefined]);
     ("fill", Optional, TUnion [TString; TUndefined]);
     ("fillOpacity", Optional, TUnion [TNumber; TString; TUndefined]);
     ("fillRule", Optional, TUnion [TStrLit "nonzero"; TStrLit "evenodd"; TStrLit "inherit";
         TUndefined]);
     ("filter", Optional, TUnion [TString; TUndefined]);
     ("filterRes", Optional, TUnion [TNumber; TString; TUndefined]);
     ("filterUnits", Optional, TUnion [TNumber; TString; TUndefined]);
     ("floodColor", Optional, TUnion [TNumber; TString; TUndefined]);
     ("floodOpacity", Optional, TUnion [TNumber; TString; TUndefined]);
     ("focusable", Optional, TUnion [TNumber; TString; TUndefined]);
     ("fontFamily", Optional, TUnion [TString; TUndefined]);
     ("fontSize", Optional, TUnion [TNumber; TString; TUndefined]);
     ("fontSizeAdjust", Optional, TUnion [TNumber; TString; TUndefined]);
     ("fontStretch", Optional, TUnion [TNumber; TString; TUndefined]);
     ("fontStyle", Optional, TUnion [TNumber; TString; TUndefined]);
     ("fontVariant", Optional, TUnion [TNumber; TString; TUndefined]);
     ("fontWeight", Optional, TUnion [TNumber; TString; TUndefined]);
     ("format", Optional, TUnion [TNumber; TString; TUndefined]);
     ("fr", Optional, TUnion [TNumber; TString; TUndefined]);
     ("from", Optional, TUnion [TNumber; TString; TUndefined]);
     ("fx", Optional, TUnion [TNumber; TString; TUndefined]);
     ("fy", Optional, TUnion [TNumber; TString; TUndefined]);
     ("g1", Optional, TUnion [TNumber; TString; TUndefined]);
     ("g2", Optional, TUnion [TNumber; TString; TUndefined]);
     ("glyphName", Optional, TUnion [TNumber; TString; TUndefined]);
     ("glyphOrientationHorizontal", Optional, TUnion [TNumber; TString; TUndefined]);
     ("glyphOrientationVertical", Optional, TUnion [TNumber; TString; TUndefined]);
     ("glyphRef", Optional, TUnion [TNumber; TString; TUndefined]);
     ("gradientTransform", Optional, TUnion [TString; TUndefined]);
     ("gradientUnits", Optional, TUnion [TString; TUndefined]);
     ("hanging", Optional, TUnion [TNumber; TString; TUndefined]);
     ("horizAdvX", Optional, TUnion [TNumber; TString; TUndefined]);
     ("horizOriginX", Optional, TUnion [TNumber; TString; TUndefined]);
     ("href", Optional, TUnion [TString; TUndefined]);
     ("ideographic", Optional, TUnion [TNumber; TString; TUndefined]);
     ("imageRendering", Optional, TUnion [TNumber; TString; TUndefined]);
     ("in2", Optional, TUnion [TNumber; TString; TUndefined]);
     ("in", Optional, TUnion [TString; TUndefined]);
     ("intercept", Optional, TUnion [TNumber; TString; TUndefined]);
     ("k1", Optional, TUnion [TNumber; TString; TUndefined]);
     ("k2", Optional, TUnion [TNumber; TString; TUndefined]);
     ("k3", Optional, TUnion [TNumber; TString; TUndefined]);
     ("k4", Optional, TUnion [TNumber; TString; TUndefined]);
     ("k", Optional, TUnion [TNumber; TString; TUndefined]);
     ("kernelMatrix", Optional, TUnion [TNumber; TString; TUndefined]);
     ("kernelUnitLength", Optional, TUnion [TNumber; TString; TUndefined]);
     ("kerning", Optional, TUnion [TNumber; TString; TUndefined]);
     ("keyPoints", Optional, TUnion [TNumber; TString; TUndefined]);
     ("keySplines", Optional, TUnion [TNumber; TString; TUndefined]);
     ("keyTimes", Optional, TUnion [TNumber; TString; TUndefined]);
     ("lengthAdjust", Optional, TUnion [TNumber; TString; TUndefined]);
     ("letterSpacing", Optional, TUnion [TNumber; TString; TUndefined]);
     ("lightingColor", Optional, TUnion [TNumber; TString; TUndefined]);
     ("limitingConeAngle", Optional, TUnion [TNumber; TString; TUndefined]);
     ("local", Optional, TUnion [TNumber; TString; TUndefined]);
     ("markerEnd", Optional, TUnion [TString; TUndefined]);
     ("markerHeight", Optional, TUnion [TNumber; TString; TUndefined]);
     ("markerMid", Optional, TUnion [TString; TUndefined]);
     ("markerStart", Optional, TUnion [TString; TUndefined]);
     ("markerUnits", Optional, TUnion [TNumber; TString; TUndefined]);
     ("markerWidth", Optional, TUnion [TNumber; TString; TUndefined]);
     ("mask", Optional, TUnion [TString; TUndefined]);
     ("maskContentUnits", Optional, TUnion [TNumber; TString; TUndefined]);
     ("maskUnits", Optional, TUnion [TNumber; TString; TUndefined]);
     ("mathematical", Optional, TUnion [TNumber; TString; TUndefined]);
     ("mode", Optional, TUnion [TNumber; TString; TUndefined]);
     ("numOctaves", Optional, TUnion [TNumber; TString; TUndefined]);
     ("offset", Optional, TUnion [TNumber; TString; TUndefined]);
     ("opacity", Optional, TUnion [TNumber; TString; TUndefined]);
     ("operator", Optional, TUnion [TNumber; TString; TUndefined]);
     ("order", Optional, TUnion [TNumber; TString; TUndefined]);
     ("orient", Optional, TUnion [TNumber; TString; TUndefined]);
     ("orientation", Optional, TUnion [TNumber; TString; TUndefined]);
     ("origin", Optional, TUnion [TNumber; TString; TUndefined]);
     ("overflow", Optional, TUnion [TNumber; TString; TUndefined]);
     ("overlinePosition", Optional, TUnion [TNumber; TString; TUndefined]);
     ("overlineThickness", Optional, TUnion [TNumber; TString; TUndefined]);
     ("paintOrder", Optional, TUnion [TNumber; TString; TUndefined]);
     ("panose1", Optional, TUnion [TNumber; TString; TUndefined]);
     ("pathLength", Optional, TUnion [TNumber; TString; TUndefined]);
     ("patternContentUnits", Optional, TUnion [TString; TUndefined]);
     ("patternTransform", Optional, TUnion [TNumber; TString; TUndefined]);
     ("patternUnits", Optional, TUnion [TString; TUndefined]);
     ("pointerEvents", Optional, TUnion [TNumber; TString; TUndefined]);
     ("points", Optional, TUnion [TString; TUndefined]);
     ("pointsAtX", Optional, TUnion [TNumber; TString; TUndefined]);
     ("pointsAtY", Optional, TUnion [TNumber; TString; TUndefined]);
     ("pointsAtZ", Optional, TUnion [TNumber; TString; TUndefined]);
     ("preserveAlpha", Optional, TUnion [TNumber; TString; TUndefined]);
     ("preserveAspectRatio", Optional, TUnion [TString; TUndefined]);
     ("primitiveUnits", Optional, TUnion [TNumber; TString; TUndefined]);
     ("r", Optional, TUnion [TNumber; TString; TUndefined]);
     ("radius", Optional, TUnion [TNumber; TString; TUndefined]);
     ("refX", Optional, TUnion [TNumber; TString; TUndefined]);
     ("refY", Optional, TUnion [TNumber; TString; TUndefined]);
     ("renderingIntent", Optional, TUnion [TNumber; TString; TUndefined]);
     ("repeatCount", Optional, TUnion [TNumber; TString; TUndefined]);
     ("repeatDur", Optional, TUnion [TNumber; TString; TUndefined]);
     ("requiredExtensions", Optional, TUnion [TNumber; TString; TUndefined]);
     ("requiredFeatures", Optional, TUnion [TNumber; TString; TUndefined]);
     ("restart", Optional, TUnion [TNumber; TString; TUndefined]);
     ("result", Optional, TUnion [TString; TUndefined]);
     ("rotate", Optional, TUnion [TNumber; TString; TUndefined]);
     ("rx", Optional, TUnion [TNumber; TString; TUndefined]);
     ("ry", Optional, TUnion [TNumber; TString; TUndefined]);
     ("scale", Optional, TUnion [TNumber; TString; TUndefined]);
     ("seed", Optional, TUnion [TNumber; TString; TUndefined]);
     ("shapeRendering", Optional, TUnion [TNumber; TString; TUndefined]);
     ("slope", Optional, TUnion [TNumber; TString; TUndefined]);
     ("spacing", Optional, TUnion [TNumber; TString; TUndefined]);
     ("specularConstant", Optional, TUnion [TNumber; TString; TUndefined]);
     ("specularExponent", Optional, TUnion [TNumber; TString; TUndefined]);
     ("speed", Optional, TUnion [TNumber; TString; TUndefined]);
     ("spreadMethod", Optional, TUnion [TString; TUndefined]);
     ("startOffset", Optional, TUnion [TNumber; TString; TUndefined]);
     ("stdDeviation", Optional, TUnion [TNumber; TString; TUndefined]);
     ("stemh", Optional, TUnion [TNumber; TString; TUndefined]);
     ("stemv", Optional, TUnion [TNumber; TString; TUndefined]);
     ("stitchTiles", Optional, TUnion [TNumber; TString; TUndefined]);
     ("stopColor", Optional, TUnion [TString; TUndefined]);
     ("stopOpacity", Optional, TUnion [TNumber; TString; TUndefined]);
     ("strikethroughPosition", Optional, TUnion [TNumber; TString; TUndefined]);
     ("strikethroughThickness", Optional, TUnion [TNumber; TString; TUndefined]);
     ("string", Optional, TUnion [TNumber; TString; TUndefined]);
     ("stroke", Optional, TUnion [TString; TUndefined]);
     ("strokeDasharray", Optional, TUnion [TString; TNumber; TUndefined]);
     ("strokeDashoffset", Optional, TUnion [TString; TNumber; TUndefined]);
     ("strokeLinecap", Optional, TUnion [TStrLit "butt"; TStrLit "round"; TStrLit "square";
         TStrLit "inherit"; TUndefined]);
     ("strokeLinejoin", Optional, TUnion [TStrLit "miter"; TStrLit "round"; TStrLit "bevel";
         TStrLit "inherit"; TUndefined]);
     ("strokeMiterlimit", Optional, TUnion [TNumber; TString; TUndefined]);
     ("strokeOpacity", Optional, TUnion [TNumber; TString; TUndefined]);
     ("strokeWidth", Optional, TUnion [TNumber; TString; TUndefined]);
     ("surfaceScale", Optional, TUnion [TNumber; TString; TUndefined]);
     ("systemLanguage", Optional, TUnion [TNumber; TString; TUndefined]);
     ("tableValues", Optional, TUnion [TNumber; TString; TUndefined]);
     ("targetX", Optional, TUnion [TNumber; TString; TUndefined]);
     ("targetY", Optional, TUnion [TNumber; TString; TUndefined]);
     ("textAnchor", Optional, TUnion [TString; TUndefined]);
     ("textDecoration", Optional, TUnion [TNumber; TString; TUndefined]);
     ("textLength", Optional, TUnion [TNumber; TString; TUndefined]);
     ("textRendering", Optional, TUnion [TNumber; TString; TUndefined]);
     ("to", Optional, TUnion [TNumber; TString; TUndefined]);
     ("transform", Optional, TUnion [TString; TUndefined]);
     ("u1", Optional, TUnion [TNumber; TString; TUndefined]);
     ("u2", Optional, TUnion [TNumber; TString; TUndefined]);
     ("underlinePosition", Optional, TUnion [TNumber; TString; TUndefined]);
     ("underlineThickness", Optional, TUnion [TNumber; TString; TUndefined]);
     ("unicode", Optional, TUnion [TNumber; TString; TUndefined]);
     ("unicodeBidi", Optional, TUnion [TNumber; TString; TUndefined]);
     ("unicodeRange", Optional, TUnion [TNumber; TString; TUndefined]);
     ("unitsPerEm", Optional, TUnion [TNumber; TString; TUndefined]);
     ("vAlphabetic", Optional, TUnion [TNumber; TString; TUndefined]);
     ("values", Optional, TUnion [TString; TUndefined]);
     ("vectorEffect", Optional, TUnion [TNumber; TString; TUndefined]);
     ("version", Optional, TUnion [TString; TUndefined]);
     ("vertAdvY", Optional, TUnion [TNumber; TString; TUndefined]);
     ("vertOriginX", Optional, TUnion [TNumber; TString; TUndefined]);
     ("vertOriginY", Optional, TUnion [TNumber; TString; TUndefined]);
     ("vHanging", Optional, TUnion [TNumber; TString; TUndefined]);
     ("vIdeographic", Optional, TUnion [TNumber; TString; TUndefined]);
     ("viewBox", Optional, TUnion [TString; TUndefined]);
     ("viewTarget", Optional, TUnion [TNumber; TString; TUndefined]);
     ("visibility", Optional, TUnion [TNumber; TString; TUndefined]);
     ("vMathematical", Optional, TUnion [TNumber; TString; TUndefined]);
     ("widths", Optional, TUnion [TNumber; TString; TUndefined]);
     ("wordSpacing", Optional, TUnion [TNumber; TString; TUndefined]);
     ("writingMode", Optional, TUnion [TNumber; TString; TUndefined]);
     ("x1", Optional, TUnion [TNumber; TString; TUndefined]);
     ("x2", Optional, TUnion [TNumber; TString; TUndefined]);
     ("x", Optional, TUnion [TNumber; TString; TUndefined]);
     ("xChannelSelector", Optional, TUnion [TString; TUndefined]);
     ("xHeight", Optional, TUnion [TNumber; TString; TUndefined]);
     ("xlinkActuate", Optional, TUnion [TString; TUndefined]);
     ("xlinkArcrole", Optional, TUnion [TString; TUndefined]);
     ("xlinkHref", Optional, TUnion [TString; TUndefined]);
     ("xlinkRole", Optional, TUnion [TString; TUndefined]);
     ("xlinkShow", Optional, TUnion [TString; TUndefined]);
     ("xlinkTitle", Optional, TUnion [TString; TUndefined]);
     ("xlinkType", Optional, TUnion [TString; TUndefined]);
     ("xmlBase", Optional, TUnion [TString; TUndefined]);
     ("xmlLang", Optional, TUnion [TString; TUndefined]);
     ("xmlns", Optional, TUnion [TString; TUndefined]);
     ("xmlnsXlink", Optional, TUnion [TString; TUndefined]);
     ("xmlSpace", Optional, TUnion [TString; TUndefined]);
     ("y1", Optional, TUnion [TNumber; TString; TUndefined]);
     ("y2", Optional, TUnion [TNumber; TString; TUndefined]);
     ("y", Optional, TUnion [TNumber; TString; TUndefined]);
     ("yChannelSelector", Optional, TUnion [TString; TUndefined]);
     ("z", Optional, TUnion [TNumber; TString; TUndefined]);
     ("zoomAndPan", Optional, TUnion [TString; TUndefined])]
    [].

(** The interfaces above. *)
Definition interfaces : list iface :=
  [WebViewHTMLAttributes; Props; HTMLProps; SVGProps; SVGLineElementAttributes;
     SVGTextElementAttributes; DOMAttributes; AriaAttributes; HTMLAttributes; AllHTMLAttributes;
     AnchorHTMLAttributes; AudioHTMLAttributes; AreaHTMLAttributes; BaseHTMLAttributes;
     BlockquoteHTMLAttributes; ButtonHTMLAttributes; CanvasHTMLAttributes; ColHTMLAttributes;
     ColgroupHTMLAttributes; DataHTMLAttributes; DetailsHTMLAttributes; DelHTMLAttributes;
     EmbedHTMLAttributes; FieldsetHTMLAttributes; FormHTMLAttributes; HtmlHTMLAttributes;
     IframeHTMLAttributes; ImgHTMLAttributes; InsHTMLAttributes; InputHTMLAttributes;
     KeygenHTMLAttributes; LabelHTMLAttributes; LiHTMLAttributes; LinkHTMLAttributes;
     MapHTMLAttributes; MenuHTMLAttributes; MediaHTMLAttributes; MetaHTMLAttributes;
     MeterHTMLAttributes; QuoteHTMLAttributes; ObjectHTMLAttributes; OlHTMLAttributes;
     OptgroupHTMLAttributes; OptionHTMLAttributes; OutputHTMLAttributes; ParamHTMLAttributes;
     ProgressHTMLAttributes; ScriptHTMLAttributes; SelectHTMLAttributes; SourceHTMLAttributes;
     StyleHTMLAttributes; TableHTMLAttributes; TextareaHTMLAttributes; TdHTMLAttributes;
     ThHTMLAttributes; TimeHTMLAttributes; TrackHTMLAttributes; VideoHTMLAttributes;
     SVGAttributes].

(** The alias above. *)
Definition aliases : list alias :=
  [DetailedHTMLProps].

(** The interfaces of the attributes of particular elements (lines 2849-3233). *)
Definition element_attributes : list iface :=
  [AnchorHTMLAttributes; AudioHTMLAttributes; AreaHTMLAttributes; BaseHTMLAttributes;
     BlockquoteHTMLAttributes; ButtonHTMLAttributes; CanvasHTMLAttributes; ColHTMLAttributes;
     ColgroupHTMLAttributes; DataHTMLAttributes; DetailsHTMLAttributes; DelHTMLAttributes;
     EmbedHTMLAttributes; FieldsetHTMLAttributes; FormHTMLAttributes; HtmlHTMLAttributes;
     IframeHTMLAttributes; ImgHTMLAttributes; InsHTMLAttributes; InputHTMLAttributes;
     KeygenHTMLAttributes; LabelHTMLAttributes; LiHTMLAttributes; LinkHTMLAttributes;
     MapHTMLAttributes; MenuHTMLAttributes; MediaHTMLAttributes; MetaHTMLAttributes;
     MeterHTMLAttributes; QuoteHTMLAttributes; ObjectHTMLAttributes; OlHTMLAttributes;
     OptgroupHTMLAttributes; OptionHTMLAttributes; OutputHTMLAttributes; ParamHTMLAttributes;
     ProgressHTMLAttributes; ScriptHTMLAttributes; SelectHTMLAttributes; SourceHTMLAttributes;
     StyleHTMLAttributes; TableHTMLAttributes; TextareaHTMLAttributes; TdHTMLAttributes;
     ThHTMLAttributes; TimeHTMLAttributes; TrackHTMLAttributes; VideoHTMLAttributes].

End Attributes.

(** ** The tables of tags (index.d.ts, lines 3519-3661 and 3752-3944) *)

Module Tags.
Import TS.

(** Lines 3519-3635. *)
Definition ReactHTML : iface :=
  Iface "ReactHTML" []
    []
    [("a", Required, TRef "DetailedHTMLFactory" [TRef "AnchorHTMLAttributes"
         [TRef "HTMLAnchorElement" []]; TRef "HTMLAnchorElement" []]);
     ("abbr", Required, TRef "DetailedHTMLFactory" [TRef "HTMLAttributes" [TRef "HTMLElement"
         []]; TRef "HTMLElement" []]);
     ("address", Required, TRef "DetailedHTMLFactory" [TRef "HTMLAttributes" [TRef "HTMLElement"
         []]; TRef "HTMLElement" []]);
     ("area", Required, TRef "DetailedHTMLFactory" [TRef "AreaHTMLAttributes"
         [TRef "HTMLAreaElement" []]; TRef "HTMLAreaElement" []]);
     ("article", Required, TRef "DetailedHTMLFactory" [TRef "HTMLAttributes" [TRef "HTMLElement"
         []]; TRef "HTMLElement" []]);
     ("aside", Required, TRef "DetailedHTMLFactory" [TRef "HTMLAttributes" [TRef "HTMLElement"
         []]; TRef "HTMLElement" []]);
     ("audio", Required, TRef "DetailedHTMLFactory" [TRef "AudioHTMLAttributes"
         [TRef "HTMLAudioElement" []]; TRef "HTMLAudioElement" []]);
     ("b", Required, TRef "DetailedHTMLFactory" [TRef "HTMLAttributes" [TRef "HTMLElement" []];
         TRef "HTMLElement" []]);
     ("base", Required, TRef "DetailedHTMLFactory" [TRef "BaseHTMLAttributes"
         [TRef "HTMLBaseElement" []]; TRef "HTMLBaseElement" []]);
     ("bdi", Required, TRef "DetailedHTMLFactory" [TRef "HTMLAttributes" [TRef "HTMLElement"
         []]; TRef "HTMLElement" []]);
     ("bdo", Required, TRef "DetailedHTMLFactory" [TRef "HTMLAttributes" [TRef "HTMLElement"
         []]; TRef "HTMLElement" []]);
     ("big", Required, TRef "DetailedHTMLFactory" [TRef "HTMLAttributes" [TRef "HTMLElement"
         []]; TRef "HTMLElement" []]);
     ("blockquote", Required, TRef "DetailedHTMLFactory" [TRef "BlockquoteHTMLAttributes"
         [TRef "HTMLElement" []]; TRef "HTMLElement" []]);
     ("body", Required, TRef "DetailedHTMLFactory" [TRef "HTMLAttributes"
         [TRef "HTMLBodyElement" []]; TRef "HTMLBodyElement" []]);
     ("br", Required, TRef "DetailedHTMLFactory" [TRef "HTMLAttributes" [TRef "HTMLBRElement"
         []]; TRef "HTMLBRElement" []]);
     ("button", Required, TRef "DetailedHTMLFactory" [TRef "ButtonHTMLAttributes"
         [TRef "HTMLButtonElement" []]; TRef "HTMLButtonElement" []]);
     ("canvas", Required, TRef "DetailedHTMLFactory" [TRef "CanvasHTMLAttributes"
         [TRef "HTMLCanvasElement" []]; TRef "HTMLCanvasElement" []]);
     ("caption", Required, TRef "DetailedHTMLFactory" [TRef "HTMLAttributes" [TRef "HTMLElement"
         []]; TRef "HTMLElement" []]);
     ("cite", Required, TRef "DetailedHTMLFactory" [TRef "HTMLAttributes" [TRef "HTMLElement"
         []]; TRef "HTMLElement" []]);
     ("code", Required, TRef "DetailedHTMLFactory" [TRef "HTMLAttributes" [TRef "HTMLElement"
         []]; TRef "HTMLElement" []]);
     ("col", Required, TRef "DetailedHTMLFactory" [TRef "ColHTMLAttributes"
         [TRef "HTMLTableColElement" []]; TRef "HTMLTableColElement" []]);
     ("colgroup", Required, TRef "DetailedHTMLFactory" [TRef "ColgroupHTMLAttributes"
         [TRef "HTMLTableColElement" []]; TRef "HTMLTableColElement" []]);
     ("data", Required, TRef "DetailedHTMLFactory" [TRef "DataHTMLAttributes"
         [TRef "HTMLDataElement" []]; TRef "HTMLDataElement" []]);
     ("datalist", Required, TRef "DetailedHTMLFactory" [TRef "HTMLAttributes"
         [TRef "HTMLDataListElement" []]; TRef "HTMLDataListElement" []]);
     ("dd", Required, TRef "DetailedHTMLFactory" [TRef "HTMLAttributes" [TRef "HTMLElement" []];
         TRef "HTMLElement" []]);
     ("del", Required, TRef "DetailedHTMLFactory" [TRef "DelHTMLAttributes" [TRef "HTMLElement"
         []]; TRef "HTMLElement" []]);
     ("details", Required, TRef "DetailedHTMLFactory" [TRef "DetailsHTMLAttributes"
         [TRef "HTMLElement" []]; TRef "HTMLElement" []]);
     ("dfn", Required, TRef "DetailedHTMLFactory" [TRef "HTMLAttributes" [TRef "HTMLElement"
         []]; TRef "HTMLElement" []]);
     ("dialog", Required, TRef "DetailedHTMLFactory" [TRef "HTMLAttributes" [TRef "HTMLElement"
         []]; TRef "HTMLElement" []]);
     ("div", Required, TRef "DetailedHTMLFactory" [TRef "HTMLAttributes" [TRef "HTMLDivElement"
         []]; TRef "HTMLDivElement" []]);
     ("dl", Required, TRef "DetailedHTMLFactory" [TRef "HTMLAttributes" [TRef "HTMLDListElement"
         []]; TRef "HTMLDListElement" []]);
     ("dt", Required, TRef "DetailedHTMLFactory" [TRef "HTMLAttributes" [TRef "HTMLElement" []];
         TRef "HTMLElement" []]);
     ("em", Required, TRef "DetailedHTMLFactory" [TRef "HTMLAttributes" [TRef "HTMLElement" []];
         TRef "HTMLElement" []]);
     ("embed", Required, TRef "DetailedHTMLFactory" [TRef "EmbedHTMLAttributes"
         [TRef "HTMLEmbedElement" []]; TRef "HTMLEmbedElement" []]);
     ("fieldset", Required, TRef "DetailedHTMLFactory" [TRef "FieldsetHTMLAttributes"
         [TRef "HTMLFieldSetElement" []]; TRef "HTMLFieldSetElement" []]);
     ("figcaption", Required, TRef "DetailedHTMLFactory" [TRef "HTMLAttributes"
         [TRef "HTMLElement" []]; TRef "HTMLElement" []]);
     ("figure", Required, TRef "DetailedHTMLFactory" [TRef "HTMLAttributes" [TRef "HTMLElement"
         []]; TRef "HTMLElement" []]);
     ("footer", Required, TRef "DetailedHTMLFactory" [TRef "HTMLAttributes" [TRef "HTMLElement"
         []]; TRef "HTMLElement" []]);
     ("form", Required, TRef "DetailedHTMLFactory" [TRef "FormHTMLAttributes"
         [TRef "HTMLFormElement" []]; TRef "HTMLFormElement" []]);
     ("h1", Required, TRef "DetailedHTMLFactory" [TRef "HTMLAttributes"
         [TRef "HTMLHeadingElement" []]; TRef "HTMLHeadingElement" []]);
     ("h2", Required, TRef "DetailedHTMLFactory" [TRef "HTMLAttributes"
         [TRef "HTMLHeadingElement" []]; TRef "HTMLHeadingElement" []]);
     ("h3", Required, TRef "DetailedHTMLFactory" [TRef "HTMLAttributes"
         [TRef "HTMLHeadingElement" []]; TRef "HTMLHeadingElement" []]);
     ("h4", Required, TRef "DetailedHTMLFactory" [TRef "HTMLAttributes"
         [TRef "HTMLHeadingElement" []]; TRef "HTMLHeadingElement" []]);
     ("h5", Required, TRef "DetailedHTMLFactory" [TRef "HTMLAttributes"
         [TRef "HTMLHeadingElement" []]; TRef "HTMLHeadingElement" []]);
     ("h6", Required, TRef "DetailedHTMLFactory" [TRef "HTMLAttributes"
         [TRef "HTMLHeadingElement" []]; TRef "HTMLHeadingElement" []]);
     ("head", Required, TRef "DetailedHTMLFactory" [TRef "HTMLAttributes" [TRef "HTMLElement"
         []]; TRef "HTMLHeadElement" []]);
     ("header", Required, TRef "DetailedHTMLFactory" [TRef "HTMLAttributes" [TRef "HTMLElement"
         []]; TRef "HTMLElement" []]);
     ("hgroup", Required, TRef "DetailedHTMLFactory" [TRef "HTMLAttributes" [TRef "HTMLElement"
         []]; TRef "HTMLElement" []]);
     ("hr", Required, TRef "DetailedHTMLFactory" [TRef "HTMLAttributes" [TRef "HTMLHRElement"
         []]; TRef "HTMLHRElement" []]);
     ("html", Required, TRef "DetailedHTMLFactory" [TRef "HtmlHTMLAttributes"
         [TRef "HTMLHtmlElement" []]; TRef "HTMLHtmlElement" []]);
     ("i", Required, TRef "DetailedHTMLFactory" [TRef "HTMLAttributes" [TRef "HTMLElement" []];
         TRef "HTMLElement" []]);
     ("iframe", Required, TRef "DetailedHTMLFactory" [TRef "IframeHTMLAttributes"
         [TRef "HTMLIFrameElement" []]; TRef "HTMLIFrameElement" []]);
     ("img", Required, TRef "DetailedHTMLFactory" [TRef "ImgHTMLAttributes"
         [TRef "HTMLImageElement" []]; TRef "HTMLImageElement" []]);
     ("input", Required, TRef "DetailedHTMLFactory" [TRef "InputHTMLAttributes"
         [TRef "HTMLInputElement" []]; TRef "HTMLInputElement" []]);
     ("ins", Required, TRef "DetailedHTMLFactory" [TRef "InsHTMLAttributes"
         [TRef "HTMLModElement" []]; TRef "HTMLModElement" []]);
     ("kbd", Required, TRef "DetailedHTMLFactory" [TRef "HTMLAttributes" [TRef "HTMLElement"
         []]; TRef "HTMLElement" []]);
     ("keygen", Required, TRef "DetailedHTMLFactory" [TRef "KeygenHTMLAttributes"
         [TRef "HTMLElement" []]; TRef "HTMLElement" []]);
     ("label", Required, TRef "DetailedHTMLFactory" [TRef "LabelHTMLAttributes"
         [TRef "HTMLLabelElement" []]; TRef "HTMLLabelElement" []]);
     ("legend", Required, TRef "DetailedHTMLFactory" [TRef "HTMLAttributes"
         [TRef "HTMLLegendElement" []]; TRef "HTMLLegendElement" []]);
     ("li", Required, TRef "DetailedHTMLFactory" [TRef "LiHTMLAttributes" [TRef "HTMLLIElement"
         []]; TRef "HTMLLIElement" []]);
     ("link", Required, TRef "DetailedHTMLFactory" [TRef "LinkHTMLAttributes"
         [TRef "HTMLLinkElement" []]; TRef "HTMLLinkElement" []]);
     ("main", Required, TRef "DetailedHTMLFactory" [TRef "HTMLAttributes" [TRef "HTMLElement"
         []]; TRef "HTMLElement" []]);
     ("map", Required, TRef "DetailedHTMLFactory" [TRef "MapHTMLAttributes"
         [TRef "HTMLMapElement" []]; TRef "HTMLMapElement" []]);
     ("mark", Required, TRef "DetailedHTMLFactory" [TRef "HTMLAttributes" [TRef "HTMLElement"
         []]; TRef "HTMLElement" []]);
     ("menu", Required, TRef "DetailedHTMLFactory" [TRef "MenuHTMLAttributes"
         [TRef "HTMLElement" []]; TRef "HTMLElement" []]);
     ("menuitem", Required, TRef "DetailedHTMLFactory" [TRef "HTMLAttributes"
         [TRef "HTMLElement" []]; TRef "HTMLElement" []]);
     ("meta", Required, TRef "DetailedHTMLFactory" [TRef "MetaHTMLAttributes"
         [TRef "HTMLMetaElement" []]; TRef "HTMLMetaElement" []]);
     ("meter", Required, TRef "DetailedHTMLFactory" [TRef "MeterHTMLAttributes"
         [TRef "HTMLElement" []]; TRef "HTMLElement" []]);
     ("nav", Required, TRef "DetailedHTMLFactory" [TRef "HTMLAttributes" [TRef "HTMLElement"
         []]; TRef "HTMLElement" []]);
     ("noscript", Required, TRef "DetailedHTMLFactory" [TRef "HTMLAttributes"
         [TRef "HTMLElement" []]; TRef "HTMLElement" []]);
     ("object", Required, TRef "DetailedHTMLFactory" [TRef "ObjectHTMLAttributes"
         [TRef "HTMLObjectElement" []]; TRef "HTMLObjectElement" []]);
     ("ol", Required, TRef "DetailedHTMLFactory" [TRef "OlHTMLAttributes"
         [TRef "HTMLOListElement" []]; TRef "HTMLOListElement" []]);
     ("optgroup", Required, TRef "DetailedHTMLFactory" [TRef "OptgroupHTMLAttributes"
         [TRef "HTMLOptGroupElement" []]; TRef "HTMLOptGroupElement" []]);
     ("option", Required, TRef "DetailedHTMLFactory" [TRef "OptionHTMLAttributes"
         [TRef "HTMLOptionElement" []]; TRef "HTMLOptionElement" []]);
     ("output", Required, TRef "DetailedHTMLFactory" [TRef "OutputHTMLAttributes"
         [TRef "HTMLElement" []]; TRef "HTMLElement" []]);
     ("p", Required, TRef "DetailedHTMLFactory" [TRef "HTMLAttributes"
         [TRef "HTMLParagraphElement" []]; TRef "HTMLParagraphElement" []]);
     ("param", Required, TRef "DetailedHTMLFactory" [TRef "ParamHTMLAttributes"
         [TRef "HTMLParamElement" []]; TRef "HTMLParamElement" []]);
     ("picture", Required, TRef "DetailedHTMLFactory" [TRef "HTMLAttributes" [TRef "HTMLElement"
         []]; TRef "HTMLElement" []]);
     ("pre", Required, TRef "DetailedHTMLFactory" [TRef "HTMLAttributes" [TRef "HTMLPreElement"
         []]; TRef "HTMLPreElement" []]);
     ("progress", Required, TRef "DetailedHTMLFactory" [TRef "ProgressHTMLAttributes"
         [TRef "HTMLProgressElement" []]; TRef "HTMLProgressElement" []]);
     ("q", Required, TRef "DetailedHTMLFactory" [TRef "QuoteHTMLAttributes"
         [TRef "HTMLQuoteElement" []]; TRef "HTMLQuoteElement" []]);
     ("rp", Required, TRef "DetailedHTMLFactory" [TRef "HTMLAttributes" [TRef "HTMLElement" []];
         TRef "HTMLElement" []]);
     ("rt", Required, TRef "DetailedHTMLFactory" [TRef "HTMLAttributes" [TRef "HTMLElement" []];
         TRef "HTMLElement" []]);
     ("ruby", Required, TRef "DetailedHTMLFactory" [TRef "HTMLAttributes" [TRef "HTMLElement"
         []]; TRef "HTMLElement" []]);
     ("s", Required, TRef "DetailedHTMLFactory" [TRef "HTMLAttributes" [TRef "HTMLElement" []];
         TRef "HTMLElement" []]);
     ("samp", Required, TRef "DetailedHTMLFactory" [TRef "HTMLAttributes" [TRef "HTMLElement"
         []]; TRef "HTMLElement" []]);
     ("script", Required, TRef "DetailedHTMLFactory" [TRef "ScriptHTMLAttributes"
         [TRef "HTMLScriptElement" []]; TRef "HTMLScriptElement" []]);
     ("section", Required, TRef "DetailedHTMLFactory" [TRef "HTMLAttributes" [TRef "HTMLElement"
         []]; TRef "HTMLElement" []]);
     ("select", Required, TRef "DetailedHTMLFactory" [TRef "SelectHTMLAttributes"
         [TRef "HTMLSelectElement" []]; TRef "HTMLSelectElement" []]);
     ("small", Required, TRef "DetailedHTMLFactory" [TRef "HTMLAttributes" [TRef "HTMLElement"
         []]; TRef "HTMLElement" []]);
     ("source", Required, TRef "DetailedHTMLFactory" [TRef "SourceHTMLAttributes"
         [TRef "HTMLSourceElement" []]; TRef "HTMLSourceElement" []]);
     ("span", Required, TRef "DetailedHTMLFactory" [TRef "HTMLAttributes"
         [TRef "HTMLSpanElement" []]; TRef "HTMLSpanElement" []]);
     ("strong", Required, TRef "DetailedHTMLFactory" [TRef "HTMLAttributes" [TRef "HTMLElement"
         []]; TRef "HTMLElement" []]);
     ("style", Required, TRef "DetailedHTMLFactory" [TRef "StyleHTMLAttributes"
         [TRef "HTMLStyleElement" []]; TRef "HTMLStyleElement" []]);
     ("sub", Required, TRef "DetailedHTMLFactory" [TRef "HTMLAttributes" [TRef "HTMLElement"
         []]; TRef "HTMLElement" []]);
     ("summary", Required, TRef "DetailedHTMLFactory" [TRef "HTMLAttributes" [TRef "HTMLElement"
         []]; TRef "HTMLElement" []]);
     ("sup", Required, TRef "DetailedHTMLFactory" [TRef "HTMLAttributes" [TRef "HTMLElement"
         []]; TRef "HTMLElement" []]);
     ("table", Required, TRef "DetailedHTMLFactory" [TRef "TableHTMLAttributes"
         [TRef "HTMLTableElement" []]; TRef "HTMLTableElement" []]);
     ("template", Required, TRef "DetailedHTMLFactory" [TRef "HTMLAttributes"
         [TRef "HTMLTemplateElement" []]; TRef "HTMLTemplateElement" []]);
     ("tbody", Required, TRef "DetailedHTMLFactory" [TRef "HTMLAttributes"
         [TRef "HTMLTableSectionElement" []]; TRef "HTMLTableSectionElement" []]);
     ("td", Required, TRef "DetailedHTMLFactory" [TRef "TdHTMLAttributes"
         [TRef "HTMLTableDataCellElement" []]; TRef "HTMLTableDataCellElement" []]);
     ("textarea", Required, TRef "DetailedHTMLFactory" [TRef "TextareaHTMLAttributes"
         [TRef "HTMLTextAreaElement" []]; TRef "HTMLTextAreaElement" []]);
     ("tfoot", Required, TRef "DetailedHTMLFactory" [TRef "HTMLAttributes"
         [TRef "HTMLTableSectionElement" []]; TRef "HTMLTableSectionElement" []]);
     ("th", Required, TRef "DetailedHTMLFactory" [TRef "ThHTMLAttributes"
         [TRef "HTMLTableHeaderCellElement" []]; TRef "HTMLTableHeaderCellElement" []]);
     ("thead", Required, TRef "DetailedHTMLFactory" [TRef "HTMLAttributes"
         [TRef "HTMLTableSectionElement" []]; TRef "HTMLTableSectionElement" []]);
     ("time", Required, TRef "DetailedHTMLFactory" [TRef "TimeHTMLAttributes"
         [TRef "HTMLElement" []]; TRef "HTMLElement" []]);
     ("title", Required, TRef "DetailedHTMLFactory" [TRef "HTMLAttributes"
         [TRef "HTMLTitleElement" []]; TRef "HTMLTitleElement" []]);
     ("tr", Required, TRef "DetailedHTMLFactory" [TRef "HTMLAttributes"
         [TRef "HTMLTableRowElement" []]; TRef "HTMLTableRowElement" []]);
     ("track", Required, TRef "DetailedHTMLFactory" [TRef "TrackHTMLAttributes"
         [TRef "HTMLTrackElement" []]; TRef "HTMLTrackElement" []]);
     ("u", Required, TRef "DetailedHTMLFactory" [TRef "HTMLAttributes" [TRef "HTMLElement" []];
         TRef "HTMLElement" []]);
     ("ul", Required, TRef "DetailedHTMLFactory" [TRef "HTMLAttributes" [TRef "HTMLUListElement"
         []]; TRef "HTMLUListElement" []]);
     ("var", Required, TRef "DetailedHTMLFactory" [TRef "HTMLAttributes" [TRef "HTMLElement"
         []]; TRef "HTMLElement" []]);
     ("video", Required, TRef "DetailedHTMLFactory" [TRef "VideoHTMLAttributes"
         [TRef "HTMLVideoElement" []]; TRef "HTMLVideoElement" []]);
     ("wbr", Required, TRef "DetailedHTMLFactory" [TRef "HTMLAttributes" [TRef "HTMLElement"
         []]; TRef "HTMLElement" []]);
     ("webview", Required, TRef "DetailedHTMLFactory" [TRef "WebViewHTMLAttributes"
         [TRef "HTMLElement" []]; TRef "HTMLElement" []])]
    [].

(** Lines 3637-3659. *)
Definition ReactSVG : iface :=
  Iface "ReactSVG" []
    []
    [("svg", Required, TRef "SVGFactory" []);
     ("animate", Required, TRef "SVGFactory" []);
     ("circle", Required, TRef "SVGFactory" []);
     ("defs", Required, TRef "SVGFactory" []);
     ("ellipse", Required, TRef "SVGFactory" []);
     ("g", Required, TRef "SVGFactory" []);
     ("image", Required, TRef "SVGFactory" []);
     ("line", Required, TRef "SVGFactory" []);
     ("linearGradient", Required, TRef "SVGFactory" []);
     ("mask", Required, TRef "SVGFactory" []);
     ("path", Required, TRef "SVGFactory" []);
     ("pattern", Required, TRef "SVGFactory" []);
     ("polygon", Required, TRef "SVGFactory" []);
     ("polyline", Required, TRef "SVGFactory" []);
     ("radialGradient", Required, TRef "SVGFactory" []);
     ("rect", Required, TRef "SVGFactory" []);
     ("stop", Required, TRef "SVGFactory" []);
     ("symbol", Required, TRef "SVGFactory" []);
     ("text", Required, TRef "SVGFactory" []);
     ("tspan", Required, TRef "SVGFactory" []);
     ("use", Required, TRef "SVGFactory" [])]
    [].

(** Line 3661. *)
Definition ReactDOM : iface :=
  Iface "ReactDOM" []
    [TRef "ReactHTML" []; TRef "ReactSVG" []]
    []
    [].

(** The namespace [JSX] of the global scope (lines 3752-3944).  Its
    interfaces are named with the qualifier [JSX.]; the names it takes from
    the namespace [React] are written without the qualifier [React.], as
    everywhere else.  The namespace [React.JSX] (lines 3736-3744), whose
    interfaces only extend these, is not transcribed. *)

(** Line 3753. *)
Definition JSX_Element : iface :=
  Iface "JSX.Element" []
    [TRef "ReactElement" []]
    []
    [].

(** Lines 3754-3756. *)
Definition JSX_ElementClass : iface :=
  Iface "JSX.ElementClass" []
    [TRef "Component" [TAny]]
    [("render", Required, TFun [] (TUnion [TRef "JSX.Element" []; TNull; TBoolLit false]))]
    [].

(** Lines 3757-3759. *)
Definition JSX_ElementAttributesProperty : iface :=
  Iface "JSX.ElementAttributesProperty" []
    []
    [("props", Required, TObj [])]
    [].

(** Lines 3760-3762. *)
Definition JSX_ElementChildrenAttribute : iface :=
  Iface "JSX.ElementChildrenAttribute" []
    []
    [("children", Required, TObj [])]
    [].

(** Line 3764. *)
Definition JSX_IntrinsicAttributes : iface :=
  Iface "JSX.IntrinsicAttributes" []
    [TRef "Attributes" []]
    []
    [].

(** Line 3765. *)
Definition JSX_IntrinsicClassAttributes : iface :=
  Iface "JSX.IntrinsicClassAttributes" [TParam "T" None None]
    [TRef "ClassAttributes" [TRef "T" []]]
    []
    [].

(** Lines 3767-3943. *)
Definition JSX_IntrinsicElements : iface :=
  Iface "JSX.IntrinsicElements" []
    []
    [("a", Required, TRef "DetailedHTMLProps" [TRef "AnchorHTMLAttributes"
         [TRef "HTMLAnchorElement" []]; TRef "HTMLAnchorElement" []]);
     ("abbr", Required, TRef "DetailedHTMLProps" [TRef "HTMLAttributes" [TRef "HTMLElement" []];
         TRef "HTMLElement" []]);
     ("address", Required, TRef "DetailedHTMLProps" [TRef "HTMLAttributes" [TRef "HTMLElement"
         []]; TRef "HTMLElement" []]);
     ("area", Required, TRef "DetailedHTMLProps" [TRef "AreaHTMLAttributes"
         [TRef "HTMLAreaElement" []]; TRef "HTMLAreaElement" []]);
     ("article", Required, TRef "DetailedHTMLProps" [TRef "HTMLAttributes" [TRef "HTMLElement"
         []]; TRef "HTMLElement" []]);
     ("aside", Required, TRef "DetailedHTMLProps" [TRef "HTMLAttributes" [TRef "HTMLElement"
         []]; TRef "HTMLElement" []]);
     ("audio", Required, TRef "DetailedHTMLProps" [TRef "AudioHTMLAttributes"
         [TRef "HTMLAudioElement" []]; TRef "HTMLAudioElement" []]);
     ("b", Required, TRef "DetailedHTMLProps" [TRef "HTMLAttributes" [TRef "HTMLElement" []];
         TRef "HTMLElement" []]);
     ("base", Required, TRef "DetailedHTMLProps" [TRef "BaseHTMLAttributes"
         [TRef "HTMLBaseElement" []]; TRef "HTMLBaseElement" []]);
     ("bdi", Required, TRef "DetailedHTMLProps" [TRef "HTMLAttributes" [TRef "HTMLElement" []];
         TRef "HTMLElement" []]);
     ("bdo", Required, TRef "DetailedHTMLProps" [TRef "HTMLAttributes" [TRef "HTMLElement" []];
         TRef "HTMLElement" []]);
     ("big", Required, TRef "DetailedHTMLProps" [TRef "HTMLAttributes" [TRef "HTMLElement" []];
         TRef "HTMLElement" []]);
     ("blockquote", Required, TRef "DetailedHTMLProps" [TRef "BlockquoteHTMLAttributes"
         [TRef "HTMLElement" []]; TRef "HTMLElement" []]);
     ("body", Required, TRef "DetailedHTMLProps" [TRef "HTMLAttributes" [TRef "HTMLBodyElement"
         []]; TRef "HTMLBodyElement" []]);
     ("br", Required, TRef "DetailedHTMLProps" [TRef "HTMLAttributes" [TRef "HTMLBRElement" []];
         TRef "HTMLBRElement" []]);
     ("button", Required, TRef "DetailedHTMLProps" [TRef "ButtonHTMLAttributes"
         [TRef "HTMLButtonElement" []]; TRef "HTMLButtonElement" []]);
     ("canvas", Required, TRef "DetailedHTMLProps" [TRef "CanvasHTMLAttributes"
         [TRef "HTMLCanvasElement" []]; TRef "HTMLCanvasElement" []]);
     ("caption", Required, TRef "DetailedHTMLProps" [TRef "HTMLAttributes" [TRef "HTMLElement"
         []]; TRef "HTMLElement" []]);
     ("cite", Required, TRef "DetailedHTMLProps" [TRef "HTMLAttributes" [TRef "HTMLElement" []];
         TRef "HTMLElement" []]);
     ("code", Required, TRef "DetailedHTMLProps" [TRef "HTMLAttributes" [TRef "HTMLElement" []];
         TRef "HTMLElement" []]);
     ("col", Required, TRef "DetailedHTMLProps" [TRef "ColHTMLAttributes"
         [TRef "HTMLTableColElement" []]; TRef "HTMLTableColElement" []]);
     ("colgroup", Required, TRef "DetailedHTMLProps" [TRef "ColgroupHTMLAttributes"
         [TRef "HTMLTableColElement" []]; TRef "HTMLTableColElement" []]);
     ("data", Required, TRef "DetailedHTMLProps" [TRef "DataHTMLAttributes"
         [TRef "HTMLDataElement" []]; TRef "HTMLDataElement" []]);
     ("datalist", Required, TRef "DetailedHTMLProps" [TRef "HTMLAttributes"
         [TRef "HTMLDataListElement" []]; TRef "HTMLDataListElement" []]);
     ("dd", Required, TRef "DetailedHTMLProps" [TRef "HTMLAttributes" [TRef "HTMLElement" []];
         TRef "HTMLElement" []]);
     ("del", Required, TRef "DetailedHTMLProps" [TRef "DelHTMLAttributes" [TRef "HTMLElement"
         []]; TRef "HTMLElement" []]);
     ("details", Required, TRef "DetailedHTMLProps" [TRef "DetailsHTMLAttributes"
         [TRef "HTMLElement" []]; TRef "HTMLElement" []]);
     ("dfn", Required, TRef "DetailedHTMLProps" [TRef "HTMLAttributes" [TRef "HTMLElement" []];
         TRef "HTMLElement" []]);
     ("dialog", Required, TRef "DetailedHTMLProps" [TRef "HTMLAttributes" [TRef "HTMLElement"
         []]; TRef "HTMLElement" []]);
     ("div", Required, TRef "DetailedHTMLProps" [TRef "HTMLAttributes" [TRef "HTMLDivElement"
         []]; TRef "HTMLDivElement" []]);
     ("dl", Required, TRef "DetailedHTMLProps" [TRef "HTMLAttributes" [TRef "HTMLDListElement"
         []]; TRef "HTMLDListElement" []]);
     ("dt", Required, TRef "DetailedHTMLProps" [TRef "HTMLAttributes" [TRef "HTMLElement" []];
         TRef "HTMLElement" []]);
     ("em", Required, TRef "DetailedHTMLProps" [TRef "HTMLAttributes" [TRef "HTMLElement" []];
         TRef "HTMLElement" []]);
     ("embed", Required, TRef "DetailedHTMLProps" [TRef "EmbedHTMLAttributes"
         [TRef "HTMLEmbedElement" []]; TRef "HTMLEmbedElement" []]);
     ("fieldset", Required, TRef "DetailedHTMLProps" [TRef "FieldsetHTMLAttributes"
         [TRef "HTMLFieldSetElement" []]; TRef "HTMLFieldSetElement" []]);
     ("figcaption", Required, TRef "DetailedHTMLProps" [TRef "HTMLAttributes"
         [TRef "HTMLElement" []]; TRef "HTMLElement" []]);
     ("figure", Required, TRef "DetailedHTMLProps" [TRef "HTMLAttributes" [TRef "HTMLElement"
         []]; TRef "HTMLElement" []]);
     ("footer", Required, TRef "DetailedHTMLProps" [TRef "HTMLAttributes" [TRef "HTMLElement"
         []]; TRef "HTMLElement" []]);
     ("form", Required, TRef "DetailedHTMLProps" [TRef "FormHTMLAttributes"
         [TRef "HTMLFormElement" []]; TRef "HTMLFormElement" []]);
     ("h1", Required, TRef "DetailedHTMLProps" [TRef "HTMLAttributes" [TRef "HTMLHeadingElement"
         []]; TRef "HTMLHeadingElement" []]);
     ("h2", Required, TRef "DetailedHTMLProps" [TRef "HTMLAttributes" [TRef "HTMLHeadingElement"
         []]; TRef "HTMLHeadingElement" []]);
     ("h3", Required, TRef "DetailedHTMLProps" [TRef "HTMLAttributes" [TRef "HTMLHeadingElement"
         []]; TRef "HTMLHeadingElement" []]);
     ("h4", Required, TRef "DetailedHTMLProps" [TRef "HTMLAttributes" [TRef "HTMLHeadingElement"
         []]; TRef "HTMLHeadingElement" []]);
     ("h5", Required, TRef "DetailedHTMLProps" [TRef "HTMLAttributes" [TRef "HTMLHeadingElement"
         []]; TRef "HTMLHeadingElement" []]);
     ("h6", Required, TRef "DetailedHTMLProps" [TRef "HTMLAttributes" [TRef "HTMLHeadingElement"
         []]; TRef "HTMLHeadingElement" []]);
     ("head", Required, TRef "DetailedHTMLProps" [TRef "HTMLAttributes" [TRef "HTMLHeadElement"
         []]; TRef "HTMLHeadElement" []]);
     ("header", Required, TRef "DetailedHTMLProps" [TRef "HTMLAttributes" [TRef "HTMLElement"
         []]; TRef "HTMLElement" []]);
     ("hgroup", Required, TRef "DetailedHTMLProps" [TRef "HTMLAttributes" [TRef "HTMLElement"
         []]; TRef "HTMLElement" []]);
     ("hr", Required, TRef "DetailedHTMLProps" [TRef "HTMLAttributes" [TRef "HTMLHRElement" []];
         TRef "HTMLHRElement" []]);
     ("html", Required, TRef "DetailedHTMLProps" [TRef "HtmlHTMLAttributes"
         [TRef "HTMLHtmlElement" []]; TRef "HTMLHtmlElement" []]);
     ("i", Required, TRef "DetailedHTMLProps" [TRef "HTMLAttributes" [TRef "HTMLElement" []];
         TRef "HTMLElement" []]);
     ("iframe", Required, TRef "DetailedHTMLProps" [TRef "IframeHTMLAttributes"
         [TRef "HTMLIFrameElement" []]; TRef "HTMLIFrameElement" []]);
     ("img", Required, TRef "DetailedHTMLProps" [TRef "ImgHTMLAttributes"
         [TRef "HTMLImageElement" []]; TRef "HTMLImageElement" []]);
     ("input", Required, TRef "DetailedHTMLProps" [TRef "InputHTMLAttributes"
         [TRef "HTMLInputElement" []]; TRef "HTMLInputElement" []]);
     ("ins", Required, TRef "DetailedHTMLProps" [TRef "InsHTMLAttributes" [TRef "HTMLModElement"
         []]; TRef "HTMLModElement" []]);
     ("kbd", Required, TRef "DetailedHTMLProps" [TRef "HTMLAttributes" [TRef "HTMLElement" []];
         TRef "HTMLElement" []]);
     ("keygen", Required, TRef "DetailedHTMLProps" [TRef "KeygenHTMLAttributes"
         [TRef "HTMLElement" []]; TRef "HTMLElement" []]);
     ("label", Required, TRef "DetailedHTMLProps" [TRef "LabelHTMLAttributes"
         [TRef "HTMLLabelElement" []]; TRef "HTMLLabelElement" []]);
     ("legend", Required, TRef "DetailedHTMLProps" [TRef "HTMLAttributes"
         [TRef "HTMLLegendElement" []]; TRef "HTMLLegendElement" []]);
     ("li", Required, TRef "DetailedHTMLProps" [TRef "LiHTMLAttributes" [TRef "HTMLLIElement"
         []]; TRef "HTMLLIElement" []]);
     ("link", Required, TRef "DetailedHTMLProps" [TRef "LinkHTMLAttributes"
         [TRef "HTMLLinkElement" []]; TRef "HTMLLinkElement" []]);
     ("main", Required, TRef "DetailedHTMLProps" [TRef "HTMLAttributes" [TRef "HTMLElement" []];
         TRef "HTMLElement" []]);
     ("map", Required, TRef "DetailedHTMLProps" [TRef "MapHTMLAttributes" [TRef "HTMLMapElement"
         []]; TRef "HTMLMapElement" []]);
     ("mark", Required, TRef "DetailedHTMLProps" [TRef "HTMLAttributes" [TRef "HTMLElement" []];
         TRef "HTMLElement" []]);
     ("menu", Required, TRef "DetailedHTMLProps" [TRef "MenuHTMLAttributes" [TRef "HTMLElement"
         []]; TRef "HTMLElement" []]);
     ("menuitem", Required, TRef "DetailedHTMLProps" [TRef "HTMLAttributes" [TRef "HTMLElement"
         []]; TRef "HTMLElement" []]);
     ("meta", Required, TRef "DetailedHTMLProps" [TRef "MetaHTMLAttributes"
         [TRef "HTMLMetaElement" []]; TRef "HTMLMetaElement" []]);
     ("meter", Required, TRef "DetailedHTMLProps" [TRef "MeterHTMLAttributes"
         [TRef "HTMLElement" []]; TRef "HTMLElement" []]);
     ("nav", Required, TRef "DetailedHTMLProps" [TRef "HTMLAttributes" [TRef "HTMLElement" []];
         TRef "HTMLElement" []]);
     ("noindex", Required, TRef "DetailedHTMLProps" [TRef "HTMLAttributes" [TRef "HTMLElement"
         []]; TRef "HTMLElement" []]);
     ("noscript", Required, TRef "DetailedHTMLProps" [TRef "HTMLAttributes" [TRef "HTMLElement"
         []]; TRef "HTMLElement" []]);
     ("object", Required, TRef "DetailedHTMLProps" [TRef "ObjectHTMLAttributes"
         [TRef "HTMLObjectElement" []]; TRef "HTMLObjectElement" []]);
     ("ol", Required, TRef "DetailedHTMLProps" [TRef "OlHTMLAttributes" [TRef "HTMLOListElement"
         []]; TRef "HTMLOListElement" []]);
     ("optgroup", Required, TRef "DetailedHTMLProps" [TRef "OptgroupHTMLAttributes"
         [TRef "HTMLOptGroupElement" []]; TRef "HTMLOptGroupElement" []]);
     ("option", Required, TRef "DetailedHTMLProps" [TRef "OptionHTMLAttributes"
         [TRef "HTMLOptionElement" []]; TRef "HTMLOptionElement" []]);
     ("output", Required, TRef "DetailedHTMLProps" [TRef "OutputHTMLAttributes"
         [TRef "HTMLElement" []]; TRef "HTMLElement" []]);
     ("p", Required, TRef "DetailedHTMLProps" [TRef "HTMLAttributes"
         [TRef "HTMLParagraphElement" []]; TRef "HTMLParagraphElement" []]);
     ("param", Required, TRef "DetailedHTMLProps" [TRef "ParamHTMLAttributes"
         [TRef "HTMLParamElement" []]; TRef "HTMLParamElement" []]);
     ("picture", Required, TRef "DetailedHTMLProps" [TRef "HTMLAttributes" [TRef "HTMLElement"
         []]; TRef "HTMLElement" []]);
     ("pre", Required, TRef "DetailedHTMLProps" [TRef "HTMLAttributes" [TRef "HTMLPreElement"
         []]; TRef "HTMLPreElement" []]);
     ("progress", Required, TRef "DetailedHTMLProps" [TRef "ProgressHTMLAttributes"
         [TRef "HTMLProgressElement" []]; TRef "HTMLProgressElement" []]);
     ("q", Required, TRef "DetailedHTMLProps" [TRef "QuoteHTMLAttributes"
         [TRef "HTMLQuoteElement" []]; TRef "HTMLQuoteElement" []]);
     ("rp", Required, TRef "DetailedHTMLProps" [TRef "HTMLAttributes" [TRef "HTMLElement" []];
         TRef "HTMLElement" []]);
     ("rt", Required, TRef "DetailedHTMLProps" [TRef "HTMLAttributes" [TRef "HTMLElement" []];
         TRef "HTMLElement" []]);
     ("ruby", Required, TRef "DetailedHTMLProps" [TRef "HTMLAttributes" [TRef "HTMLElement" []];
         TRef "HTMLElement" []]);
     ("s", Required, TRef "DetailedHTMLProps" [TRef "HTMLAttributes" [TRef "HTMLElement" []];
         TRef "HTMLElement" []]);
     ("samp", Required, TRef "DetailedHTMLProps" [TRef "HTMLAttributes" [TRef "HTMLElement" []];
         TRef "HTMLElement" []]);
     ("script", Required, TRef "DetailedHTMLProps" [TRef "ScriptHTMLAttributes"
         [TRef "HTMLScriptElement" []]; TRef "HTMLScriptElement" []]);
     ("section", Required, TRef "DetailedHTMLProps" [TRef "HTMLAttributes" [TRef "HTMLElement"
         []]; TRef "HTMLElement" []]);
     ("select", Required, TRef "DetailedHTMLProps" [TRef "SelectHTMLAttributes"
         [TRef "HTMLSelectElement" []]; TRef "HTMLSelectElement" []]);
     ("small", Required, TRef "DetailedHTMLProps" [TRef "HTMLAttributes" [TRef "HTMLElement"
         []]; TRef "HTMLElement" []]);
     ("source", Required, TRef "DetailedHTMLProps" [TRef "SourceHTMLAttributes"
         [TRef "HTMLSourceElement" []]; TRef "HTMLSourceElement" []]);
     ("span", Required, TRef "DetailedHTMLProps" [TRef "HTMLAttributes" [TRef "HTMLSpanElement"
         []]; TRef "HTMLSpanElement" []]);
     ("strong", Required, TRef "DetailedHTMLProps" [TRef "HTMLAttributes" [TRef "HTMLElement"
         []]; TRef "HTMLElement" []]);
     ("style", Required, TRef "DetailedHTMLProps" [TRef "StyleHTMLAttributes"
         [TRef "HTMLStyleElement" []]; TRef "HTMLStyleElement" []]);
     ("sub", Required, TRef "DetailedHTMLProps" [TRef "HTMLAttributes" [TRef "HTMLElement" []];
         TRef "HTMLElement" []]);
     ("summary", Required, TRef "DetailedHTMLProps" [TRef "HTMLAttributes" [TRef "HTMLElement"
         []]; TRef "HTMLElement" []]);
     ("sup", Required, TRef "DetailedHTMLProps" [TRef "HTMLAttributes" [TRef "HTMLElement" []];
         TRef "HTMLElement" []]);
     ("table", Required, TRef "DetailedHTMLProps" [TRef "TableHTMLAttributes"
         [TRef "HTMLTableElement" []]; TRef "HTMLTableElement" []]);
     ("template", Required, TRef "DetailedHTMLFactory" [TRef "HTMLAttributes"
         [TRef "HTMLTemplateElement" []]; TRef "HTMLTemplateElement" []]);
     ("tbody", Required, TRef "DetailedHTMLProps" [TRef "HTMLAttributes"
         [TRef "HTMLTableSectionElement" []]; TRef "HTMLTableSectionElement" []]);
     ("td", Required, TRef "DetailedHTMLProps" [TRef "TdHTMLAttributes"
         [TRef "HTMLTableDataCellElement" []]; TRef "HTMLTableDataCellElement" []]);
     ("textarea", Required, TRef "DetailedHTMLProps" [TRef "TextareaHTMLAttributes"
         [TRef "HTMLTextAreaElement" []]; TRef "HTMLTextAreaElement" []]);
     ("tfoot", Required, TRef "DetailedHTMLProps" [TRef "HTMLAttributes"
         [TRef "HTMLTableSectionElement" []]; TRef "HTMLTableSectionElement" []]);
     ("th", Required, TRef "DetailedHTMLProps" [TRef "ThHTMLAttributes"
         [TRef "HTMLTableHeaderCellElement" []]; TRef "HTMLTableHeaderCellElement" []]);
     ("thead", Required, TRef "DetailedHTMLProps" [TRef "HTMLAttributes"
         [TRef "HTMLTableSectionElement" []]; TRef "HTMLTableSectionElement" []]);
     ("time", Required, TRef "DetailedHTMLProps" [TRef "TimeHTMLAttributes" [TRef "HTMLElement"
         []]; TRef "HTMLElement" []]);
     ("title", Required, TRef "DetailedHTMLProps" [TRef "HTMLAttributes"
         [TRef "HTMLTitleElement" []]; TRef "HTMLTitleElement" []]);
     ("tr", Required, TRef "DetailedHTMLProps" [TRef "HTMLAttributes"
         [TRef "HTMLTableRowElement" []]; TRef "HTMLTableRowElement" []]);
     ("track", Required, TRef "DetailedHTMLProps" [TRef "TrackHTMLAttributes"
         [TRef "HTMLTrackElement" []]; TRef "HTMLTrackElement" []]);
     ("u", Required, TRef "DetailedHTMLProps" [TRef "HTMLAttributes" [TRef "HTMLElement" []];
         TRef "HTMLElement" []]);
     ("ul", Required, TRef "DetailedHTMLProps" [TRef "HTMLAttributes" [TRef "HTMLUListElement"
         []]; TRef "HTMLUListElement" []]);
     ("var", Required, TRef "DetailedHTMLProps" [TRef "HTMLAttributes" [TRef "HTMLElement" []];
         TRef "HTMLElement" []]);
     ("video", Required, TRef "DetailedHTMLProps" [TRef "VideoHTMLAttributes"
         [TRef "HTMLVideoElement" []]; TRef "HTMLVideoElement" []]);
     ("wbr", Required, TRef "DetailedHTMLProps" [TRef "HTMLAttributes" [TRef "HTMLElement" []];
         TRef "HTMLElement" []]);
     ("webview", Required, TRef "DetailedHTMLProps" [TRef "WebViewHTMLAttributes"
         [TRef "HTMLElement" []]; TRef "HTMLElement" []]);
     ("svg", Required, TRef "SVGProps" [TRef "SVGSVGElement" []]);
     ("animate", Required, TRef "SVGProps" [TRef "SVGElement" []]);
     ("animateTransform", Required, TRef "SVGProps" [TRef "SVGElement" []]);
     ("circle", Required, TRef "SVGProps" [TRef "SVGCircleElement" []]);
     ("clipPath", Required, TRef "SVGProps" [TRef "SVGClipPathElement" []]);
     ("defs", Required, TRef "SVGProps" [TRef "SVGDefsElement" []]);
     ("desc", Required, TRef "SVGProps" [TRef "SVGDescElement" []]);
     ("ellipse", Required, TRef "SVGProps" [TRef "SVGEllipseElement" []]);
     ("feBlend", Required, TRef "SVGProps" [TRef "SVGFEBlendElement" []]);
     ("feColorMatrix", Required, TRef "SVGProps" [TRef "SVGFEColorMatrixElement" []]);
     ("feComponentTransfer", Required, TRef "SVGProps" [TRef "SVGFEComponentTransferElement"
         []]);
     ("feComposite", Required, TRef "SVGProps" [TRef "SVGFECompositeElement" []]);
     ("feConvolveMatrix", Required, TRef "SVGProps" [TRef "SVGFEConvolveMatrixElement" []]);
     ("feDiffuseLighting", Required, TRef "SVGProps" [TRef "SVGFEDiffuseLightingElement" []]);
     ("feDisplacementMap", Required, TRef "SVGProps" [TRef "SVGFEDisplacementMapElement" []]);
     ("feDistantLight", Required, TRef "SVGProps" [TRef "SVGFEDistantLightElement" []]);
     ("feFlood", Required, TRef "SVGProps" [TRef "SVGFEFloodElement" []]);
     ("feFuncA", Required, TRef "SVGProps" [TRef "SVGFEFuncAElement" []]);
     ("feFuncB", Required, TRef "SVGProps" [TRef "SVGFEFuncBElement" []]);
     ("feFuncG", Required, TRef "SVGProps" [TRef "SVGFEFuncGElement" []]);
     ("feFuncR", Required, TRef "SVGProps" [TRef "SVGFEFuncRElement" []]);
     ("feGaussianBlur", Required, TRef "SVGProps" [TRef "SVGFEGaussianBlurElement" []]);
     ("feImage", Required, TRef "SVGProps" [TRef "SVGFEImageElement" []]);
     ("feMerge", Required, TRef "SVGProps" [TRef "SVGFEMergeElement" []]);
     ("feMergeNode", Required, TRef "SVGProps" [TRef "SVGFEMergeNodeElement" []]);
     ("feMorphology", Required, TRef "SVGProps" [TRef "SVGFEMorphologyElement" []]);
     ("feOffset", Required, TRef "SVGProps" [TRef "SVGFEOffsetElement" []]);
     ("fePointLight", Required, TRef "SVGProps" [TRef "SVGFEPointLightElement" []]);
     ("feSpecularLighting", Required, TRef "SVGProps" [TRef "SVGFESpecularLightingElement" []]);
     ("feSpotLight", Required, TRef "SVGProps" [TRef "SVGFESpotLightElement" []]);
     ("feTile", Required, TRef "SVGProps" [TRef "SVGFETileElement" []]);
     ("feTurbulence", Required, TRef "SVGProps" [TRef "SVGFETurbulenceElement" []]);
     ("filter", Required, TRef "SVGProps" [TRef "SVGFilterElement" []]);
     ("foreignObject", Required, TRef "SVGProps" [TRef "SVGForeignObjectElement" []]);
     ("g", Required, TRef "SVGProps" [TRef "SVGGElement" []]);
     ("image", Required, TRef "SVGProps" [TRef "SVGImageElement" []]);
     ("line", Required, TRef "SVGLineElementAttributes" [TRef "SVGLineElement" []]);
     ("linearGradient", Required, TRef "SVGProps" [TRef "SVGLinearGradientElement" []]);
     ("marker", Required, TRef "SVGProps" [TRef "SVGMarkerElement" []]);
     ("mask", Required, TRef "SVGProps" [TRef "SVGMaskElement" []]);
     ("metadata", Required, TRef "SVGProps" [TRef "SVGMetadataElement" []]);
     ("path", Required, TRef "SVGProps" [TRef "SVGPathElement" []]);
     ("pattern", Required, TRef "SVGProps" [TRef "SVGPatternElement" []]);
     ("polygon", Required, TRef "SVGProps" [TRef "SVGPolygonElement" []]);
     ("polyline", Required, TRef "SVGProps" [TRef "SVGPolylineElement" []]);
     ("radialGradient", Required, TRef "SVGProps" [TRef "SVGRadialGradientElement" []]);
     ("rect", Required, TRef "SVGProps" [TRef "SVGRectElement" []]);
     ("stop", Required, TRef "SVGProps" [TRef "SVGStopElement" []]);
     ("switch", Required, TRef "SVGProps" [TRef "SVGSwitchElement" []]);
     ("symbol", Required, TRef "SVGProps" [TRef "SVGSymbolElement" []]);
     ("text", Required, TRef "SVGTextElementAttributes" [TRef "SVGTextElement" []]);
     ("textPath", Required, TRef "SVGProps" [TRef "SVGTextPathElement" []]);
     ("tspan", Required, TRef "SVGProps" [TRef "SVGTSpanElement" []]);
     ("use", Required, TRef "SVGProps" [TRef "SVGUseElement" []]);
     ("view", Required, TRef "SVGProps" [TRef "SVGViewElement" []])]
    [].

(** The interfaces above. *)
Definition interfaces : list iface :=
  [ReactHTML; ReactSVG; ReactDOM; JSX_Element; JSX_ElementClass; JSX_ElementAttributesProperty;
     JSX_ElementChildrenAttribute; JSX_IntrinsicAttributes; JSX_IntrinsicClassAttributes;
     JSX_IntrinsicElements].

End Tags.

(** ** React.PropTypes (index.d.ts, lines 3671-3693) *)

Module PropTypes.
Import TS.

(** Lines 3671-3673. *)
Definition Requireable : iface :=
  Iface "Requireable" [TParam "T" None None]
    [TRef "Validator" [TRef "T" []]]
    [("isRequired", Required, TRef "Validator" [TRef "T" []])]
    [].

(** Lines 3677-3693. *)
Definition ReactPropTypes : iface :=
  Iface "ReactPropTypes" []
    []
    [("any", Required, TRef "Requireable" [TAny]);
     ("array", Required, TRef "Requireable" [TAny]);
     ("bool", Required, TRef "Requireable" [TAny]);
     ("func", Required, TRef "Requireable" [TAny]);
     ("number", Required, TRef "Requireable" [TAny]);
     ("object", Required, TRef "Requireable" [TAny]);
     ("string", Required, TRef "Requireable" [TAny]);
     ("node", Required, TRef "Requireable" [TAny]);
     ("element", Required, TRef "Requireable" [TAny]);
     ("instanceOf", Required, TFun [("expectedClass", Required, TObj [])] (TRef "Requireable"
         [TAny]));
     ("oneOf", Required, TFun [("types", Required, TArray TAny)] (TRef "Requireable" [TAny]));
     ("oneOfType", Required, TFun [("types", Required, TRef "Array" [TRef "Validator" [TAny]])]
         (TRef "Requireable" [TAny]));
     ("arrayOf", Required, TFun [("type", Required, TRef "Validator" [TAny])]
         (TRef "Requireable" [TAny]));
     ("objectOf", Required, TFun [("type", Required, TRef "Validator" [TAny])]
         (TRef "Requireable" [TAny]));
     ("shape", Required, TFun [("type", Required, TRef "ValidationMap" [TAny])]
         (TRef "Requireable" [TAny]))]
    [].

(** The interfaces above. *)
Definition interfaces : list iface :=
  [Requireable; ReactPropTypes].

End PropTypes.

(** ** Types read through their declarations *)

Module Resolve.
Import TS.

Definition ref_name (t : ty) : option string :=
  match t with TRef n _ => Some n | _ => None end.

Definition ref_args (t : ty) : list ty :=
  match t with TRef _ args => args | _ => [] end.

(** The type parameters [ps] instantiated by the type arguments [args],
    position by position; a parameter that has no argument takes its
    default, if it has one. *)
Fixpoint instantiate (ps : list tparam) (args : list ty) : list (string * ty) :=
  match ps with
  | [] => []
  | p :: ps' =>
      match args with
      | a :: args' => (tp_name p, a) :: instantiate ps' args'
      | [] =>
          match tp_default p with
          | Some d => (tp_name p, d) :: instantiate ps' []
          | None => instantiate ps' []
          end
      end
  end.

Definition subst_prop (sigma : list (string * ty)) (p : prop) : prop :=
  (fst p, subst sigma (snd p)).

(** The members of an object type, own and inherited, at the type
    arguments it is used with: the members an interface declares, then
    those of its bases that it does not declare again; those of the parts
    of an intersection; those of the body of an alias.  A type that [E]
    does not declare contributes no member. *)
Fixpoint props_of (E : env) (fuel : nat) (t : ty) : list prop :=
  match fuel with
  | O => []
  | S fuel' =>
      match t with
      | TObj ms => ms
      | TInter ts =>
          fold_left (fun acc u => inherit acc (props_of E fuel' u)) ts []
      | TRef n args =>
          match find_iface (e_ifaces E) n with
          | Some i =>
              let sigma := instantiate (i_tparams i) args in
              fold_left
                (fun acc b => inherit acc (props_of E fuel' (subst sigma b)))
                (i_extends i) (map (subst_prop sigma) (i_members i))
          | None =>
              match find_alias (e_aliases E) n with
              | Some a =>
                  props_of E fuel' (subst (instantiate (a_tparams a) args) (a_body a))
              | None => []
              end
          end
      | _ => []
      end
  end.

(** The member [m] of [t], with its type at the type arguments of [t]. *)
Definition prop_of (E : env) (fuel : nat) (t : ty) (m : string) : option prop :=
  find_prop (props_of E fuel t) m.

(** The parameters and the result of calling a value of type [t]: those of
    a function type, of the first call signature of an interface or, if it
    declares none, of the first of its bases that can be called. *)
Fixpoint call_of (E : env) (fuel : nat) (t : ty) : option (list prop * ty) :=
  match fuel with
  | O => None
  | S fuel' =>
      match t with
      | TFun ps r => Some (ps, r)
      | TRef n args =>
          match find_iface (e_ifaces E) n with
          | Some i =>
              let sigma := instantiate (i_tparams i) args in
              match i_calls i with
              | c :: _ =>
                  Some (map (subst_prop sigma) (s_params c), subst sigma (s_ret c))
              | [] =>
                  fold_left
                    (fun acc b =>
                       match acc with
                       | Some _ => acc
                       | None => call_of E fuel' (subst sigma b)
                       end)
                    (i_extends i) None
              end
          | None =>
              match find_alias (e_aliases E) n with
              | Some a =>
                  call_of E fuel' (subst (instantiate (a_tparams a) args) (a_body a))
              | None => None
              end
          end
      | _ => None
      end
  end.

(** The names of the interfaces an interface extends, directly or not. *)
Fixpoint ancestors (E : env) (fuel : nat) (n : string) : list string :=
  match fuel with
  | O => []
  | S fuel' =>
      match find_iface (e_ifaces E) n with
      | Some i =>
          flat_map
            (fun b =>
               match b with
               | TRef m _ => m :: ancestors E fuel' m
               | _ => []
               end)
            (i_extends i)
      | None => []
      end
  end.

(** The event a handler receives.  A handler type is an alias of
    [EventHandler<E>] (line 572), the type of the functions that take an
    event [E] and return nothing; the event of a handler type at given
    type arguments is that [E]. *)
Definition handler_event (E : env) (t : ty) : option ty :=
  match t with
  | TRef h args =>
      match find_alias (e_aliases E) h with
      | Some a =>
          match a_body a with
          | TRef "EventHandler" [e] => Some (subst (instantiate (a_tparams a) args) e)
          | _ => None
          end
      | None => None
      end
  | _ => None
  end.

(** A type without [undefined]: the other member of [T | undefined]. *)
Definition defined_part (t : ty) : ty :=
  match t with
  | TUnion [u; TUndefined] => u
  | _ => t
  end.

(** The declarations of the file that are transcribed; a class counts
    with the interface of its name as one type. *)
Definition E : env :=
  Env (React.aliases ++ Lifecycle.aliases ++ Events.handlers ++ Attributes.aliases)
      (React.types ++ Lifecycle.interfaces ++ Events.events
       ++ Attributes.interfaces ++ Tags.interfaces ++ PropTypes.interfaces).

End Resolve.

(** ** Equality of types, decided *)

Module TyEq.
Import TS.

Definition list_eqb {A : Type} (eqb : A -> A -> bool) : list A -> list A -> bool :=
  fix go (l l' : list A) : bool :=
    match l, l' with
    | [], [] => true
    | x :: r, y :: r' => eqb x y && go r r'
    | _, _ => false
    end.

Definition pkind_eqb (k k' : pkind) : bool :=
  match k, k' with
  | Required, Required | Optional, Optional | Rest, Rest => true
  | _, _ => false
  end.

Definition member_eqb (eqb : ty -> ty -> bool) (p q : string * pkind * ty) : bool :=
  String.eqb (fst (fst p)) (fst (fst q))
  && pkind_eqb (snd (fst p)) (snd (fst q))
  && eqb (snd p) (snd q).

Fixpoint ty_eqb (a b : ty) : bool :=
  match a, b with
  | TAny, TAny | TString, TString | TNumber, TNumber | TBoolean, TBoolean
  | TVoid, TVoid | TNull, TNull | TUndefined, TUndefined => true
  | TStrLit s, TStrLit s' => String.eqb s s'
  | TBoolLit x, TBoolLit y => Bool.eqb x y
  | TRef n l, TRef n' l' => String.eqb n n' && list_eqb ty_eqb l l'
  | TUnion l, TUnion l' | TInter l, TInter l' => list_eqb ty_eqb l l'
  | TArray t, TArray t' | TKeyof t, TKeyof t' => ty_eqb t t'
  | TObj ms, TObj ms' => list_eqb (member_eqb ty_eqb) ms ms'
  | TDict k v, TDict k' v' => ty_eqb k k' && ty_eqb v v'
  | TFun ps r, TFun ps' r' | TNew ps r, TNew ps' r' =>
      list_eqb (member_eqb ty_eqb) ps ps' && ty_eqb r r'
  | TIs x t, TIs x' t' => String.eqb x x' && ty_eqb t t'
  | _, _ => false
  end.

Definition prop_eqb : prop -> prop -> bool := member_eqb ty_eqb.

(** Is [o] the member [q]? *)
Definition is_prop (o : option prop) (q : prop) : bool :=
  match o with
  | Some p => prop_eqb p q
  | None => false
  end.

(** Is [o] the type [t]? *)
Definition is_ty (o : option ty) (t : ty) : bool :=
  match o with
  | Some u => ty_eqb u t
  | None => false
  end.

End TyEq.

(** ** Names and groups used to state properties of the tables *)

Module Tables.
Import TS Resolve TyEq.

(** The members of [DOMAttributes] (lines 625-797). *)
Definition dom : list prop := i_members Attributes.DOMAttributes.

(** Is [n] the name of an event handler property, [on...]? *)
Definition is_handler (n : string) : bool := String.prefix "on" n.

(** Does [n] end in [Capture], and what is it without that ending? *)
Definition is_capture (n : string) : bool :=
  String.eqb (substring (String.length n - 7) 7 n) "Capture".

Definition capture_base (n : string) : string :=
  substring 0 (String.length n - 7) n.

(** The last type argument of a reference: the element of an attributes
    or props type. *)
Definition elem_arg (t : ty) : ty := last (ref_args t) TAny.

(** The events that know the state of the modifier keys. *)
Definition modifier_events : list string :=
  ["DragEvent"; "KeyboardEvent"; "MouseEvent"; "TouchEvent"; "WheelEvent"].

Definition modifier_members : list string :=
  ["altKey"; "ctrlKey"; "metaKey"; "shiftKey"].

(** The tags whose attributes declare [onChange] again. *)
Definition change_tags : list string := ["input"; "select"; "textarea"].

(** The interfaces of attributes that inherit from [DOMAttributes]. *)
Definition dom_attribute_interfaces : list iface :=
  filter (fun i => mem "DOMAttributes" (ancestors E 5 (i_name i)))
    Attributes.interfaces.

(** Does the interface [i], at its own parameter [T], have every member of
    [DOMAttributes] but [onChange] as [DOMAttributes] declares it? *)
Definition keeps_dom_members (i : iface) : bool :=
  let ms := props_of E 6 (TRef (i_name i) [TRef "T" []]) in
  forallb
    (fun q =>
       String.eqb (prop_name q) "onChange" || is_prop (find_prop ms (prop_name q)) q)
    dom.

(** The overloads of [createFactory] (lines 189-207), each with the
    overload of [createElement] for the same [type] (lines 217-249, the
    overload for ["input"] left out) and with the instantiation of the type
    parameters of that overload at which the factory works. *)
Definition factory_pairs : list (fundecl * fundecl * list (string * ty)) :=
  combine (combine React.createFactory (tl React.createElement))
    [[("P", TRef "AllHTMLAttributes" [TRef "T" []])];
     [("P", TRef "SVGAttributes" [TRef "SVGElement" []]); ("T", TRef "SVGElement" [])];
     []; []; []; []; []].

Definition param_type (f : fundecl) (n : string) : option ty :=
  option_map prop_type (find_prop (s_params (f_sig f)) n).

(** The parts of a union, a type that is no union being its only part. *)
Definition union_parts (t : ty) : list ty :=
  match t with TUnion ts => ts | _ => [t] end.

(** What a validator property of [ReactPropTypes] gives: the property
    itself, or what it returns if it is a function. *)
Definition validator_of (t : ty) : ty :=
  match t with TFun _ r => r | _ => t end.

(** The attributes of particular elements that [AllHTMLAttributes] does
    not have as the element declares them, by interface and attribute. *)
Definition uncovered : list (string * string) :=
  [("AudioHTMLAttributes", "playsinline");
   ("InputHTMLAttributes", "onChange");
   ("LinkHTMLAttributes", "fetchPriority");
   ("LinkHTMLAttributes", "imageSrcSet");
   ("MediaHTMLAttributes", "playsinline");
   ("SelectHTMLAttributes", "onChange");
   ("TextareaHTMLAttributes", "dirName");
   ("TextareaHTMLAttributes", "onChange");
   ("VideoHTMLAttributes", "playsinline")].

Definition is_uncovered (i n : string) : bool :=
  existsb (fun u => String.eqb (fst u) i && String.eqb (snd u) n) uncovered.

(** Does [AllHTMLAttributes] have every attribute of the interface [i],
    own or inherited, as [i] has it, unless the attribute is listed in
    [uncovered], and then not? *)
Definition covered_by_all (i : iface) : bool :=
  let all := props_of E 6 (TRef "AllHTMLAttributes" [TRef "T" []]) in
  forallb
    (fun p =>
       Bool.eqb (is_prop (find_prop all (prop_name p)) p)
                (negb (is_uncovered (i_name i) (prop_name p))))
    (props_of E 6 (TRef (i_name i) [TRef "T" []])).

(** Is every own member of [AllHTMLAttributes] declared by the interface
    of some particular element? *)
Definition all_from_elements : bool :=
  forallb
    (fun p =>
       existsb (fun i => has_prop (i_members i) (prop_name p))
         Attributes.element_attributes)
    (i_members Attributes.AllHTMLAttributes).

End Tables.

(** * Properties *)

Import TS.

(** ** Membership in unions *)

Section Membership.

Variable env : list alias.

Lemma has_type_union (fuel : nat) (v : value) (ts : list ty) :
  has_type env (S fuel) v (TUnion ts) = existsb (has_type env fuel v) ts.
Proof. reflexivity. Qed.

Lemma has_type_str_inv (fuel : nat) (v : value) (s : string) :
  has_type env fuel v (TStrLit s) = true -> v = VStr s.
Proof.
  destruct fuel as [|fuel]; simpl; [discriminate|].
  destruct v; try discriminate.
  intros H. apply String.eqb_eq in H. now subst.
Qed.

Lemma has_type_undefined_inv (fuel : nat) (v : value) :
  has_type env fuel v TUndefined = true -> v = VUndefined.
Proof.
  destruct fuel as [|fuel]; simpl; [discriminate|].
  now destruct v.
Qed.

Lemma has_type_null_inv (fuel : nat) (v : value) :
  has_type env fuel v TNull = true -> v = VNull.
Proof.
  destruct fuel as [|fuel]; simpl; [discriminate|].
  now destruct v.
Qed.

Lemma has_type_string_inv (fuel : nat) (v : value) :
  has_type env fuel v TString = true -> exists s, v = VStr s.
Proof.
  destruct fuel as [|fuel]; simpl; [discriminate|].
  destruct v; try discriminate. eauto.
Qed.

Lemma has_type_number_inv (fuel : nat) (v : value) :
  has_type env fuel v TNumber = true -> exists n, v = VNum n.
Proof.
  destruct fuel as [|fuel]; simpl; [discriminate|].
  destruct v; try discriminate. eauto.
Qed.

Lemma has_type_false_inv (fuel : nat) (v : value) :
  has_type env fuel v (TBoolLit false) = true -> v = VBool false.
Proof.
  destruct fuel as [|fuel]; simpl; [discriminate|].
  destruct v as [| |b| | |]; try discriminate.
  now destruct b.
Qed.

(** A reference to an alias without parameters stands for its body. *)
Lemma has_type_alias (fuel : nat) (v : value) (n : string) (args : list ty) (a : alias) :
  find_alias env n = Some a -> a_tparams a = [] ->
  has_type env (S fuel) v (TRef n args) = has_type env fuel v (a_body a).
Proof.
  intros Hfind Hps. simpl. now rewrite Hfind, Hps.
Qed.

(** A member of a union admits what the union admits, one level up. *)
Lemma has_type_member (fuel : nat) (v : value) (ts : list ty) (t : ty) :
  In t ts -> has_type env fuel v t = true ->
  has_type env (S fuel) v (TUnion ts) = true.
Proof.
  intros Hin Ht. rewrite has_type_union.
  apply existsb_exists. now exists t.
Qed.

(** The values of a union whose members are string literals or
    [undefined] are the literals, and [undefined] if it is a member. *)
Lemma literal_union_values (fuel : nat) (v : value) (ts : list ty) :
  (forall m, In m ts -> m = TUndefined \/ exists s, m = TStrLit s) ->
  has_type env fuel v (TUnion ts) = true ->
  (v = VUndefined /\ In TUndefined ts) \/ (exists s, v = VStr s /\ In (TStrLit s) ts).
Proof.
  intros Hlit Hv.
  destruct fuel as [|fuel]; [discriminate|].
  rewrite has_type_union in Hv.
  apply existsb_exists in Hv as (m & Hin & Hm).
  destruct (Hlit m Hin) as [-> | [s ->]].
  - left. split; [now apply has_type_undefined_inv with fuel | exact Hin].
  - right. exists s. split; [now apply has_type_str_inv with fuel | exact Hin].
Qed.

End Membership.

(** Membership of a concrete list, one element after the other. *)
Ltac each_member H :=
  simpl in H;
  repeat (destruct H as [<- | H]; [ | ]);
  try contradiction.

(** ** String-literal unions *)

(** C7.  Each of the named string-literal unions [CrossOrigin],
    [ModifierKey] and [CSSWideKeyword] is a union whose every member is a
    fixed string literal or [undefined]; a value of the union type is one of
    the enumerated strings (or [undefined], where the union lists it), and
    every enumerated string is a value of the type. *)
Theorem string_literal_unions_enumerated (a : alias) :
  In a React.string_literal_unions ->
  exists ms,
    a_tparams a = [] /\ a_body a = TUnion ms /\
    (forall m, In m ms -> m = TUndefined \/ exists s, m = TStrLit s) /\
    (forall fuel v,
        has_type React.aliases fuel v (TRef (a_name a) []) = true ->
        (v = VUndefined /\ In TUndefined ms)
        \/ (exists s, v = VStr s /\ In (TStrLit s) ms)) /\
    (forall s, In (TStrLit s) ms ->
               has_type React.aliases 3 (VStr s) (TRef (a_name a) []) = true).
Proof.
  intros Ha.
  assert (Hfind : find_alias React.aliases (a_name a) = Some a)
    by (each_member Ha; reflexivity).
  assert (Hbody : exists ms, a_tparams a = [] /\ a_body a = TUnion ms /\
                  forall m, In m ms -> m = TUndefined \/ exists s, m = TStrLit s).
  { each_member Ha; eexists; (split; [reflexivity|]); (split; [reflexivity|]);
      intros m Hm; each_member Hm; eauto. }
  destruct Hbody as (ms & Hps & Hb & Hlit).
  exists ms. repeat split; trivial.
  - intros fuel v Hv.
    destruct fuel as [|fuel]; [discriminate|].
    rewrite (@has_type_alias React.aliases fuel v _ [] _ Hfind Hps), Hb in Hv.
    now apply literal_union_values with (env := React.aliases) (fuel := fuel).
  - intros s Hs.
    rewrite (@has_type_alias React.aliases 2 (VStr s) _ [] _ Hfind Hps), Hb.
    apply has_type_member with (t := TStrLit s); trivial.
    simpl. apply String.eqb_refl.
Qed.

Lemma string_literal_unions_enumerated_witness :
  In React.CSSWideKeyword React.string_literal_unions /\
  exists ms,
    a_tparams React.CSSWideKeyword = [] /\ a_body React.CSSWideKeyword = TUnion ms /\
    (forall m, In m ms -> m = TUndefined \/ exists s, m = TStrLit s) /\
    (forall fuel v,
        has_type React.aliases fuel v (TRef (a_name React.CSSWideKeyword) []) = true ->
        (v = VUndefined /\ In TUndefined ms)
        \/ (exists s, v = VStr s /\ In (TStrLit s) ms)) /\
    (forall s, In (TStrLit s) ms ->
               has_type React.aliases 3 (VStr s)
                 (TRef (a_name React.CSSWideKeyword) []) = true).
Proof.
  split.
  - simpl. tauto.
  - apply (string_literal_unions_enumerated React.CSSWideKeyword). simpl. tauto.
Defined.

(** ** Elements and their keys *)

(** The values of [Key | null] are the strings, the numbers and [null]. *)
Lemma key_or_null_values (fuel : nat) (v : value) :
  has_type React.aliases fuel v (TUnion [TRef "Key" []; TNull]) = true ->
  (exists s, v = VStr s) \/ (exists n, v = VNum n) \/ v = VNull.
Proof.
  intros Hv.
  destruct fuel as [|fuel]; [discriminate|].
  rewrite has_type_union in Hv. simpl in Hv.
  rewrite orb_false_r in Hv.
  apply orb_true_iff in Hv as [Hkey | Hnull].
  - destruct fuel as [|fuel]; [discriminate|].
    rewrite (@has_type_alias React.aliases fuel v "Key" [] React.Key) in Hkey
      by reflexivity.
    destruct fuel as [|fuel]; [discriminate|].
    simpl a_body in Hkey. rewrite has_type_union in Hkey. simpl in Hkey.
    rewrite orb_false_r in Hkey.
    apply orb_true_iff in Hkey as [Hs | Hn].
    + left. now apply has_type_string_inv with React.aliases fuel.
    + right; left. now apply has_type_number_inv with React.aliases fuel.
  - right; right. now apply has_type_null_inv with React.aliases fuel.
Qed.

(** C9.  [ReactElement] declares [key: Key | null]; every element type
    that [createElement] or a factory produces has this member [key],
    whose values are the strings, the numbers and [null]; and each of the
    refining interfaces [SFCElement], [ComponentElement] and [DOMElement]
    extends [ReactElement<P>], declares nothing but [type] and [ref], and
    so keeps the members [key] and [props] as [ReactElement] has them. *)
Theorem element_key_shape :
  let key := ("key", Required, TUnion [TRef "Key" []; TNull]) in
  find_prop (i_members React.ReactElement) "key" = Some key /\
  (forall t, In t React.element_results -> member_of React.E 6 t "key" = Some key) /\
  (forall i, In i React.refining_elements ->
     i_extends i = [TRef "ReactElement" [React.tP]] /\
     (forall p, In p (i_members i) -> prop_name p = "type" \/ prop_name p = "ref") /\
     member_of React.E 6 (TRef (i_name i) []) "key" = Some key /\
     member_of React.E 6 (TRef (i_name i) []) "props"
     = find_prop (i_members React.ReactElement) "props") /\
  (forall fuel v,
     has_type React.aliases fuel v (prop_type key) = true ->
     (exists s, v = VStr s) \/ (exists n, v = VNum n) \/ v = VNull) /\
  (forall s, has_type React.aliases 4 (VStr s) (prop_type key) = true) /\
  (forall n, has_type React.aliases 4 (VNum n) (prop_type key) = true) /\
  has_type React.aliases 4 VNull (prop_type key) = true.
Proof.
  intros key. split; [reflexivity|]. split; [|split; [|split]].
  - intros t Ht. each_member Ht; reflexivity.
  - intros i Hi. each_member Hi;
      (split; [reflexivity|]); (split; [|split; reflexivity]);
      intros p Hp; each_member Hp; simpl; tauto.
  - intros fuel v. apply key_or_null_values.
  - repeat split; reflexivity.
Qed.

(** ** The component class *)

(** C10.  The method [render] of the class [Component] takes no argument
    and results in [JSX.Element | null | false]: its result is [null],
    [false] or a [JSX.Element], and [null] and [false] are results, so a
    component may render nothing.  The methods [setState] and [forceUpdate]
    result in [void], whose only value is [undefined]. *)
Theorem component_render_result :
  exists render setState forceUpdate,
    method React.Component "render" = Some render /\
    method React.Component "setState" = Some setState /\
    method React.Component "forceUpdate" = Some forceUpdate /\
    s_params (f_sig render) = [] /\
    s_ret (f_sig render) = TUnion [TRef "JSX.Element" []; TNull; TBoolLit false] /\
    s_ret (f_sig setState) = TVoid /\
    s_ret (f_sig forceUpdate) = TVoid /\
    (forall fuel v,
       has_type React.aliases fuel v (s_ret (f_sig render)) = true ->
       v = VNull \/ v = VBool false \/ exists fields, v = VObj "JSX.Element" fields) /\
    has_type React.aliases 2 VNull (s_ret (f_sig render)) = true /\
    has_type React.aliases 2 (VBool false) (s_ret (f_sig render)) = true /\
    (forall fuel v, has_type React.aliases fuel v TVoid = true -> v = VUndefined).
Proof.
  do 3 eexists.
  split; [reflexivity|]. split; [reflexivity|]. split; [reflexivity|].
  split; [reflexivity|]. split; [reflexivity|]. split; [reflexivity|].
  split; [reflexivity|]. split; [|split; [reflexivity|split; [reflexivity|]]].
  - intros fuel v Hv. simpl s_ret in Hv.
    destruct fuel as [|fuel]; [discriminate|].
    rewrite has_type_union in Hv. simpl in Hv. rewrite orb_false_r in Hv.
    apply orb_true_iff in Hv as [Hel | Hv].
    + right; right.
      destruct fuel as [|fuel]; [discriminate|].
      simpl in Hel. destruct v as [| | | | |c fields]; try discriminate.
      apply String.eqb_eq in Hel. subst c. now exists fields.
    + apply orb_true_iff in Hv as [Hnull | Hfalse].
      * left. now apply has_type_null_inv with React.aliases fuel.
      * right; left. now apply has_type_false_inv with React.aliases fuel.
  - intros fuel v Hv.
    destruct fuel as [|fuel]; [discriminate|].
    simpl in Hv. now destruct v.
Qed.

(** ** The checker configuration *)

(** C5.  The configuration sets the target language level and the
    library surfaces, turns on the strictness flags, among them
    [strictNullChecks], and [forceConsistentCasingInFileNames], and lists
    the declaration file and the test file given to the checker. *)
Theorem tsconfig_settings :
  Tsconfig.option_of "target" = Some (Tsconfig.JStr "es2016") /\
  Tsconfig.option_of "lib"
  = Some (Tsconfig.JArr [Tsconfig.JStr "es6"; Tsconfig.JStr "dom"]) /\
  Tsconfig.enabled "strictNullChecks" = true /\
  Tsconfig.enabled "forceConsistentCasingInFileNames" = true /\
  forallb Tsconfig.enabled Tsconfig.strict_flags = true /\
  Tsconfig.get ["files"] Tsconfig.tsconfig
  = Some (Tsconfig.JArr [Tsconfig.JStr "index.d.ts";
                         Tsconfig.JStr "test/xdialog-tests.ts"]).
Proof.
  repeat split; reflexivity.
Qed.

(** ** Cloning an element of a custom component *)

Lemma has_prop_find (ms : list prop) (n : string) :
  has_prop ms n = false -> find_prop ms n = None.
Proof.
  unfold has_prop, find_prop.
  induction ms as [|p ms IH]; simpl; [reflexivity|].
  destruct (String.eqb (prop_name p) n); simpl; [discriminate | exact IH].
Qed.

(** An object type that lacks a property is not assignable to one that
    requires it. *)
Lemma missing_required_prop (E : env) (fuel : nat) (P Q : list prop)
    (a : string) (q : prop) :
  has_prop P a = false -> find_prop Q a = Some q ->
  is_optional (prop_kind q) = false ->
  assignable E fuel (TObj P) (TObj Q) = false.
Proof.
  intros HP HQ Hreq.
  destruct fuel as [|fuel]; [reflexivity|].
  destruct fuel as [|fuel]; [reflexivity|].
  simpl. apply not_true_is_false. intros Hall.
  apply find_some in HQ as [Hin Hname].
  apply String.eqb_eq in Hname.
  unfold props_assignable in Hall.
  rewrite forallb_forall in Hall. specialize (Hall q Hin).
  rewrite Hname, (has_prop_find P a HP), Hreq in Hall.
  discriminate.
Qed.

(** C8.  Each overload of [cloneElement] for a custom component declares
    [P extends Q] and an unconstrained [Q], takes the optional [props] at
    the type [Q] itself (no intersection with [Attributes]), and returns
    the type of its [element], one of [SFCElement<P>], [CElement<P, T>]
    and [ReactElement<P>].  Hence a call whose [props] requires a property
    that the element's properties [P] lack, such as [key] or [ref], breaks
    the constraint and is rejected; the note's call with [key] is rejected
    as written and accepted with its cast. *)
Theorem cloneElement_props_unintersected (f : fundecl) :
  In f React.custom_clones ->
  find_tparam (f_sig f) "P" = Some (TParam "P" (Some React.tQ) None) /\
  find_tparam (f_sig f) "Q" = Some (TParam "Q" None None) /\
  find_prop (s_params (f_sig f)) "props" = Some ("props", Optional, React.tQ) /\
  (exists t,
     find_prop (s_params (f_sig f)) "element" = Some ("element", Required, t) /\
     In t React.custom_elements /\ s_ret (f_sig f) = t) /\
  (forall E fuel sigma P Q a q,
     lookup_ty sigma "P" = Some (TObj P) -> lookup_ty sigma "Q" = Some (TObj Q) ->
     has_prop P a = false -> find_prop Q a = Some q ->
     is_optional (prop_kind q) = false ->
     constraints_ok E fuel (f_sig f) sigma = false) /\
  constraints_ok React.note_env 8 (f_sig f) (React.note_call React.keyed_props) = false /\
  constraints_ok React.note_env 8 (f_sig f) (React.note_call React.keyed_props_cast) = true.
Proof.
  intros Hf.
  assert (Hsig : find_tparam (f_sig f) "P" = Some (TParam "P" (Some React.tQ) None) /\
                 exists rest, s_tparams (f_sig f) = TParam "P" (Some React.tQ) None :: rest).
  { each_member Hf; (split; [reflexivity | eexists; reflexivity]). }
  destruct Hsig as (HP & rest & Hps).
  split; [exact HP|].
  split; [each_member Hf; reflexivity|].
  split; [each_member Hf; reflexivity|].
  split.
  { each_member Hf; eexists; (split; [reflexivity|]); (split; [|reflexivity]);
      simpl; tauto. }
  split; [|split; each_member Hf; reflexivity].
  intros E fuel sigma P Q a q HsP HsQ HPa HQa Hreq.
  unfold constraints_ok. rewrite Hps. simpl.
  rewrite HsP, HsQ.
  now rewrite (missing_required_prop E fuel P Q a q HPa HQa Hreq).
Qed.

Lemma cloneElement_props_unintersected_witness :
  let f := nth 5 React.cloneElement (Fun "" 0 Plain (Sig [] [] TAny) None) in
  f_line f = 287 /\
  In f React.custom_clones /\
  has_prop React.ButtonProps "key" = false /\
  constraints_ok React.note_env 8 (f_sig f) (React.note_call React.keyed_props)
  = false.
Proof.
  intros f.
  assert (Hf : In f React.custom_clones) by (simpl; tauto).
  split; [reflexivity|]. split; [exact Hf|]. split; [reflexivity|].
  destruct (cloneElement_props_unintersected f Hf)
    as (_ & _ & _ & _ & Hreject & _).
  apply (Hreject React.note_env 8 (React.note_call React.keyed_props)
           React.ButtonProps
           [("key", Required, TString); ("isDisabled", Required, TBoolean)]
           "key" ("key", Required, TString));
    reflexivity.
Defined.

(** ** The cookie fixture and the options it passes *)





(** ** Functions and their bodies *)

(** C1, as stated, fails: the constructor of [TestObject] in the cookie
    fixture (lines 5-8) has a body. *)
Lemma some_function_has_a_body :
  ~ (forall b, In b Repository.function_bodies -> has_body b = false).
Proof.
  intros Hnone.
  specialize
    (Hnone ("TestObject.constructor",
            Some [SAssign (EMember EThis "text") (EId "text");
                  SAssign (EMember EThis "value") (EId "value")])).
  discriminate Hnone.
  unfold Repository.function_bodies. apply in_or_app. right.
  simpl. tauto.
Qed.

(** C1, amended.  Every function of the declaration file (the [function]
    declarations of the namespace and the methods of its classes) is a
    signature without a body, so that nothing of it can be run.  The
    fixtures do have function bodies: the constructor of [TestObject]
    assigns its two parameters to the fields [text] and [value], as
    running it shows, and each of the four arrow functions of the yazl
    fixture has a body. *)
Theorem declared_functions_without_body :
  (forall f, In f React.all_functions -> f_body f = None) /\
  (forall argv, construct React.Component argv = None) /\
  bodies_of CookieTests.fixture
  = [("TestObject.constructor",
      Some [SAssign (EMember EThis "text") (EId "text");
            SAssign (EMember EThis "value") (EId "value")])] /\
  construct CookieTests.TestObject [VStr "Hello World"; VNum 5]
  = Some (VObj "TestObject" [("text", VStr "Hello World"); ("value", VNum 5)]) /\
  length (bodies_of YazlTests.fixture) = 4 /\
  (forall b, In b (bodies_of YazlTests.fixture) -> has_body b = true).
Proof.
  split; [|split; [|split; [|split; [|split]]]]; try reflexivity.
  - intros f Hf. each_member Hf; reflexivity.
  - intros b Hb. each_member Hb; reflexivity.
Qed.

(** ** Dependencies between files *)

(** C2, as stated, fails: the yazl fixture imports two modules, and the
    cookie fixture uses names it does not declare. *)
Lemma some_file_depends_on_another :
  ~ (forall f, In f Repository.files ->
               Repository.file_imports f = [] /\ Repository.file_external f = []).
Proof.
  intros Hnone.
  destruct (Hnone Repository.yazl_tests) as [Himports _].
  - simpl. tauto.
  - discriminate Himports.
Qed.

(** C2, amended.  The declaration file of React depends on no other file
    of the repository: it imports nothing, and every type its declarations
    mention is declared in the file or comes with the checker's bundled
    library.  The fixtures depend on declarations made elsewhere: the
    yazl fixture imports the modules [yazl] and [fs]; the cookie fixture
    imports nothing but uses [JQueryCookieOptions], which its class
    [CookieOptions] implements, and [$], neither of which it declares. *)
Theorem declaration_file_is_self_contained :
  Repository.file_imports Repository.react_index = [] /\
  Repository.file_external Repository.react_index = [] /\
  Repository.file_imports Repository.yazl_tests = ["yazl"; "fs"] /\
  Repository.file_imports Repository.cookie_tests = [] /\
  c_implements CookieTests.CookieOptions = [TRef "JQueryCookieOptions" []] /\
  In "JQueryCookieOptions" (Repository.file_external Repository.cookie_tests) /\
  In "$" (Repository.file_external Repository.cookie_tests) /\
  ~ In "JQueryCookieOptions" (bound_names CookieTests.fixture) /\
  ~ In "$" (bound_names CookieTests.fixture).
Proof.
  split; [reflexivity|]. split; [reflexivity|]. split; [reflexivity|].
  split; [reflexivity|]. split; [reflexivity|].
  split; [simpl; tauto|]. split; [simpl; tauto|].
  split; simpl; intuition discriminate.
Qed.

(** ** What the fixtures assert *)

(** C4.  Every line of the fixtures is an assertion for the type checker,
    that the line type-checks, that it is rejected, or that its expression
    has a given type, and none is a check made at run time: no call of a
    fixture, in a statement or in the body of a method, goes to an
    assertion function or to a test runner.  The annotated lines are the
    rejected cookie call and the two typed expressions of the yazl fixture,
    [zipfile.outputStream] of type [ReadableStream] and
    [zipfile.on("error", handler)] of type [ZipFile].  The calls of the
    fixtures go to the libraries under test, to [fs], to [console], to
    [parseInt] and to a callback; and the configuration has the checker
    emit no code for the test file it is given. *)
Theorem fixtures_assert_types :
  (forall l, In l (concat Repository.fixtures) ->
     test_of l = TypeAssertion MustTypeCheck
     \/ test_of l = TypeAssertion MustBeRejected
     \/ exists t, test_of l = TypeAssertion (MustHaveType t)) /\
  (forall l c, In l (concat Repository.fixtures) ->
     In c (item_calls (l_item l)) -> checks_at_run_time c = false) /\
  map (fun l => (l_line l, assertion_of l))
      (filter annotated (concat Repository.fixtures))
  = [(25, MustBeRejected); (10, MustHaveType "ReadableStream");
     (13, MustHaveType "ZipFile")] /\
  In (Line 10 (ExpectType "ReadableStream")
        (IStmt (SExpr (EMember (EId "zipfile") "outputStream"))))
     YazlTests.fixture /\
  (exists handler,
     In (Line 13 (ExpectType "ZipFile")
           (IStmt (SExpr (ECall (EMember (EId "zipfile") "on")
                            [EStr "error"; handler]))))
        YazlTests.fixture) /\
  Repository.called_roots = ["$"; "fs"; "console"; "cb"; "parseInt"; "zipfile"] /\
  Tsconfig.option_of "noEmit" = Some (Tsconfig.JBool true) /\
  Tsconfig.get ["files"] Tsconfig.tsconfig
  = Some (Tsconfig.JArr [Tsconfig.JStr "index.d.ts";
                         Tsconfig.JStr "test/xdialog-tests.ts"]).
Proof.
  split.
  { intros l Hl. each_member Hl; vm_compute; eauto. }
  split.
  { intros l c Hl. each_member Hl; intros Hc; each_member Hc; reflexivity. }
  split; [reflexivity|]. split; [simpl; tauto|].
  split; [|split; [reflexivity|split; reflexivity]].
  eexists. simpl. do 6 right. left. reflexivity.
Qed.

(** ** Cycles, inheritance, assignments and coroutines *)

(** C6, as stated, fails: the type [ReactNode] refers to itself through
    [ReactFragment] and [ReactNodeArray]. *)
Lemma type_graph_is_cyclic :
  ~ ((forall n fuel, In n (map fst React.type_graph) ->
                     cyclic React.type_graph fuel n = false) /\
     (forall c, In c React.classes -> c_extends c = None) /\
     (forall x, In x (assigned_roots CookieTests.fixture) ->
                In x (bound_names CookieTests.fixture)) /\
     (forall f, In f Repository.declared_functions -> f_kind f = Plain)).
Proof.
  intros (Hacyclic & _).
  specialize (Hacyclic "ReactNode" 3).
  discriminate Hacyclic.
  simpl. tauto.
Qed.

(** C6, amended.  No function or method declared in the source files is a
    generator or an [async] function.  The declaration file does have a
    cycle of type references, from [ReactNode] over [ReactFragment] and
    [ReactNodeArray] back to [ReactNode], and a class that inherits from
    another, [PureComponent] from [Component]; and the cookie fixture
    assigns to [$], an object it does not declare. *)
Theorem no_coroutines_declared :
  (forall f, In f Repository.declared_functions -> f_kind f = Plain) /\
  In "ReactFragment" (succs React.type_graph "ReactNode") /\
  In "ReactNodeArray" (succs React.type_graph "ReactFragment") /\
  In "ReactNode" (succs React.type_graph "ReactNodeArray") /\
  cyclic React.type_graph 3 "ReactNode" = true /\
  c_extends React.PureComponent = Some (TRef "Component" [React.tP; React.tS]) /\
  In "$" (assigned_roots CookieTests.fixture) /\
  ~ In "$" (bound_names CookieTests.fixture).
Proof.
  split; [intros f Hf; each_member Hf; reflexivity|].
  split; [simpl; tauto|]. split; [simpl; tauto|]. split; [simpl; tauto|].
  split; [reflexivity|]. split; [reflexivity|].
  split; [simpl; tauto|].
  simpl; intuition discriminate.
Qed.

(** ** Deciding the equality of types *)

Section ListEqb.

Context {A : Type} (eqb : A -> A -> bool).

Lemma list_eqb_eq (l l' : list A) :
  Forall (fun x => forall y, eqb x y = true -> x = y) l ->
  TyEq.list_eqb eqb l l' = true -> l = l'.
Proof.
  intros Hall. revert l'.
  induction Hall as [|x r Hx _ IH]; intros [|y r']; simpl; try discriminate.
  - reflexivity.
  - intros H. apply andb_true_iff in H as [Hxy Hr].
    now rewrite (Hx y Hxy), (IH r' Hr).
Qed.

End ListEqb.

Lemma pkind_eqb_eq (k k' : pkind) : TyEq.pkind_eqb k k' = true -> k = k'.
Proof. destruct k, k'; simpl; congruence. Qed.

Lemma member_eqb_eq (eqb : ty -> ty -> bool) (p q : string * pkind * ty) :
  (forall t, eqb (snd p) t = true -> snd p = t) ->
  TyEq.member_eqb eqb p q = true -> p = q.
Proof.
  destruct p as [[n k] t], q as [[n' k'] t']. unfold TyEq.member_eqb. simpl.
  intros Ht H.
  apply andb_true_iff in H as [H Hty].
  apply andb_true_iff in H as [Hn Hk].
  apply String.eqb_eq in Hn. apply pkind_eqb_eq in Hk. apply Ht in Hty.
  congruence.
Qed.

Lemma ty_eqb_eq : forall a b, TyEq.ty_eqb a b = true -> a = b.
Proof.
  fix F 1. intros a.
  assert (Hlist : forall l : list ty,
             (fix sub (l : list ty) : Prop :=
                match l with [] => True | x :: r => (forall y, TyEq.ty_eqb x y = true -> x = y) /\ sub r end) l ->
             Forall (fun x => forall y, TyEq.ty_eqb x y = true -> x = y) l).
  { induction l as [|x r IH]; simpl; intros H; constructor; tauto. }
  assert (Hmem : forall ms : list (string * pkind * ty),
             (fix sub (l : list (string * pkind * ty)) : Prop :=
                match l with [] => True | x :: r => (forall y, TyEq.ty_eqb (snd x) y = true -> snd x = y) /\ sub r end) ms ->
             Forall (fun p => forall q, TyEq.member_eqb TyEq.ty_eqb p q = true -> p = q) ms).
  { induction ms as [|x r IH]; simpl; intros H; constructor; try tauto.
    intros q. apply member_eqb_eq. tauto. }
  destruct a as [ | | | | | | | s | x | n l | l | l | t | ms | k v | ps r | ps r | t | x t];
    intros [ | | | | | | | s' | x' | n' l' | l' | l' | t' | ms' | k' v' | ps' r' | ps' r' | t' | x' t'];
    simpl; try discriminate; try reflexivity; intros H.
  - apply String.eqb_eq in H. now subst.
  - apply Bool.eqb_prop in H. now subst.
  - apply andb_true_iff in H as [Hn Hl]. apply String.eqb_eq in Hn. subst n'.
    f_equal. apply (list_eqb_eq TyEq.ty_eqb); trivial. apply Hlist.
    clear - F. induction l as [|x r IH]; simpl; [exact I | split; [apply F | exact IH]].
  - f_equal. apply (list_eqb_eq TyEq.ty_eqb); trivial. apply Hlist.
    clear - F. induction l as [|x r IH]; simpl; [exact I | split; [apply F | exact IH]].
  - f_equal. apply (list_eqb_eq TyEq.ty_eqb); trivial. apply Hlist.
    clear - F. induction l as [|x r IH]; simpl; [exact I | split; [apply F | exact IH]].
  - f_equal. now apply F.
  - f_equal. apply (list_eqb_eq (TyEq.member_eqb TyEq.ty_eqb)); trivial. apply Hmem.
    clear - F. induction ms as [|x r IH]; simpl; [exact I | split; [apply F | exact IH]].
  - apply andb_true_iff in H as [Hk Hv]. f_equal; now apply F.
  - apply andb_true_iff in H as [Hps Hr]. f_equal; [|now apply F].
    apply (list_eqb_eq (TyEq.member_eqb TyEq.ty_eqb)); trivial. apply Hmem.
    clear - F. induction ps as [|x q IH]; simpl; [exact I | split; [apply F | exact IH]].
  - apply andb_true_iff in H as [Hps Hr]. f_equal; [|now apply F].
    apply (list_eqb_eq (TyEq.member_eqb TyEq.ty_eqb)); trivial. apply Hmem.
    clear - F. induction ps as [|x q IH]; simpl; [exact I | split; [apply F | exact IH]].
  - f_equal. now apply F.
  - apply andb_true_iff in H as [Hx Ht]. apply String.eqb_eq in Hx. subst.
    f_equal. now apply F.
Qed.

Lemma list_eqb_refl {A : Type} (eqb : A -> A -> bool) (l : list A) :
  Forall (fun x => eqb x x = true) l -> TyEq.list_eqb eqb l l = true.
Proof.
  induction 1 as [|x r Hx _ IH]; simpl; [reflexivity|].
  now rewrite Hx, IH.
Qed.

Lemma ty_eqb_refl : forall a, TyEq.ty_eqb a a = true.
Proof.
  fix F 1. intros a.
  assert (Hlist : forall l : list ty,
             (fix sub (l : list ty) : Prop :=
                match l with [] => True | x :: r => TyEq.ty_eqb x x = true /\ sub r end) l ->
             TyEq.list_eqb TyEq.ty_eqb l l = true).
  { intros l Hl. apply list_eqb_refl.
    induction l as [|x r IH]; simpl in Hl; constructor; tauto. }
  assert (Hmem : forall ms : list (string * pkind * ty),
             (fix sub (l : list (string * pkind * ty)) : Prop :=
                match l with [] => True | x :: r => TyEq.ty_eqb (snd x) (snd x) = true /\ sub r end) ms ->
             TyEq.list_eqb (TyEq.member_eqb TyEq.ty_eqb) ms ms = true).
  { intros ms Hms. apply list_eqb_refl.
    induction ms as [|x r IH]; simpl in Hms; constructor; try tauto.
    unfold TyEq.member_eqb. rewrite String.eqb_refl.
    destruct Hms as [Hx _]. rewrite Hx.
    now destruct (snd (fst x)). }
  destruct a as [ | | | | | | | s | x | n l | l | l | t | ms | k v | ps r | ps r | t | x t];
    simpl; try reflexivity.
  - apply String.eqb_refl.
  - now destruct x.
  - rewrite String.eqb_refl. simpl. apply Hlist.
    clear - F. induction l as [|x r IH]; simpl; [exact I | split; [apply F | exact IH]].
  - apply Hlist.
    clear - F. induction l as [|x r IH]; simpl; [exact I | split; [apply F | exact IH]].
  - apply Hlist.
    clear - F. induction l as [|x r IH]; simpl; [exact I | split; [apply F | exact IH]].
  - apply F.
  - apply Hmem.
    clear - F. induction ms as [|x r IH]; simpl; [exact I | split; [apply F | exact IH]].
  - now rewrite !F.
  - rewrite F, andb_true_r. apply Hmem.
    clear - F. induction ps as [|x q IH]; simpl; [exact I | split; [apply F | exact IH]].
  - rewrite F, andb_true_r. apply Hmem.
    clear - F. induction ps as [|x q IH]; simpl; [exact I | split; [apply F | exact IH]].
  - apply F.
  - rewrite String.eqb_refl. simpl. apply F.
Qed.

(** * More of the declaration file *)

Import Resolve Tables.

Lemma is_prop_eq (o : option prop) (q : prop) :
  TyEq.is_prop o q = true -> o = Some q.
Proof.
  destruct o as [p|]; simpl; [|discriminate].
  intros H. f_equal. apply member_eqb_eq in H; trivial.
  intros t. apply ty_eqb_eq.
Qed.

Lemma prop_in (p : prop) (l : list prop) :
  existsb (TyEq.prop_eqb p) l = true -> In p l.
Proof.
  intros H. apply existsb_exists in H as (q & Hin & Heq).
  apply member_eqb_eq in Heq; [now subst | intros t; apply ty_eqb_eq].
Qed.

Lemma mem_in (n : string) (l : list string) : mem n l = true -> In n l.
Proof.
  unfold mem. intros H. apply existsb_exists in H as (m & Hin & Heq).
  apply String.eqb_eq in Heq. now subst.
Qed.

(** A statement about every element of a list that is given in full is
    proved element by element. *)
Ltac for_each tac :=
  refine (proj1 (Forall_forall _ _) _);
  repeat (apply Forall_cons; [tac|]);
  apply Forall_nil.

(** ** The top-level API *)

(** X1.  Every overload of [cloneElement], for DOM elements and for custom
    components alike, takes an element, optional [props] and the children,
    and returns the type of its element; that type is an element type, with
    the member [key: Key | null] of [ReactElement]. *)
Theorem cloneElement_returns_element_type (f : fundecl) :
  In f React.cloneElement ->
  exists t p,
    s_params (f_sig f) = [("element", Required, t); ("props", Optional, p); React.children] /\
    s_ret (f_sig f) = t /\
    prop_of E 6 t "key" = Some ("key", Required, TUnion [TRef "Key" []; TNull]).
Proof.
  revert f.
  for_each ltac:(do 2 eexists; split; [reflexivity | split; reflexivity]).
Qed.

Lemma cloneElement_returns_element_type_witness :
  let f := nth 1 React.cloneElement (Fun "" 0 Plain (Sig [] [] TAny) None) in
  f_line f = 263 /\ In f React.cloneElement /\
  s_ret (f_sig f) = TRef "ReactHTMLElement" [TRef "T" []].
Proof.
  intros f.
  assert (Hf : In f React.cloneElement) by (simpl; tauto).
  split; [reflexivity|]. split; [exact Hf|].
  destruct (cloneElement_returns_element_type f Hf) as (t & p & Hps & Hret & _).
  rewrite Hret. now inversion Hps.
Defined.

(** X2.  Calling the factory that [createFactory] returns for a type gives what
    [createElement] gives for that type: for each overload of
    [createFactory] and the overload of [createElement] with the same
    [type] parameter, the factory takes optional [props] and the children
    and returns the element type of [createElement], at the type parameters
    the factory fixes.  Its [props] are those of [createElement], except
    that the factories of DOM elements also take [null]; the type it is
    made for is the type, or one of the alternative types, that
    [createElement] takes. *)
Theorem factory_agrees_with_createElement
    (cf ce : fundecl) (sigma : list (string * ty)) :
  In (cf, ce, sigma) factory_pairs ->
  exists cprops fprops t u,
    param_type ce "props" = Some cprops /\
    call_of E 6 (s_ret (f_sig cf))
    = Some ([("props", Optional, fprops); React.children],
            subst sigma (s_ret (f_sig ce))) /\
    (fprops = subst sigma cprops \/ fprops = TUnion [subst sigma cprops; TNull]) /\
    param_type cf "type" = Some t /\ param_type ce "type" = Some u /\
    In t (union_parts u).
Proof.
  intros Hin. pattern cf, ce, sigma.
  match goal with
  | |- ?P cf ce sigma =>
      assert (H : forall x, In x factory_pairs ->
                            P (fst (fst x)) (snd (fst x)) (snd x))
  end.
  { for_each ltac:(do 4 eexists;
                   split; [reflexivity|]; split; [reflexivity|];
                   split; [(left; reflexivity) || (right; reflexivity)|];
                   split; [reflexivity|]; split; [reflexivity|];
                   simpl; auto). }
  exact (H _ Hin).
Qed.

Lemma factory_agrees_with_createElement_witness :
  let cf := nth 3 React.createFactory (Fun "" 0 Plain (Sig [] [] TAny) None) in
  let ce := nth 4 React.createElement (Fun "" 0 Plain (Sig [] [] TAny) None) in
  f_line cf = 200 /\ f_line ce = 234 /\ In (cf, ce, []) factory_pairs /\
  option_map snd (call_of E 6 (s_ret (f_sig cf))) = Some (s_ret (f_sig ce)).
Proof.
  intros cf ce.
  assert (Hin : In (cf, ce, []) factory_pairs) by (simpl; tauto).
  split; [reflexivity|]. split; [reflexivity|]. split; [exact Hin|].
  destruct (factory_agrees_with_createElement cf ce [] Hin)
    as (cprops & fprops & t & u & _ & Hcall & _).
  rewrite Hcall. reflexivity.
Defined.

(** X3.  Every overload of [createElement] takes optional [props] that may
    carry a [key]; they may carry a [ref] in every overload but the two
    whose type can be a stateless function component (lines 234 and 249).
    The properties [P] of the element are taken to be empty here. *)
Theorem createElement_props_key_and_ref (f : fundecl) :
  In f React.createElement ->
  exists t,
    find_prop (s_params (f_sig f)) "props" = Some ("props", Optional, t) /\
    prop_of E 8 (subst [("P", TObj [])] t) "key"
    = Some ("key", Optional, TUnion [TRef "Key" []; TUndefined]) /\
    (if mem "ClassAttributes" (type_refs t)
     then exists r, prop_of E 8 (subst [("P", TObj [])] t) "ref"
                    = Some ("ref", Optional, TUnion [TRef "Ref" [r]; TUndefined])
     else prop_of E 8 (subst [("P", TObj [])] t) "ref" = None
          /\ In (f_line f) [234; 249]).
Proof.
  revert f.
  for_each ltac:(eexists; split; [reflexivity|]; split; [vm_compute; reflexivity|];
                 cbn [mem type_refs existsb flat_map app String.eqb Ascii.eqb Bool.eqb orb];
                 first [ eexists; vm_compute; reflexivity
                       | split; [vm_compute; reflexivity | simpl; tauto] ]).
Qed.

Lemma createElement_props_key_and_ref_witness :
  let f := nth 4 React.createElement (Fun "" 0 Plain (Sig [] [] TAny) None) in
  f_line f = 234 /\ In f React.createElement /\
  exists t,
    find_prop (s_params (f_sig f)) "props" = Some ("props", Optional, t) /\
    prop_of E 8 (subst [("P", TObj [])] t) "key"
    = Some ("key", Optional, TUnion [TRef "Key" []; TUndefined]).
Proof.
  intros f.
  assert (Hf : In f React.createElement) by (simpl; tauto).
  split; [reflexivity|]. split; [exact Hf|].
  destruct (createElement_props_key_and_ref f Hf) as (t & Hp & Hkey & _).
  exists t. split; assumption.
Defined.

(** X4.  The element that an overload of [createElement] returns has a member
    [ref] exactly if the [props] of the overload may carry one: the ref of
    a DOM element is required, that of a component element optional, and
    the elements of the two overloads for stateless function components
    have none. *)
Theorem createElement_ref_matches_element (f : fundecl) :
  In f React.createElement ->
  exists t,
    find_prop (s_params (f_sig f)) "props" = Some ("props", Optional, t) /\
    match prop_of E 8 (subst [("P", TObj [])] t) "ref",
          prop_of E 8 (s_ret (f_sig f)) "ref" with
    | Some _, Some r =>
        prop_kind r = match ref_name (s_ret (f_sig f)) with
                      | Some "CElement" => Optional
                      | _ => Required
                      end
    | None, None => In (f_line f) [234; 249]
    | _, _ => False
    end.
Proof.
  revert f.
  for_each ltac:(eexists; split; [reflexivity|]; vm_compute;
                 first [reflexivity | tauto]).
Qed.

Lemma createElement_ref_matches_element_witness :
  let f := nth 3 React.createElement (Fun "" 0 Plain (Sig [] [] TAny) None) in
  f_line f = 227 /\ In f React.createElement /\
  prop_of E 8 (s_ret (f_sig f)) "ref" = Some ("ref", Required, TRef "Ref" [TRef "T" []]).
Proof.
  intros f.
  assert (Hf : In f React.createElement) by (simpl; tauto).
  split; [reflexivity|]. split; [exact Hf|].
  destruct (createElement_ref_matches_element f Hf) as (t & _ & _).
  reflexivity.
Defined.

(** X5.  Whatever can be a child is a [ReactNode]: every string, number and
    boolean, [null], [undefined] and every [ReactElement].  A [Key] and a
    [ReactText] are the same values, the strings and the numbers. *)
Theorem react_node_admits_children :
  (forall v,
     (exists s, v = VStr s) \/ (exists n, v = VNum n) \/ (exists b, v = VBool b)
     \/ v = VNull \/ v = VUndefined \/ (exists fields, v = VObj "ReactElement" fields) ->
     has_type React.aliases 7 v (TRef "ReactNode" []) = true) /\
  (forall fuel v,
     has_type React.aliases fuel v (TRef "Key" [])
     = has_type React.aliases fuel v (TRef "ReactText" [])) /\
  (forall fuel v,
     has_type React.aliases fuel v (TRef "ReactText" []) = true ->
     (exists s, v = VStr s) \/ (exists n, v = VNum n)).
Proof.
  split; [|split].
  - intros v [[s ->] | [[n ->] | [[b ->] | [-> | [-> | [fields ->]]]]]]; reflexivity.
  - intros fuel v. destruct fuel as [|fuel]; [reflexivity|].
    rewrite (@has_type_alias React.aliases fuel v "Key" [] React.Key) by reflexivity.
    rewrite (@has_type_alias React.aliases fuel v "ReactText" [] React.ReactText)
      by reflexivity.
    reflexivity.
  - intros fuel v Hv. destruct fuel as [|fuel]; [discriminate|].
    rewrite (@has_type_alias React.aliases fuel v "ReactText" [] React.ReactText) in Hv
      by reflexivity.
    destruct fuel as [|fuel]; [discriminate|].
    simpl a_body in Hv. rewrite has_type_union in Hv. simpl in Hv.
    rewrite orb_false_r in Hv.
    apply orb_true_iff in Hv as [Hs | Hn].
    + left. now apply has_type_string_inv with React.aliases fuel.
    + right. now apply has_type_number_inv with React.aliases fuel.
Qed.

(** ** Events *)

(** X6.  Every event interface has the members of [SyntheticEvent] as
    [SyntheticEvent] declares them, at its own target type; only
    [nativeEvent] and [target] are declared again by some. *)
Theorem events_inherit_synthetic_event (i : iface) (A : ty) (p : prop) :
  In i Events.events -> In p (i_members Events.SyntheticEvent) ->
  prop_name p <> "nativeEvent" -> prop_name p <> "target" ->
  prop_of E 4 (TRef (i_name i) [A]) (prop_name p) = Some (subst_prop [("T", A)] p).
Proof.
  intros Hi Hp Hnative Htarget.
  revert p Hp Hnative Htarget. revert i Hi.
  for_each ltac:(for_each ltac:(intros; try reflexivity; exfalso; auto)).
Qed.

Lemma events_inherit_synthetic_event_witness :
  In Events.WheelEvent Events.events /\
  prop_of E 4 (TRef "WheelEvent" [TRef "HTMLDivElement" []]) "currentTarget"
  = Some ("currentTarget", Required,
          TInter [TRef "EventTarget" []; TRef "HTMLDivElement" []]).
Proof.
  split; [simpl; tauto|].
  apply (events_inherit_synthetic_event Events.WheelEvent (TRef "HTMLDivElement" [])
           ("currentTarget", Required, TInter [TRef "EventTarget" []; TRef "T" []]));
    [simpl; tauto | simpl; tauto | discriminate | discriminate].
Defined.

(** X7.  The member [nativeEvent] of an event interface is the event of the
    host runtime of the same name, through the alias [Native...] declared
    for it outside the namespace; [SyntheticEvent] and the three form
    events, which have no such alias, keep the plain [Event]. *)
Theorem events_native_event (i : iface) (A : ty) :
  In i Events.events ->
  exists t,
    prop_of E 4 (TRef (i_name i) [A]) "nativeEvent" = Some ("nativeEvent", Required, t) /\
    ((t = TRef ("Native" ++ i_name i) [] /\
      find_alias Events.natives ("Native" ++ i_name i)
      = Some (Alias ("Native" ++ i_name i) [] (TRef (i_name i) [])))
     \/ (t = TRef "Event" [] /\
         find_alias Events.natives ("Native" ++ i_name i) = None /\
         In (i_name i) ["SyntheticEvent"; "FormEvent"; "InvalidEvent"; "ChangeEvent"])).
Proof.
  revert i.
  for_each ltac:(eexists; split; [reflexivity|];
                 first [ left; split; reflexivity
                       | right; split; [reflexivity|]; split; [reflexivity|];
                         simpl; tauto ]).
Qed.

Lemma events_native_event_witness :
  In Events.DragEvent Events.events /\
  prop_of E 4 (TRef "DragEvent" [TAny]) "nativeEvent"
  = Some ("nativeEvent", Required, TRef "NativeDragEvent" []).
Proof.
  split; [simpl; tauto|].
  destruct (events_native_event Events.DragEvent TAny) as (t & Hn & [[-> _] | [_ [Hnone _]]]).
  - simpl; tauto.
  - exact Hn.
  - discriminate Hnone.
Defined.

(** X8.  The member [currentTarget] of every event is the element the handler
    is attached to, [EventTarget & T]; the member [target] is a plain
    [EventTarget], except for [ChangeEvent] and [InvalidEvent], where it is
    that element too. *)
Theorem events_target (i : iface) (A : ty) :
  In i Events.events ->
  prop_of E 4 (TRef (i_name i) [A]) "currentTarget"
  = Some ("currentTarget", Required, TInter [TRef "EventTarget" []; A]) /\
  prop_of E 4 (TRef (i_name i) [A]) "target"
  = Some ("target", Required,
          if mem (i_name i) ["InvalidEvent"; "ChangeEvent"]
          then TInter [TRef "EventTarget" []; A]
          else TRef "EventTarget" []).
Proof.
  revert i. for_each ltac:(split; reflexivity).
Qed.

Lemma events_target_witness :
  In Events.ChangeEvent Events.events /\
  prop_of E 4 (TRef "ChangeEvent" [TRef "HTMLInputElement" []]) "target"
  = Some ("target", Required,
          TInter [TRef "EventTarget" []; TRef "HTMLInputElement" []]).
Proof.
  split; [simpl; tauto|].
  apply (events_target Events.ChangeEvent (TRef "HTMLInputElement" [])).
  simpl; tauto.
Defined.

(** X9.  The events of the keyboard, the mouse (with drag and wheel) and touch
    tell the state of the modifier keys: they have [getModifierState],
    which takes a [ModifierKey], and the four flags [altKey], [ctrlKey],
    [metaKey] and [shiftKey]; no other event has any of the five. *)
Theorem events_modifier_state (i : iface) (A : ty) :
  In i Events.events ->
  if mem (i_name i) modifier_events
  then prop_of E 4 (TRef (i_name i) [A]) "getModifierState"
       = Some ("getModifierState", Required,
               TFun [("key", Required, TRef "ModifierKey" [])] TBoolean)
       /\ forall k, In k modifier_members ->
                    prop_of E 4 (TRef (i_name i) [A]) k = Some (k, Required, TBoolean)
  else forall k, In k ("getModifierState" :: modifier_members) ->
                 prop_of E 4 (TRef (i_name i) [A]) k = None.
Proof.
  revert i.
  for_each ltac:(cbn [mem existsb modifier_events i_name];
                 first [ split; [reflexivity|]; for_each ltac:(reflexivity)
                       | for_each ltac:(reflexivity) ]).
Qed.

Lemma events_modifier_state_witness :
  In Events.WheelEvent Events.events /\
  prop_of E 4 (TRef "WheelEvent" [TAny]) "shiftKey" = Some ("shiftKey", Required, TBoolean).
Proof.
  split; [simpl; tauto|].
  assert (H := events_modifier_state Events.WheelEvent TAny).
  simpl mem in H. apply H; simpl; tauto.
Defined.

(** ** Event handlers *)

(** X10.  Every event handler property of [DOMAttributes] is optional and comes
    in a pair: [onX] and [onXCapture] have the same handler type.  The
    exceptions are [onMouseEnter] and [onMouseLeave], which have no
    [Capture] form. *)
Theorem handlers_come_with_capture (p : prop) :
  In p dom -> is_handler (prop_name p) = true ->
  prop_kind p = Optional /\
  if is_capture (prop_name p)
  then find_prop dom (capture_base (prop_name p))
       = Some (capture_base (prop_name p), Optional, prop_type p)
  else if mem (prop_name p) ["onMouseEnter"; "onMouseLeave"]
       then has_prop dom (prop_name p ++ "Capture") = false
       else find_prop dom (prop_name p ++ "Capture")
            = Some (prop_name p ++ "Capture", Optional, prop_type p).
Proof.
  revert p.
  for_each ltac:(intros Hon; first [discriminate Hon | split; vm_compute; reflexivity]).
Qed.

Lemma handlers_come_with_capture_witness :
  In ("onClick", Optional, TUnion [TRef "MouseEventHandler" [TRef "T" []]; TUndefined]) dom /\
  find_prop dom "onClickCapture"
  = Some ("onClickCapture", Optional,
          TUnion [TRef "MouseEventHandler" [TRef "T" []]; TUndefined]).
Proof.
  assert (Hin : In ("onClick", Optional,
                    TUnion [TRef "MouseEventHandler" [TRef "T" []]; TUndefined]) dom)
    by (apply prop_in; vm_compute; reflexivity).
  split; [exact Hin|].
  exact (proj2 (handlers_come_with_capture _ Hin eq_refl)).
Defined.

(** X11.  Every event handler property of [DOMAttributes] has one of the
    declared handler types at the element [T]; the event such a handler
    receives is an event interface that is or extends [SyntheticEvent], so
    that every handler can call [preventDefault], [stopPropagation] and
    [persist].  No property of [DOMAttributes] takes a
    [ChangeEventHandler]. *)
Theorem handlers_receive_synthetic_events (p : prop) :
  In p dom -> is_handler (prop_name p) = true ->
  exists h e,
    prop_type p = TUnion [TRef h [TRef "T" []]; TUndefined] /\
    h <> "ChangeEventHandler" /\
    handler_event E (TRef h [TRef "T" []]) = Some (TRef e [TRef "T" []]) /\
    (e = "SyntheticEvent" \/ In "SyntheticEvent" (ancestors E 3 e)) /\
    forall m, In m ["preventDefault"; "stopPropagation"; "persist"] ->
              prop_of E 4 (TRef e [TRef "T" []]) m = Some (m, Required, TFun [] TVoid).
Proof.
  revert p.
  for_each ltac:(intros Hon;
                 first [ discriminate Hon
                       | do 2 eexists; split; [reflexivity|]; split; [discriminate|];
                         split; [reflexivity|];
                         split; [(left; reflexivity) || (right; simpl; tauto)|];
                         for_each ltac:(reflexivity) ]).
Qed.

Lemma handlers_receive_synthetic_events_witness :
  In ("onWheel", Optional, TUnion [TRef "WheelEventHandler" [TRef "T" []]; TUndefined]) dom /\
  handler_event E (TRef "WheelEventHandler" [TRef "T" []])
  = Some (TRef "WheelEvent" [TRef "T" []]).
Proof.
  assert (Hin : In ("onWheel", Optional,
                    TUnion [TRef "WheelEventHandler" [TRef "T" []]; TUndefined]) dom)
    by (apply prop_in; vm_compute; reflexivity).
  split; [exact Hin|].
  destruct (handlers_receive_synthetic_events _ Hin eq_refl)
    as (h & e & Hty & _ & Hev & _).
  injection Hty as <-. reflexivity.
Defined.

(** ** Attributes of elements *)

(** X12.  No interface of attributes declares a member of [DOMAttributes]
    again, [onChange] apart: each one that inherits from [DOMAttributes]
    has every other member exactly as [DOMAttributes] declares it. *)
Theorem attributes_keep_dom_members (i : iface) (q : prop) :
  In i dom_attribute_interfaces -> In q dom -> prop_name q <> "onChange" ->
  prop_of E 6 (TRef (i_name i) [TRef "T" []]) (prop_name q) = Some q.
Proof.
  intros Hi Hq Hname.
  assert (Hall : forallb keeps_dom_members dom_attribute_interfaces = true)
    by (vm_compute; reflexivity).
  rewrite forallb_forall in Hall. specialize (Hall i Hi).
  unfold keeps_dom_members in Hall.
  rewrite forallb_forall in Hall. specialize (Hall q Hq).
  apply orb_true_iff in Hall as [Hchange | Hsame].
  - apply String.eqb_eq in Hchange. contradiction.
  - now apply is_prop_eq.
Qed.

Lemma attributes_keep_dom_members_witness :
  In Attributes.WebViewHTMLAttributes dom_attribute_interfaces /\
  prop_of E 6 (TRef "WebViewHTMLAttributes" [TRef "T" []]) "onKeyDown"
  = Some ("onKeyDown", Optional,
          TUnion [TRef "KeyboardEventHandler" [TRef "T" []]; TUndefined]).
Proof.
  assert (Hi : In Attributes.WebViewHTMLAttributes dom_attribute_interfaces)
    by (vm_compute; left; reflexivity).
  split; [exact Hi|].
  apply (attributes_keep_dom_members Attributes.WebViewHTMLAttributes
           ("onKeyDown", Optional,
            TUnion [TRef "KeyboardEventHandler" [TRef "T" []]; TUndefined]) Hi);
    [apply prop_in; vm_compute; reflexivity | discriminate].
Defined.

(** X13.  Every attribute is optional: no interface of props or attributes has
    a required member, own or inherited, whatever the element. *)
Theorem attributes_are_optional (A : ty) (i : iface) (p : prop) :
  In i Attributes.interfaces -> In p (props_of E 6 (TRef (i_name i) [A])) ->
  prop_kind p = Optional.
Proof.
  intros Hi Hp.
  assert (Hall : forallb
                   (fun i => forallb (fun p => is_optional (prop_kind p))
                               (props_of E 6 (TRef (i_name i) [A])))
                   Attributes.interfaces = true)
    by (vm_compute; reflexivity).
  rewrite forallb_forall in Hall. specialize (Hall i Hi).
  rewrite forallb_forall in Hall. specialize (Hall p Hp).
  now destruct (prop_kind p).
Qed.

Lemma attributes_are_optional_witness :
  In Attributes.HTMLProps Attributes.interfaces /\
  In ("ref", Optional, TUnion [TRef "Ref" [TAny]; TUndefined])
     (props_of E 6 (TRef "HTMLProps" [TAny])) /\
  prop_kind ("ref", Optional, TUnion [TRef "Ref" [TAny]; TUndefined]) = Optional.
Proof.
  assert (Hi : In Attributes.HTMLProps Attributes.interfaces) by (simpl; tauto).
  assert (Hp : In ("ref", Optional, TUnion [TRef "Ref" [TAny]; TUndefined])
                  (props_of E 6 (TRef "HTMLProps" [TAny])))
    by (apply prop_in; vm_compute; reflexivity).
  split; [exact Hi|]. split; [exact Hp|].
  exact (attributes_are_optional TAny Attributes.HTMLProps _ Hi Hp).
Defined.

(** X14.  [AllHTMLAttributes] gathers the attributes of the particular
    elements: it has every attribute of every such interface, own or
    inherited, with the same type, apart from the nine listed in
    [uncovered], which it lacks or types otherwise ([onChange]); and each
    of its own members is declared by the interface of some element. *)
Theorem all_html_attributes_cover (i : iface) (p : prop) :
  In i Attributes.element_attributes ->
  In p (props_of E 6 (TRef (i_name i) [TRef "T" []])) ->
  (is_uncovered (i_name i) (prop_name p) = false ->
   prop_of E 6 (TRef "AllHTMLAttributes" [TRef "T" []]) (prop_name p) = Some p) /\
  (is_uncovered (i_name i) (prop_name p) = true ->
   prop_of E 6 (TRef "AllHTMLAttributes" [TRef "T" []]) (prop_name p) <> Some p) /\
  all_from_elements = true.
Proof.
  intros Hi Hp.
  assert (Hall : forallb covered_by_all Attributes.element_attributes = true)
    by (vm_compute; reflexivity).
  rewrite forallb_forall in Hall. specialize (Hall i Hi).
  unfold covered_by_all in Hall.
  rewrite forallb_forall in Hall. specialize (Hall p Hp).
  apply Bool.eqb_prop in Hall.
  split; [|split; [|vm_compute; reflexivity]].
  - intros Hun. rewrite Hun in Hall. now apply is_prop_eq.
  - intros Hun Hsome. rewrite Hun in Hall. unfold prop_of in Hsome.
    rewrite Hsome in Hall. simpl in Hall.
    assert (Hrefl : TyEq.prop_eqb p p = true).
    { clear. unfold TyEq.prop_eqb, TyEq.member_eqb.
      rewrite String.eqb_refl.
      assert (Hk : TyEq.pkind_eqb (snd (fst p)) (snd (fst p)) = true)
        by now destruct (snd (fst p)).
      rewrite Hk. simpl. apply ty_eqb_refl. }
    congruence.
Qed.

Lemma all_html_attributes_cover_witness :
  let p := ("href", Optional, TUnion [TString; TUndefined]) in
  In Attributes.AnchorHTMLAttributes Attributes.element_attributes /\
  In p (props_of E 6 (TRef "AnchorHTMLAttributes" [TRef "T" []])) /\
  prop_of E 6 (TRef "AllHTMLAttributes" [TRef "T" []]) "href" = Some p.
Proof.
  intros p.
  assert (Hi : In Attributes.AnchorHTMLAttributes Attributes.element_attributes)
    by (left; reflexivity).
  assert (Hp : In p (props_of E 6 (TRef "AnchorHTMLAttributes" [TRef "T" []])))
    by (apply prop_in; vm_compute; reflexivity).
  split; [exact Hi|]. split; [exact Hp|].
  exact (proj1 (all_html_attributes_cover Attributes.AnchorHTMLAttributes p Hi Hp)
           eq_refl).
Defined.

(** X15.  For every tag of [ReactHTML], the attributes of the tag type
    [onChange] by what the tag is: for [input], [select] and [textarea] it
    is a [ChangeEventHandler], whose event has the element itself as
    [target]; for every other tag it is the [FormEventHandler] of
    [DOMAttributes], whose event has a plain [EventTarget]. *)
Theorem onChange_by_tag (p : prop) :
  In p (i_members Tags.ReactHTML) ->
  exists A d,
    ref_args (prop_type p) = [A; elem_arg (prop_type p)] /\ ref_args A = [d] /\
    let h := if mem (prop_name p) change_tags
             then "ChangeEventHandler" else "FormEventHandler" in
    prop_of E 6 A "onChange"
    = Some ("onChange", Optional, TUnion [TRef h [d]; TUndefined]) /\
    exists ev,
      handler_event E (TRef h [d]) = Some ev /\
      prop_of E 4 ev "target"
      = Some ("target", Required,
              if mem (prop_name p) change_tags
              then TInter [TRef "EventTarget" []; d]
              else TRef "EventTarget" []).
Proof.
  revert p.
  for_each ltac:(do 2 eexists; split; [reflexivity|]; split; [reflexivity|];
                 split; [vm_compute; reflexivity|];
                 eexists; split; [reflexivity | vm_compute; reflexivity]).
Qed.

Lemma onChange_by_tag_witness :
  let p := ("textarea", Required,
            TRef "DetailedHTMLFactory"
              [TRef "TextareaHTMLAttributes" [TRef "HTMLTextAreaElement" []];
               TRef "HTMLTextAreaElement" []]) in
  In p (i_members Tags.ReactHTML) /\
  prop_of E 6 (TRef "TextareaHTMLAttributes" [TRef "HTMLTextAreaElement" []]) "onChange"
  = Some ("onChange", Optional,
          TUnion [TRef "ChangeEventHandler" [TRef "HTMLTextAreaElement" []]; TUndefined]).
Proof.
  intros p.
  assert (Hin : In p (i_members Tags.ReactHTML)) by (apply prop_in; vm_compute; reflexivity).
  split; [exact Hin|].
  destruct (onChange_by_tag p Hin) as (A & d & HA & Hd & Hchange & _).
  injection HA as <-. injection Hd as <-. exact Hchange.
Defined.

(** ** The tables of tags *)

(** X16.  Every tag of [ReactHTML] is a required factory
    [DetailedHTMLFactory<A, E>] and an intrinsic element of JSX.  Its
    intrinsic props are [DetailedHTMLProps<A, E>] with the same attributes
    and element, and the attributes are those of the element, [A = X<E>],
    with two exceptions: [head], whose factory has the attributes of a
    plain [HTMLElement] and whose intrinsic props have those of the
    [HTMLHeadElement]; and [template], whose intrinsic entry is the factory
    type itself. *)
Theorem html_tags_are_intrinsic (p : prop) :
  In p (i_members Tags.ReactHTML) ->
  exists A el,
    p = (prop_name p, Required, TRef "DetailedHTMLFactory" [A; el]) /\
    find_prop (i_members Tags.JSX_IntrinsicElements) (prop_name p)
    = Some (prop_name p, Required,
            if String.eqb (prop_name p) "head"
            then TRef "DetailedHTMLProps" [TRef "HTMLAttributes" [el]; el]
            else if String.eqb (prop_name p) "template"
                 then TRef "DetailedHTMLFactory" [A; el]
                 else TRef "DetailedHTMLProps" [A; el]) /\
    if String.eqb (prop_name p) "head"
    then A = TRef "HTMLAttributes" [TRef "HTMLElement" []]
         /\ el = TRef "HTMLHeadElement" []
    else ref_args A = [el].
Proof.
  revert p.
  for_each ltac:(do 2 eexists; split; [reflexivity|]; split; [vm_compute; reflexivity|];
                 vm_compute; first [reflexivity | split; reflexivity]).
Qed.

Lemma html_tags_are_intrinsic_witness :
  let p := ("a", Required,
            TRef "DetailedHTMLFactory"
              [TRef "AnchorHTMLAttributes" [TRef "HTMLAnchorElement" []];
               TRef "HTMLAnchorElement" []]) in
  In p (i_members Tags.ReactHTML) /\
  find_prop (i_members Tags.JSX_IntrinsicElements) "a"
  = Some ("a", Required,
          TRef "DetailedHTMLProps"
            [TRef "AnchorHTMLAttributes" [TRef "HTMLAnchorElement" []];
             TRef "HTMLAnchorElement" []]).
Proof.
  intros p.
  assert (Hin : In p (i_members Tags.ReactHTML))
    by (apply prop_in; vm_compute; reflexivity).
  split; [exact Hin|].
  destruct (html_tags_are_intrinsic p Hin) as (A & el & Hp & Hintr & _).
  injection Hp as <- <-. exact Hintr.
Defined.

(** X17.  Every tag of [ReactSVG] is an [SVGFactory], is no tag of [ReactHTML],
    and is an intrinsic element of JSX whose props are [SVGProps] or extend
    them.  [ReactDOM], which extends both tables, has the tags of
    [ReactHTML] followed by those of [ReactSVG]. *)
Theorem svg_tags_are_intrinsic :
  (forall p, In p (i_members Tags.ReactSVG) ->
     p = (prop_name p, Required, TRef "SVGFactory" []) /\
     has_prop (i_members Tags.ReactHTML) (prop_name p) = false /\
     exists n el,
       find_prop (i_members Tags.JSX_IntrinsicElements) (prop_name p)
       = Some (prop_name p, Required, TRef n [el]) /\
       (n = "SVGProps" \/ In "SVGProps" (ancestors E 2 n))) /\
  props_of E 3 (TRef "ReactDOM" [])
  = (i_members Tags.ReactHTML ++ i_members Tags.ReactSVG)%list.
Proof.
  split.
  - for_each ltac:(split; [reflexivity|]; split; [vm_compute; reflexivity|];
                   do 2 eexists; split; [vm_compute; reflexivity|];
                   (left; reflexivity) || (right; simpl; tauto)).
  - vm_compute. reflexivity.
Qed.

(** X18.  The props of every intrinsic element of JSX may carry a [key] and a
    [ref] to the element the tag stands for.  The entry [template] is the
    exception: being a factory type, it has no member at all. *)
Theorem intrinsic_elements_take_key_and_ref (p : prop) :
  In p (i_members Tags.JSX_IntrinsicElements) ->
  if String.eqb (prop_name p) "template"
  then props_of E 8 (prop_type p) = []
  else prop_of E 8 (prop_type p) "key"
       = Some ("key", Optional, TUnion [TRef "Key" []; TUndefined])
       /\ prop_of E 8 (prop_type p) "ref"
          = Some ("ref", Optional,
                  TUnion [TRef "Ref" [elem_arg (prop_type p)]; TUndefined]).
Proof.
  revert p.
  for_each ltac:(vm_compute; first [reflexivity | split; reflexivity]).
Qed.

Lemma intrinsic_elements_take_key_and_ref_witness :
  let p := ("circle", Required, TRef "SVGProps" [TRef "SVGCircleElement" []]) in
  In p (i_members Tags.JSX_IntrinsicElements) /\
  prop_of E 8 (prop_type p) "ref"
  = Some ("ref", Optional, TUnion [TRef "Ref" [TRef "SVGCircleElement" []]; TUndefined]).
Proof.
  intros p.
  assert (Hin : In p (i_members Tags.JSX_IntrinsicElements)) by (apply prop_in; vm_compute; reflexivity).
  split; [exact Hin|].
  exact (proj2 (intrinsic_elements_take_key_and_ref p Hin)).
Defined.

(** ** Components *)

(** X19.  A specification given to [createClass] has to define [render] and
    nothing else.  A component, whose type the class [Component] and the
    interface of its name declare together, has the four properties and
    the three methods of the class as required members; a pure component
    has the members of a component and no other; a classic component has,
    besides those of a component, the required [replaceState] and
    [isMounted].  The seven lifecycle methods are optional members of a
    specification, of a mixin and of the three kinds of component,
    inherited from [ComponentLifecycle] as it declares them. *)
Theorem lifecycle_is_optional (P S : ty) :
  let required := fun t =>
    map prop_name
      (filter (fun p => negb (is_optional (prop_kind p))) (props_of E 4 t)) in
  filter (fun p => negb (is_optional (prop_kind p)))
    (props_of E 4 (TRef "ComponentSpec" [P; S]))
  = [("render", Required, TFun [] (TUnion [TRef "ReactElement" []; TNull]))] /\
  required (TRef "Component" [P; S])
  = map prop_name (class_members React.Component) /\
  map prop_name (class_members React.Component)
  = ["props"; "state"; "context"; "refs"; "setState"; "forceUpdate"; "render"] /\
  props_of E 4 (TRef "PureComponent" [P; S])
  = props_of E 4 (TRef "Component" [P; S]) /\
  required (TRef "ClassicComponent" [P; S])
  = (["replaceState"; "isMounted"] ++ required (TRef "Component" [P; S]))%list /\
  length (i_members Lifecycle.ComponentLifecycle) = 7 /\
  forall p n,
    In p (i_members Lifecycle.ComponentLifecycle) ->
    In n ["ComponentLifecycle"; "Mixin"; "ComponentSpec"; "ClassicComponent";
          "Component"; "PureComponent"] ->
    prop_kind p = Optional /\
    prop_of E 4 (TRef n [P; S]) (prop_name p) = Some (subst_prop [("P", P); ("S", S)] p).
Proof.
  intros required.
  split; [reflexivity|]. split; [reflexivity|]. split; [reflexivity|].
  split; [reflexivity|]. split; [reflexivity|]. split; [reflexivity|].
  intros p n Hp. revert n. revert p Hp.
  for_each ltac:(for_each ltac:(split; reflexivity)).
Qed.

(** X20.  What a stateless component returns and what [render] of a [createClass]
    specification returns is [ReactElement | null]: an element or [null],
    never [false]; [render] of the class [Component] and of a
    [JSX.ElementClass] may return [false] as well. *)
Theorem render_results :
  let element_or_null := TUnion [TRef "ReactElement" []; TNull] in
  (forall P, option_map snd (call_of E 4 (TRef "SFC" [P])) = Some element_or_null) /\
  (forall P S, prop_of E 4 (TRef "ComponentSpec" [P; S]) "render"
               = Some ("render", Required, TFun [] element_or_null)) /\
  (forall fuel v,
     has_type React.aliases fuel v element_or_null = true ->
     v = VNull \/ exists fields, v = VObj "ReactElement" fields) /\
  (forall fuel, has_type React.aliases fuel (VBool false) element_or_null = false) /\
  has_type React.aliases 2 VNull element_or_null = true /\
  (exists r, method React.Component "render" = Some r /\
             has_type React.aliases 2 (VBool false) (s_ret (f_sig r)) = true) /\
  (exists t, prop_of E 3 (TRef "JSX.ElementClass" []) "render"
             = Some ("render", Required, TFun [] t) /\
             has_type React.aliases 2 (VBool false) t = true).
Proof.
  intros element_or_null.
  split; [reflexivity|]. split; [reflexivity|].
  assert (Hinv : forall fuel v,
             has_type React.aliases fuel v element_or_null = true ->
             v = VNull \/ exists fields, v = VObj "ReactElement" fields).
  { intros fuel v Hv.
    destruct fuel as [|fuel]; [discriminate|].
    unfold element_or_null in Hv. rewrite has_type_union in Hv. simpl in Hv.
    rewrite orb_false_r in Hv.
    apply orb_true_iff in Hv as [Hel | Hnull].
    - right. destruct fuel as [|fuel]; [discriminate|].
      simpl in Hel. destruct v as [| | | | |c fields]; try discriminate.
      apply String.eqb_eq in Hel. subst c. now exists fields.
    - left. now apply has_type_null_inv with React.aliases fuel. }
  split; [exact Hinv|]. split.
  - intros fuel. apply not_true_is_false. intros H.
    destruct (Hinv fuel _ H) as [Hn | [fields Hf]]; discriminate.
  - split; [reflexivity|]. split; eexists; split; reflexivity.
Qed.

(** X21.  Every validator of [React.PropTypes], whether a property or the
    result of one of its functions, is a [Requireable<any>] and so has the
    member [isRequired], a [Validator<any>]. *)
Theorem proptypes_have_isRequired (p : prop) :
  In p (i_members PropTypes.ReactPropTypes) ->
  validator_of (prop_type p) = TRef "Requireable" [TAny] /\
  prop_of E 3 (validator_of (prop_type p)) "isRequired"
  = Some ("isRequired", Required, TRef "Validator" [TAny]).
Proof.
  revert p. for_each ltac:(split; reflexivity).
Qed.

Lemma proptypes_have_isRequired_witness :
  let p := ("arrayOf", Required,
            TFun [("type", Required, TRef "Validator" [TAny])]
                 (TRef "Requireable" [TAny])) in
  In p (i_members PropTypes.ReactPropTypes) /\
  validator_of (prop_type p) = TRef "Requireable" [TAny].
Proof.
  intros p.
  assert (Hin : In p (i_members PropTypes.ReactPropTypes))
    by (apply prop_in; vm_compute; reflexivity).
  split; [exact Hin|].
  exact (proj1 (proptypes_have_isRequired p Hin)).
Defined.

(** X22.  The interfaces of the namespace [JSX] take their members from the
    declarations of [React]: every JSX element may carry a [key], every
    element of a class a [ref] to its instance as well, and a [JSX.Element]
    is a [ReactElement] with properties of any type. *)
Theorem jsx_interfaces_follow_react :
  props_of E 3 (TRef "JSX.IntrinsicAttributes" []) = i_members React.Attributes /\
  (forall A,
     props_of E 3 (TRef "JSX.IntrinsicClassAttributes" [A])
     = [("ref", Optional, TUnion [TRef "Ref" [A]; TUndefined]);
        ("key", Optional, TUnion [TRef "Key" []; TUndefined])]) /\
  props_of E 3 (TRef "JSX.Element" [])
  = map (subst_prop [("P", TAny)]) (i_members React.ReactElement).
Proof.
  repeat split; reflexivity.
Qed.

(** ** The constructor of the cookie fixture *)

(** X23.  Given arguments of the types of its parameters, the constructor of
    [TestObject] returns an object that has exactly the declared
    properties of the class, in their order, each with a value of its
    declared type. *)
Theorem constructor_initialises_declared_fields (argv : list value) :
  (exists k, method CookieTests.TestObject "constructor" = Some k /\
             Forall2 (fun v q => has_type [] 1 v (prop_type q) = true)
               argv (s_params (f_sig k))) ->
  exists fields,
    construct CookieTests.TestObject argv = Some (VObj "TestObject" fields) /\
    map fst fields = map prop_name (c_props CookieTests.TestObject) /\
    Forall2 (fun f q => has_type [] 1 (snd f) (prop_type q) = true)
      fields (c_props CookieTests.TestObject).
Proof.
  intros (k & Hk & Hargs).
  injection Hk as <-. simpl in Hargs.
  inversion Hargs as [|v1 q1 r1 l1 Hv1 Hrest]; subst.
  inversion Hrest as [|v2 q2 r2 l2 Hv2 Hnil]; subst.
  inversion Hnil; subst.
  destruct v1; try discriminate. destruct v2; try discriminate.
  eexists. split; [reflexivity|]. split; [reflexivity|].
  repeat constructor.
Qed.

Lemma constructor_initialises_declared_fields_witness :
  construct CookieTests.TestObject [VStr "Hello World"; VNum 5]
  = Some (VObj "TestObject" [("text", VStr "Hello World"); ("value", VNum 5)]).
Proof.
  destruct (constructor_initialises_declared_fields [VStr "Hello World"; VNum 5])
    as (fields & Hc & _).
  - eexists. split; [reflexivity|]. repeat constructor.
  - rewrite Hc. simpl in Hc. now injection Hc as <-.
Defined.
